(** * scripts/summarize_slither.py: the report trimmer and its summaries

    A shallow embedding of the script.  It reads a Slither report, counts
    the findings per detector, keeps up to three examples per detector,
    writes a copy of the report whose [lines] arrays are replaced by short
    summaries, and writes a CSV table and a Markdown summary.

    Layout of the development:
    - [Py]     the Python values the script handles and the built-ins it
               calls on them ([dict.get], [or], [dict()], iteration,
               [Counter], [str.strip] ...);
    - [Script] the script itself, on values: [summarize_lines], the loop
               over the findings, the three writers and the whole run;
    - [Store]  the trimming loop once more, on a store of mutable objects
               with references, to speak about aliasing and mutation;
    - the theorems; the last part, [Refinement], shows that the run on
      the store computes what the run on values computes.

    What the embedding leaves out: JSON numbers with a fraction or an
    exponent (Python floats), the serialisation done by [json.dump] (the
    trimmed report is the object handed to it), the paths printed in the
    messages, and the text of the Markdown lines (the summary is the
    sequence of its [f.write] calls, each with the values it formats).

    A [string] is the UTF-8 text of a Python [str].  A [str] that has no
    UTF-8 text is therefore no value of the embedding: [json.load] builds
    one from an escaped lone surrogate (backslash, u, d800), [json.dump]
    writes it back as the same escape, but the [f.write] calls of lines 115,
    126, 131, 136 and 140 die of [UnicodeEncodeError] on it.  The writers
    below are the writers on texts that can be written; that way of dying
    is left out. *)

From Stdlib Require Import ZArith String Ascii List Lia Bool.
From Stdlib Require Import DecimalString DecimalNat DecimalFacts Sorted.
From stdpp Require Import base tactics option list sorting.

Local Set Warnings "-register-all".
Local Open Scope Z_scope.
Local Open Scope list_scope.

(** ** Python values and built-ins *)

Module Py.

(** Exceptions the script can die of (uncaught: the interpreter then exits
    with status 1). *)
Inductive exn : Type :=
  | AttributeError
  | TypeError
  | ValueError
  | JSONDecodeError.

Inductive result (A : Type) : Type :=
  | Ok (a : A)
  | Raise (e : exn).
Arguments Ok {A} a.
Arguments Raise {A} e.

Definition bind {A B : Type} (m : result A) (f : A -> result B) : result B :=
  match m with
  | Ok a => f a
  | Raise e => Raise e
  end.

Notation "x <- m ;; k" := (bind m (fun x => k))
  (at level 100, m at next level, right associativity).

(** Left-to-right traversal that stops at the first exception. *)
Fixpoint mapM {A B : Type} (f : A -> result B) (l : list A) : result (list B) :=
  match l with
  | [] => Ok []
  | x :: r => y <- f x ;; ys <- mapM f r ;; Ok (y :: ys)
  end.

Fixpoint foldM {A S : Type} (f : S -> A -> result S) (s : S) (l : list A) : result S :=
  match l with
  | [] => Ok s
  | x :: r => s' <- f s x ;; foldM f s' r
  end.

(** Hashable values: what can be a key of a [dict] or a [Counter]. *)
Inductive hkey : Type :=
  | KNone
  | KBool (b : bool)
  | KInt (z : Z)
  | KStr (s : string).

(** Values as [json.load] builds them, and as the script rebuilds them
    ([dict(e)] of a list of pairs may build a dict with keys that are not
    strings). A dict keeps its entries in insertion order. *)
Inductive pyval : Type :=
  | PNone
  | PBool (b : bool)
  | PInt (z : Z)
  | PStr (s : string)
  | PList (items : list pyval)
  | PDict (entries : list (hkey * pyval)).

Definition dict : Type := list (hkey * pyval).

Definition val_of_key (k : hkey) : pyval :=
  match k with
  | KNone => PNone
  | KBool b => PBool b
  | KInt z => PInt z
  | KStr s => PStr s
  end.

(** [hash(v)]: lists and dicts are unhashable. *)
Definition py_hash (v : pyval) : result hkey :=
  match v with
  | PNone => Ok KNone
  | PBool b => Ok (KBool b)
  | PInt z => Ok (KInt z)
  | PStr s => Ok (KStr s)
  | PList _ | PDict _ => Raise TypeError
  end.

(** Key equality is Python's [==]: [True == 1] and [False == 0]. *)
Definition key_num (k : hkey) : option Z :=
  match k with
  | KBool b => Some (if b then 1 else 0)
  | KInt z => Some z
  | KNone | KStr _ => None
  end.

Definition key_eqb (a b : hkey) : bool :=
  match a, b with
  | KNone, KNone => true
  | KStr s, KStr t => String.eqb s t
  | (KBool _ | KInt _), (KBool _ | KInt _) =>
      match key_num a, key_num b with
      | Some x, Some y => Z.eqb x y
      | _, _ => false
      end
  | _, _ => false
  end.

(** Truth value of an object, as [or] and [if] test it. *)
Definition truthy (v : pyval) : bool :=
  match v with
  | PNone => false
  | PBool b => b
  | PInt z => negb (Z.eqb z 0)
  | PStr s => negb (String.eqb s EmptyString)
  | PList l => match l with [] => false | _ => true end
  | PDict d => match d with [] => false | _ => true end
  end.

(** [a or b] *)
Definition py_or (a b : pyval) : pyval := if truthy a then a else b.

Definition is_list (v : pyval) : bool :=
  match v with PList _ => true | _ => false end.

Definition is_dict (v : pyval) : bool :=
  match v with PDict _ => true | _ => false end.

Definition is_none (v : pyval) : bool :=
  match v with PNone => true | _ => false end.

(** *** Ordered dictionaries

    The same operations serve [dict], [Counter] and [defaultdict]: the value
    type is a parameter. *)

Section OrderedDict.
Context {V : Type}.

Fixpoint lookup_key (k : hkey) (d : list (hkey * V)) : option V :=
  match d with
  | [] => None
  | (k', v) :: r => if key_eqb k' k then Some v else lookup_key k r
  end.

(** [d[k] = f(d[k])] with [f None] for a missing key: an existing entry is
    updated in place (its key object stays), a new one goes last. *)
Fixpoint alter_key (f : option V -> V) (k : hkey) (d : list (hkey * V)) : list (hkey * V) :=
  match d with
  | [] => [(k, f None)]
  | (k', v) :: r =>
      if key_eqb k' k then (k', f (Some v)) :: r
      else (k', v) :: alter_key f k r
  end.

(** [d[k] = v] *)
Definition set_key (k : hkey) (v : V) (d : list (hkey * V)) : list (hkey * V) :=
  alter_key (fun _ => v) k d.

(** [k in d] *)
Definition mem_key (k : hkey) (d : list (hkey * V)) : bool :=
  match lookup_key k d with Some _ => true | None => false end.
End OrderedDict.

(** [d.get(name)]: [None] when the key is missing. *)
Definition get (d : dict) (name : string) : pyval :=
  match lookup_key (KStr name) d with
  | Some v => v
  | None => PNone
  end.

(** [d.get(name, dflt)] *)
Definition get_default (d : dict) (name : string) (dflt : pyval) : pyval :=
  match lookup_key (KStr name) d with
  | Some v => v
  | None => dflt
  end.

(** The receiver of a [.get] call: only a dict has the method. *)
Definition as_dict (v : pyval) : result dict :=
  match v with
  | PDict d => Ok d
  | _ => Raise AttributeError
  end.

(** *** Text: a [string] holds the UTF-8 bytes of a Python [str] *)

Definition is_continuation (c : ascii) : bool :=
  let n := nat_of_ascii c in ((128 <=? n) && (n <? 192))%nat.

Definition starts_with_continuation (s : string) : bool :=
  match s with
  | String c _ => is_continuation c
  | EmptyString => false
  end.

(** The characters of a text, each as a one-character text. *)
Fixpoint chars (s : string) : list string :=
  match s with
  | EmptyString => []
  | String c r =>
      match chars r with
      | h :: t =>
          if starts_with_continuation h then String c h :: t
          else String c EmptyString :: h :: t
      | [] => [String c EmptyString]
      end
  end.

(** [iter(v)], run to the end: a list gives its items, a dict its keys, a
    string its characters; nothing else in a report is iterable. *)
Definition py_iter (v : pyval) : result (list pyval) :=
  match v with
  | PList l => Ok l
  | PDict d => Ok (map (fun kv => val_of_key (fst kv)) d)
  | PStr s => Ok (map PStr (chars s))
  | PNone | PBool _ | PInt _ => Raise TypeError
  end.

(** One item of the sequence given to [dict()]: it must be iterable, have
    exactly two items, and the first must be hashable. *)
Definition pair_of_item (x : pyval) : result (hkey * pyval) :=
  xs <- py_iter x ;;
  match xs with
  | [k; v] => k' <- py_hash k ;; Ok (k', v)
  | _ => Raise ValueError
  end.

(** [dict(v)]: a copy of a dict, or the dict built from a sequence of
    pairs. *)
Definition py_dict (v : pyval) : result dict :=
  match v with
  | PDict d => Ok d
  | _ =>
      items <- py_iter v ;;
      foldM (fun d x => kv <- pair_of_item x ;; Ok (set_key (fst kv) (snd kv) d)) [] items
  end.

(** Slices [l[:k]] and [l[-k:]] for [k >= 0]. *)
Definition slice_to {A : Type} (k : nat) (l : list A) : list A := take k l.
Definition slice_from_end {A : Type} (k : nat) (l : list A) : list A :=
  drop (length l - k) l.

(** *** [str.strip] and [str.replace] *)

(** Whether a character is white space for [str.strip]: the code points
    9-13, 28-32, 0x85, 0xA0, 0x1680, 0x2000-0x200A, 0x2028, 0x2029, 0x202F,
    0x205F and 0x3000, here by their UTF-8 bytes. *)
Definition is_space (ch : string) : bool :=
  match map nat_of_ascii (list_ascii_of_string ch) with
  | [b] => ((9 <=? b) && (b <=? 13) || (28 <=? b) && (b <=? 32))%nat
  | [194; b] => ((b =? 133) || (b =? 160))%nat
  | [225; 154; 128] => true
  | [226; 128; b] =>
      ((128 <=? b) && (b <=? 138) || (b =? 168) || (b =? 169) || (b =? 175))%nat
  | [226; 129; 159] => true
  | [227; 128; 128] => true
  | _ => false
  end%nat.

Fixpoint drop_spaces (l : list string) : list string :=
  match l with
  | [] => []
  | c :: r => if is_space c then drop_spaces r else l
  end.

Definition concat_text (l : list string) : string :=
  fold_right String.append EmptyString l.

(** [s.strip()] *)
Definition strip (s : string) : string :=
  concat_text (rev (drop_spaces (rev (drop_spaces (chars s))))).

Definition newline : string := String "010" EmptyString.
Definition quote : string := String "034" EmptyString.

(** [s.replace("\n", "\n  - ")] *)
Fixpoint indent_newlines (s : string) : string :=
  match s with
  | EmptyString => EmptyString
  | String c r =>
      if Ascii.eqb c "010" then String.append newline (String.append "  - " (indent_newlines r))
      else String c (indent_newlines r)
  end.

(** [str(n)] for the integers. *)
Definition str_of_nat (n : nat) : string := NilZero.string_of_uint (Nat.to_uint n).
Definition str_of_Z (z : Z) : string := NilZero.string_of_int (Z.to_int z).

(** [str(k)] of a key, as an f-string formats it. *)
Definition key_str (k : hkey) : string :=
  match k with
  | KNone => "None"
  | KBool true => "True"
  | KBool false => "False"
  | KInt z => str_of_Z z
  | KStr s => s
  end.

(** *** [collections.Counter] *)

Definition counter : Type := list (hkey * nat).

(** [c[k] += 1] *)
Definition incr (k : hkey) (c : counter) : counter :=
  alter_key (fun o => S (default 0%nat o)) k c.

(** [c[k]]: 0 for a missing key. *)
Definition count_of (k : hkey) (c : counter) : nat :=
  default 0%nat (lookup_key k c).

(** [sum(c.values())] *)
Definition total (c : counter) : nat := foldr (fun kv n => (snd kv + n)%nat) 0%nat c.

(** [c.most_common()] is [sorted(c.items(), key=itemgetter(1), reverse=True)]:
    a stable sort, larger counts first. *)
Fixpoint insert_desc {K : Type} (x : K * nat) (l : list (K * nat)) : list (K * nat) :=
  match l with
  | [] => [x]
  | y :: r => if (snd x <? snd y)%nat then y :: insert_desc x r else x :: l
  end.

Definition most_common {K : Type} (c : list (K * nat)) : list (K * nat) :=
  foldr insert_desc [] c.

(** Larger counts first: the order [most_common] sorts by. *)
Definition desc {K : Type} (a b : K * nat) : Prop := (snd b <= snd a)%nat.

(** [k] is the first key of [c] to have the largest count. *)
Definition first_max (k : hkey) (c : counter) : Prop :=
  exists n before after,
    c = before ++ (k, n) :: after /\
    Forall (fun e => (snd e < n)%nat) before /\
    Forall (fun e => (snd e <= n)%nat) after.

(** Keys that are pairwise different for [==]. *)
Definition distinct (ks : list hkey) : Prop :=
  StronglySorted (fun a b => key_eqb a b = false) ks.

(** [c.most_common(n)]: the first [n] of the above. *)
Definition most_common_n {K : Type} (n : nat) (c : list (K * nat)) : list (K * nat) :=
  take n (most_common c).

End Py.

(** ** The script *)

Module Script.
Import Py.

Definition py_len (l : list pyval) : pyval := PInt (Z.of_nat (length l)).

(** [summarize_lines(lines)] *)
Definition summarize_lines (lines : pyval) : pyval :=
  match lines with
  | PList l =>
      if (length l <=? 10)%nat then
        PDict [(KStr "count", py_len l); (KStr "lines_preview", lines)]
      else
        PDict [(KStr "count", py_len l);
               (KStr "first", PList (slice_to 5 l));
               (KStr "last", PList (slice_from_end 5 l))]
  | _ => lines
  end.

(** The element loop body, lines 74-81: the [lines] of the element's own
    [source_mapping]. *)
Definition trim_source_mapping (e_copy : dict) : dict :=
  match get e_copy "source_mapping" with
  | PDict sm =>
      let lines := get sm "lines" in
      if is_none lines then e_copy
      else
        let sm := set_key (KStr "lines") (summarize_lines lines) sm in
        set_key (KStr "source_mapping") (PDict sm) e_copy
  | _ => e_copy
  end.

(** Lines 83-95: the [lines] of [type_specific_fields.parent.source_mapping]. *)
Definition trim_parent (e_copy : dict) : dict :=
  match py_or (get e_copy "type_specific_fields") (PDict []) with
  | PDict tsf =>
      match get tsf "parent" with
      | PDict parent =>
          match get parent "source_mapping" with
          | PDict psm =>
              if mem_key (KStr "lines") psm then
                let psm := set_key (KStr "lines") (summarize_lines (get psm "lines")) psm in
                let parent := set_key (KStr "source_mapping") (PDict psm) parent in
                let tsf := set_key (KStr "parent") (PDict parent) tsf in
                set_key (KStr "type_specific_fields") (PDict tsf) e_copy
              else e_copy
          | _ => e_copy
          end
      | _ => e_copy
      end
  | _ => e_copy
  end.

(** One turn of [for e in elems], lines 74-96: the value appended to
    [new_elems]. *)
Definition trim_element (e : pyval) : result pyval :=
  e_copy <- py_dict e ;;
  Ok (PDict (trim_parent (trim_source_mapping e_copy))).

(** Lines 70-98 for a finding [det] whose entries are [d]: the value
    appended to [trimmed_detectors]. *)
Definition trim_detector (d : dict) : result pyval :=
  elems <- py_iter (py_or (get d "elements") (PList [])) ;;
  new_elems <- mapM trim_element elems ;;
  Ok (PDict (set_key (KStr "elements") (PList new_elems) d)).

(** The module-level tables the loop fills. *)
Record agg : Type := {
  counts : counter;
  impact_counts : list (hkey * counter);
  confidence_counts : list (hkey * counter);
  top_examples : list (hkey * list pyval);
  trimmed_detectors : list pyval
}.

Definition agg_init : agg :=
  {| counts := []; impact_counts := []; confidence_counts := [];
     top_examples := []; trimmed_detectors := [] |}.

(** [table[check][k] += 1] on a [defaultdict(Counter)] *)
Definition incr_in (check k : hkey) (table : list (hkey * counter)) : list (hkey * counter) :=
  alter_key (fun o => incr k (default [] o)) check table.

(** Lines 66-67 on a [defaultdict(list)] *)
Definition keep_example (check : hkey) (det : pyval)
    (table : list (hkey * list pyval)) : list (hkey * list pyval) :=
  alter_key (fun o =>
               let examples := default [] o in
               if (length examples <? 3)%nat then examples ++ [det] else examples)
            check table.

(** The detector read off a finding, line 58, and its two attributes, lines
    60-61. *)
Definition check_of (d : dict) : pyval := py_or (get d "check") (PStr "unknown").
Definition impact_of (d : dict) : pyval := py_or (get d "impact") (PStr "").
Definition confidence_of (d : dict) : pyval := py_or (get d "confidence") (PStr "").

(** One turn of [for det in detectors], lines 58-98. *)
Definition step (st : agg) (det : pyval) : result agg :=
  d <- as_dict det ;;
  check <- py_hash (check_of d) ;;
  impact <- py_hash (impact_of d) ;;
  confidence <- py_hash (confidence_of d) ;;
  det_copy <- trim_detector d ;;
  Ok {| counts := incr check (counts st);
        impact_counts := incr_in check impact (impact_counts st);
        confidence_counts := incr_in check confidence (confidence_counts st);
        top_examples := keep_example check det (top_examples st);
        trimmed_detectors := trimmed_detectors st ++ [det_copy] |}.

(** The whole loop, lines 57-98. *)
Definition aggregate (dets : list pyval) : result agg := foldM step agg_init dets.

(** Two parts of [step], named to state what the loop computes: the three
    keys it reads off a finding, lines 58-63, and the trimmed copy of the
    finding, lines 70-97. *)
Definition keys_of (det : pyval) : result (hkey * hkey * hkey) :=
  d <- as_dict det ;;
  check <- py_hash (check_of d) ;;
  impact <- py_hash (impact_of d) ;;
  confidence <- py_hash (confidence_of d) ;;
  Ok (check, impact, confidence).

Definition trim_finding (det : pyval) : result pyval :=
  d <- as_dict det ;; trim_detector d.

(** Whether a finding counts for the detector [check]. *)
Definition in_category (check : hkey) (det : pyval) : bool :=
  match keys_of det with
  | Ok (c, _, _) => key_eqb c check
  | Raise _ => false
  end.

(** The counter a sequence of keys builds, one [c[k] += 1] after the
    other. *)
Definition tally (ks : list hkey) : counter := foldl (fun c k => incr k c) [] ks.

(** The Loader, lines 30-32: [results] and [detectors]. *)
Definition locate (data : dict) : pyval * pyval :=
  let results := py_or (get data "results") (PDict []) in
  let detectors :=
    match results with
    | PDict r => get r "detectors"
    | _ => results
    end in
  (results, detectors).

(** Lines 101-104: the object written to the trimmed report. *)
Definition build_trimmed (data : dict) (results : pyval) (trimmed : list pyval) : pyval :=
  let trimmed_results := match results with PDict r => r | _ => [] end in
  let trimmed_results := set_key (KStr "detectors") (PList trimmed) trimmed_results in
  PDict (set_key (KStr "results") (PDict trimmed_results) data).

(** *** The CSV writer, lines 110-115 *)

(** [table[check].most_common(1)[0][0] if table[check] else ''].  The
    [[0]] cannot fail: the first one of a counter that is not empty. *)
Definition top_key (c : counter) : hkey :=
  match c with
  | [] => KStr ""
  | _ :: _ =>
      match most_common_n 1 c with
      | kv :: _ => fst kv
      | [] => KStr ""
      end
  end.

(** [table[check]] on a [defaultdict(Counter)] *)
Definition counter_of (check : hkey) (table : list (hkey * counter)) : counter :=
  default [] (lookup_key check table).

Definition csv_header : string :=
  String.append "check,count,top_impact,top_confidence" newline.

Definition quoted (s : string) : string := String.append quote (String.append s quote).

(** The f-string of line 115. *)
Definition csv_row (st : agg) (row : hkey * nat) : string :=
  let check := fst row in
  let cnt := snd row in
  let top_imp := top_key (counter_of check (impact_counts st)) in
  let top_conf := top_key (counter_of check (confidence_counts st)) in
  concat_text [quoted (key_str check); ","%string; str_of_nat cnt; ","%string;
               quoted (key_str top_imp); ","%string; quoted (key_str top_conf); newline].

Definition write_csv (st : agg) : string :=
  String.append csv_header (concat_text (map (csv_row st) (most_common (counts st)))).

(** Reading the table back: a text cut at a separator, and whether a field
    stands between double quotes. *)
Fixpoint split_on (sep : ascii) (s : string) : list string :=
  match s with
  | EmptyString => [EmptyString]
  | String c r =>
      if Ascii.eqb c sep then EmptyString :: split_on sep r
      else match split_on sep r with
           | h :: t => String c h :: t
           | [] => [String c EmptyString]
           end
  end.

Definition is_quoted (field : string) : bool :=
  match list_ascii_of_string field with
  | first :: rest =>
      Ascii.eqb first "034" &&
      match rev rest with
      | last :: _ => Ascii.eqb last "034"
      | [] => false
      end
  | [] => false
  end.

(** *** The Markdown writer, lines 118-141

    One constructor per [f.write] call, with the values its f-string
    formats. *)
Inductive md_line : Type :=
  | MdTitle                                 (* '# Slither Summary\n\n' *)
  | MdTotal (n : nat)                       (* f'- Total findings: **{total}**\n' *)
  | MdUnique (n : nat)                      (* f'- Unique detector types: **{len(counts)}**\n\n' *)
  | MdTopHeading                            (* '## Top detectors (by count)\n\n' *)
  | MdTop (check : hkey) (cnt : nat)        (* f'- **{check}**: {cnt}\n' *)
  | MdBlank                                 (* '\n' *)
  | MdExamplesHeading                       (* '## Representative findings (up to 3 per detector)\n\n' *)
  | MdCheck (check : hkey) (cnt : nat)      (* f'### {check} ({counts[check]})\n' *)
  | MdExample (impact conf : pyval)         (* f'- Impact: {impact} • Confidence: {conf}\n' *)
  | MdDescription (desc_formatted : string) (* '  - ' + desc_formatted + '\n' *).

(** What a block of the writer has written, and the exception that stopped
    it, if any. *)
Definition written : Type := list md_line * option exn.

Definition then_write (a b : written) : written :=
  match a with
  | (l, None) => (l ++ fst b, snd b)
  | (l, Some e) => (l, Some e)
  end.

Fixpoint for_each {A : Type} (f : A -> written) (l : list A) : written :=
  match l with
  | [] => ([], None)
  | x :: r => then_write (f x) (for_each f r)
  end.

(** Lines 133-140, for one example.  [ex.get] needs a dict and
    [desc.strip()] a [str]: these are the two calls that can raise on the
    values of the embedding.  (The two [f.write] calls raise on a text with
    a lone surrogate, which is no [string]: see the head of the file.) *)
Definition write_example (ex : pyval) : written :=
  match as_dict ex with
  | Raise e => ([], Some e)
  | Ok d =>
      let desc := py_or (py_or (get d "description") (get d "markdown")) (PStr "") in
      let impact := get_default d "impact" (PStr "") in
      let conf := get_default d "confidence" (PStr "") in
      then_write ([MdExample impact conf], None)
        match desc with
        | PStr s =>
            let desc_formatted := indent_newlines (strip s) in
            if String.eqb desc_formatted EmptyString then ([], None)
            else ([MdDescription desc_formatted], None)
        | _ => ([], Some AttributeError)
        end
  end.

(** Lines 131-141, for one detector. *)
Definition write_section (st : agg) (entry : hkey * list pyval) : written :=
  then_write ([MdCheck (fst entry) (count_of (fst entry) (counts st))], None)
    (then_write (for_each write_example (snd entry)) ([MdBlank], None)).

Definition write_md (st : agg) : written :=
  then_write
    ([MdTitle; MdTotal (total (counts st)); MdUnique (length (counts st)); MdTopHeading]
       ++ map (fun row => MdTop (fst row) (snd row)) (most_common_n 30 (counts st))
       ++ [MdBlank; MdExamplesHeading], None)
    (for_each (write_section st) (take 30 (top_examples st))).

(** Reading the summary back: the example lines at the head of a block,
    each with the impact and the confidence it shows, and the sections of
    the summary, each with its detector and the examples listed under it. *)
Fixpoint leading_examples (md : list md_line) : list (pyval * pyval) :=
  match md with
  | MdExample impact conf :: r => (impact, conf) :: leading_examples r
  | MdDescription _ :: r => leading_examples r
  | _ => []
  end.

Fixpoint sections (md : list md_line) : list (hkey * list (pyval * pyval)) :=
  match md with
  | [] => []
  | MdCheck check _ :: r => (check, leading_examples r) :: sections r
  | _ :: r => sections r
  end.

(** A block of example lines: read back, it gives [shown], and it holds no
    section heading. *)
Definition example_block (lines : list md_line) (shown : list (pyval * pyval)) : Prop :=
  forall tail,
    leading_examples (lines ++ tail) = shown ++ leading_examples tail /\
    sections (lines ++ tail) = sections tail.

(** What the summary shows of a finding, lines 134-136. *)
Definition shown_of (ex : pyval) : pyval * pyval :=
  match ex with
  | PDict d => (get_default d "impact" (PStr ""), get_default d "confidence" (PStr ""))
  | _ => (PNone, PNone)
  end.

(** *** The run *)

Inductive input_file : Type :=
  | Absent
  | Unparsable
  | Parsed (data : pyval).

Inductive message : Type :=
  | InputNotFound
  | NoDetectorsFound
  | TrimmedWritten
  | SummaryWritten
  | CountsWritten.

(** The three output files: [None] for a file that does not exist. *)
Record files : Type := {
  trimmed_json : option pyval;
  counts_csv : option string;
  summary_md : option (list md_line)
}.

Definition no_files : files :=
  {| trimmed_json := None; counts_csv := None; summary_md := None |}.

Inductive status : Type :=
  | Exit (code : Z)
  | Uncaught (e : exn).

(** The exit status the shell sees. *)
Definition exit_status (s : status) : Z :=
  match s with
  | Exit code => code
  | Uncaught _ => 1
  end.

Record outcome : Type := {
  ended : status;
  stdout : list message;
  outputs : files
}.

Definition crash (e : exn) : outcome :=
  {| ended := Uncaught e; stdout := []; outputs := no_files |}.

Definition run (input : input_file) : outcome :=
  match input with
  | Absent => {| ended := Exit 2; stdout := [InputNotFound]; outputs := no_files |}
  | Unparsable => crash JSONDecodeError
  | Parsed doc =>
      match as_dict doc with
      | Raise e => crash e
      | Ok data =>
          let '(results, detectors) := locate data in
          if is_none detectors then
            {| ended := Exit 0; stdout := [NoDetectorsFound]; outputs := no_files |}
          else
            match (dets <- py_iter detectors ;; aggregate dets) with
            | Raise e => crash e
            | Ok st =>
                let trimmed := build_trimmed data results (trimmed_detectors st) in
                let csv := write_csv st in
                let '(md, failure) := write_md st in
                let out := {| trimmed_json := Some trimmed;
                              counts_csv := Some csv;
                              summary_md := Some md |} in
                match failure with
                | Some e => {| ended := Uncaught e; stdout := []; outputs := out |}
                | None =>
                    {| ended := Exit 0;
                       stdout := [TrimmedWritten; SummaryWritten; CountsWritten];
                       outputs := out |}
                end
            end
      end
  end.

End Script.

(** ** The loop over the findings, on a store of objects

    Lists and dicts are objects: a value holds a reference to one, two
    values may hold the same reference, and [d[k] = v] or [l.append(v)]
    changes the object for every holder.  This module follows lines 57-104
    statement by statement on such a store. *)

Module Store.
Import Py.

Inductive val : Type :=
  | VNone
  | VBool (b : bool)
  | VInt (z : Z)
  | VStr (s : string)
  | VRef (l : nat).

Inductive obj : Type :=
  | OList (items : list val)
  | ODict (entries : list (hkey * val)).

(** The store: the object of reference [l] is at index [l]. *)
Abbreviation store := (list obj).

(** How a computation stops short: a Python exception, or a reference to
    no object (which no run of the interpreter produces). *)
Inductive fault : Type :=
  | Raised (e : exn)
  | Dangling.

Inductive res (A : Type) : Type :=
  | Done (a : A)
  | Fail (f : fault).
Arguments Done {A} a.
Arguments Fail {A} f.

Definition M (A : Type) : Type := store -> res A * store.

Definition ret {A : Type} (a : A) : M A := fun h => (Done a, h).

Definition raise {A : Type} (e : exn) : M A := fun h => (Fail (Raised e), h).

Definition bind {A B : Type} (m : M A) (k : A -> M B) : M B :=
  fun h =>
    match m h with
    | (Done a, h') => k a h'
    | (Fail f, h') => (Fail f, h')
    end.

Notation "x <~ m ;; k" := (bind m (fun x => k))
  (at level 100, m at next level, right associativity).
Notation "m ;;; k" := (bind m (fun _ => k))
  (at level 100, right associativity).

Fixpoint forM {A : Type} (f : A -> M unit) (l : list A) : M unit :=
  match l with
  | [] => ret tt
  | x :: r => f x ;;; forM f r
  end.

Fixpoint foldM {A S : Type} (f : S -> A -> M S) (s : S) (l : list A) : M S :=
  match l with
  | [] => ret s
  | x :: r => s' <~ f s x ;; foldM f s' r
  end.

(** A new object, at the end of the store. *)
Definition alloc (o : obj) : M val :=
  fun h => (Done (VRef (length h)), h ++ [o]).

Definition deref (l : nat) : M obj :=
  fun h =>
    match h !! l with
    | Some o => (Done o, h)
    | None => (Fail Dangling, h)
    end.

(** The object of reference [l] becomes [o]. *)
Definition update (l : nat) (o : obj) : M unit :=
  fun h =>
    match h !! l with
    | Some _ => (Done tt, <[l := o]> h)
    | None => (Fail Dangling, h)
    end.

Definition val_of_key (k : hkey) : val :=
  match k with
  | KNone => VNone
  | KBool b => VBool b
  | KInt z => VInt z
  | KStr s => VStr s
  end.

Definition hash (v : val) : M hkey :=
  match v with
  | VNone => ret KNone
  | VBool b => ret (KBool b)
  | VInt z => ret (KInt z)
  | VStr s => ret (KStr s)
  | VRef _ => raise TypeError
  end.

Definition truthy (v : val) : M bool :=
  match v with
  | VNone => ret false
  | VBool b => ret b
  | VInt z => ret (negb (Z.eqb z 0))
  | VStr s => ret (negb (String.eqb s EmptyString))
  | VRef l =>
      o <~ deref l ;;
      ret match o with
          | OList [] | ODict [] => false
          | _ => true
          end
  end.

Definition is_none (v : val) : bool :=
  match v with VNone => true | _ => false end.

(** [isinstance(v, dict)] and [isinstance(v, list)] *)
Definition is_dict (v : val) : M bool :=
  match v with
  | VRef l => o <~ deref l ;; ret match o with ODict _ => true | OList _ => false end
  | _ => ret false
  end.

Definition is_list (v : val) : M bool :=
  match v with
  | VRef l => o <~ deref l ;; ret match o with OList _ => true | ODict _ => false end
  | _ => ret false
  end.

(** [v.get(name)] *)
Definition get (v : val) (name : string) : M val :=
  match v with
  | VRef l =>
      o <~ deref l ;;
      match o with
      | ODict d => ret (default VNone (lookup_key (KStr name) d))
      | OList _ => raise AttributeError
      end
  | _ => raise AttributeError
  end.

Fixpoint is_substring (p s : string) : bool :=
  String.prefix p s ||
  match s with
  | EmptyString => false
  | String _ r => is_substring p r
  end.

(** [name in v]: a key of a dict, an item of a list, a part of a string. *)
Definition contains (v : val) (name : string) : M bool :=
  match v with
  | VRef l =>
      o <~ deref l ;;
      match o with
      | ODict d => ret (mem_key (KStr name) d)
      | OList items =>
          ret (existsb (fun x => match x with
                                 | VStr s => String.eqb s name
                                 | _ => false
                                 end) items)
      end
  | VStr s => ret (is_substring name s)
  | VNone | VBool _ | VInt _ => raise TypeError
  end.

(** [v[name] = x]: only a dict takes a string subscript. *)
Definition set_item (v : val) (name : string) (x : val) : M unit :=
  match v with
  | VRef l =>
      o <~ deref l ;;
      match o with
      | ODict d => update l (ODict (set_key (KStr name) x d))
      | OList _ => raise TypeError
      end
  | _ => raise TypeError
  end.

(** [v.append(x)] *)
Definition append (v : val) (x : val) : M unit :=
  match v with
  | VRef l =>
      o <~ deref l ;;
      match o with
      | OList items => update l (OList (items ++ [x]))
      | ODict _ => raise AttributeError
      end
  | _ => raise AttributeError
  end.

(** [iter(v)], run to the end. *)
Definition iter (v : val) : M (list val) :=
  match v with
  | VRef l =>
      o <~ deref l ;;
      match o with
      | OList items => ret items
      | ODict d => ret (map (fun kv => val_of_key (fst kv)) d)
      end
  | VStr s => ret (map VStr (chars s))
  | VNone | VBool _ | VInt _ => raise TypeError
  end.

Definition pair_of_item (x : val) : M (hkey * val) :=
  xs <~ iter x ;;
  match xs with
  | [k; v] => k' <~ hash k ;; ret (k', v)
  | _ => raise ValueError
  end.

(** [dict(v)]: a new dict object, with the entries of [v] when [v] is a
    dict: the values are shared, not copied. *)
Definition dict_copy (v : val) : M val :=
  b <~ is_dict v ;;
  if b : bool then
    match v with
    | VRef l =>
        o <~ deref l ;;
        match o with
        | ODict d => alloc (ODict d)
        | OList _ => raise TypeError
        end
    | _ => raise TypeError
    end
  else
    items <~ iter v ;;
    d <~ foldM (fun d x => kv <~ pair_of_item x ;; ret (set_key (fst kv) (snd kv) d)) [] items ;;
    alloc (ODict d).

(** [a or b], where [b] builds the right operand if it is needed. *)
Definition or_else (a : val) (b : M val) : M val :=
  t <~ truthy a ;;
  if t : bool then ret a else b.

(** [summarize_lines(lines)]: the summary is a new dict; [lines_preview]
    holds the list itself, [first] and [last] hold new lists. *)
Definition summarize_lines (lines : val) : M val :=
  b <~ is_list lines ;;
  if b : bool then
    items <~ iter lines ;;
    let n := VInt (Z.of_nat (length items)) in
    if (length items <=? 10)%nat then
      alloc (ODict [(KStr "count", n); (KStr "lines_preview", lines)])
    else
      first <~ alloc (OList (slice_to 5 items)) ;;
      last <~ alloc (OList (slice_from_end 5 items)) ;;
      alloc (ODict [(KStr "count", n); (KStr "first", first); (KStr "last", last)])
  else ret lines.

(** Lines 75-81. *)
Definition trim_source_mapping (e_copy : val) : M unit :=
  sm <~ get e_copy "source_mapping" ;;
  b <~ is_dict sm ;;
  if b : bool then
    lines <~ get sm "lines" ;;
    if is_none lines then ret tt
    else
      sm <~ dict_copy sm ;;
      summary <~ summarize_lines lines ;;
      set_item sm "lines" summary ;;;
      set_item e_copy "source_mapping" sm
  else ret tt.

(** Lines 83-95. *)
Definition trim_parent (e_copy : val) : M unit :=
  tsf0 <~ get e_copy "type_specific_fields" ;;
  tsf <~ or_else tsf0 (alloc (ODict [])) ;;
  b <~ is_dict tsf ;;
  if b : bool then
    parent <~ get tsf "parent" ;;
    b <~ is_dict parent ;;
    if b : bool then
      psm <~ get parent "source_mapping" ;;
      b <~ is_dict psm ;;
      if b : bool then
        has_lines <~ contains psm "lines" ;;
        if has_lines : bool then
          psm <~ dict_copy psm ;;
          lines <~ get psm "lines" ;;
          summary <~ summarize_lines lines ;;
          set_item psm "lines" summary ;;;
          parent <~ dict_copy parent ;;
          set_item parent "source_mapping" psm ;;;
          tsf <~ dict_copy tsf ;;
          set_item tsf "parent" parent ;;;
          set_item e_copy "type_specific_fields" tsf
        else ret tt
      else ret tt
    else ret tt
  else ret tt.

(** One turn of [for e in elems], lines 74-96. *)
Definition trim_element (new_elems : val) (e : val) : M unit :=
  e_copy <~ dict_copy e ;;
  trim_source_mapping e_copy ;;;
  trim_parent e_copy ;;;
  append new_elems e_copy.

(** Lines 70-98, without the last append: the copy of the finding. *)
Definition trim_detector (det : val) : M val :=
  det_copy <~ dict_copy det ;;
  elems0 <~ get det_copy "elements" ;;
  elems <~ or_else elems0 (alloc (OList [])) ;;
  new_elems <~ alloc (OList []) ;;
  items <~ iter elems ;;
  forM (trim_element new_elems) items ;;;
  set_item det_copy "elements" new_elems ;;;
  ret det_copy.

(** The tables of the script; [trimmed_detectors] is a list object. *)
Record agg : Type := {
  counts : counter;
  impact_counts : list (hkey * counter);
  confidence_counts : list (hkey * counter);
  top_examples : list (hkey * list val);
  trimmed_detectors : val
}.

Definition keep_example (check : hkey) (det : val)
    (table : list (hkey * list val)) : list (hkey * list val) :=
  alter_key (fun o =>
               let examples := default [] o in
               if (length examples <? 3)%nat then examples ++ [det] else examples)
            check table.

(** One turn of [for det in detectors], lines 58-98. *)
Definition step (st : agg) (det : val) : M agg :=
  c <~ get det "check" ;;
  c <~ or_else c (ret (VStr "unknown")) ;;
  check <~ hash c ;;
  i <~ get det "impact" ;;
  i <~ or_else i (ret (VStr "")) ;;
  c' <~ get det "confidence" ;;
  c' <~ or_else c' (ret (VStr "")) ;;
  impact <~ hash i ;;
  confidence <~ hash c' ;;
  det_copy <~ trim_detector det ;;
  append (trimmed_detectors st) det_copy ;;;
  ret {| counts := incr check (counts st);
         impact_counts := Script.incr_in check impact (impact_counts st);
         confidence_counts := Script.incr_in check confidence (confidence_counts st);
         top_examples := keep_example check det (top_examples st);
         trimmed_detectors := trimmed_detectors st |}.

(** Lines 37-98: the tables start empty, then the loop. *)
Definition aggregate (detectors : val) : M agg :=
  trimmed <~ alloc (OList []) ;;
  dets <~ iter detectors ;;
  foldM step
        {| counts := []; impact_counts := []; confidence_counts := [];
           top_examples := []; trimmed_detectors := trimmed |}
        dets.

(** Lines 101-104: the object handed to [json.dump]. *)
Definition build_trimmed (data results : val) (st : agg) : M val :=
  trimmed <~ dict_copy data ;;
  b <~ is_dict results ;;
  trimmed_results <~ (if b : bool then dict_copy results else alloc (ODict [])) ;;
  set_item trimmed_results "detectors" (trimmed_detectors st) ;;;
  set_item trimmed "results" trimmed_results ;;;
  ret trimmed.

(** The Loader, lines 30-32. *)
Definition locate (data : val) : M (val * val) :=
  r <~ get data "results" ;;
  results <~ or_else r (alloc (ODict [])) ;;
  b <~ is_dict results ;;
  detectors <~ (if b : bool then get results "detectors" else ret results) ;;
  ret (results, detectors).

(** Lines 30-104 on the document [data]: nothing when the Loader resolves
    [None], else the tables and the object to dump. *)
Definition process (data : val) : M (option (agg * val)) :=
  found <~ locate data ;;
  if is_none (snd found) then ret None
  else
    st <~ aggregate (snd found) ;;
    trimmed <~ build_trimmed data (fst found) st ;;
    ret (Some (st, trimmed)).

(** The value a store holds under [v], read down to [fuel] references
    deep. *)
Fixpoint all_some {A : Type} (l : list (option A)) : option (list A) :=
  match l with
  | [] => Some []
  | Some x :: r => match all_some r with Some xs => Some (x :: xs) | None => None end
  | None :: _ => None
  end.

Fixpoint view (fuel : nat) (h : store) (v : val) : option pyval :=
  match v with
  | VNone => Some PNone
  | VBool b => Some (PBool b)
  | VInt z => Some (PInt z)
  | VStr s => Some (PStr s)
  | VRef l =>
      match fuel with
      | O => None
      | S fuel =>
          match h !! l with
          | Some (OList items) =>
              match all_some (map (view fuel h) items) with
              | Some vs => Some (PList vs)
              | None => None
              end
          | Some (ODict d) =>
              match all_some (map (fun kv => match view fuel h (snd kv) with
                                             | Some x => Some (fst kv, x)
                                             | None => None
                                             end) d) with
              | Some kvs => Some (PDict kvs)
              | None => None
              end
          | None => None
          end
      end
  end.

(** The objects [json.load] builds for a document, added to the store [h]:
    the parts first, then the list or the dict that holds them. *)
Fixpoint load (pv : pyval) (h : store) {struct pv} : val * store :=
  match pv with
  | PNone => (VNone, h)
  | PBool b => (VBool b, h)
  | PInt z => (VInt z, h)
  | PStr s => (VStr s, h)
  | PList items =>
      let '(vs, h') :=
        (fix load_items (l : list pyval) (h : store) : list val * store :=
           match l with
           | [] => ([], h)
           | x :: r =>
               let '(v, h1) := load x h in
               let '(vs, h2) := load_items r h1 in
               (v :: vs, h2)
           end) items h in
      (VRef (length h'), h' ++ [OList vs])
  | PDict d =>
      let '(kvs, h') :=
        (fix load_entries (l : list (hkey * pyval)) (h : store)
           : list (hkey * val) * store :=
           match l with
           | [] => ([], h)
           | (k, x) :: r =>
               let '(v, h1) := load x h in
               let '(kvs, h2) := load_entries r h1 in
               ((k, v) :: kvs, h2)
           end) d h in
      (VRef (length h'), h' ++ [ODict kvs])
  end.

(** The two inner loops of [load], by name. *)
Fixpoint load_items (l : list pyval) (h : store) : list val * store :=
  match l with
  | [] => ([], h)
  | x :: r =>
      let '(v, h1) := load x h in
      let '(vs, h2) := load_items r h1 in
      (v :: vs, h2)
  end.

Fixpoint load_entries (l : list (hkey * pyval)) (h : store) : list (hkey * val) * store :=
  match l with
  | [] => ([], h)
  | (k, x) :: r =>
      let '(v, h1) := load x h in
      let '(kvs, h2) := load_entries r h1 in
      ((k, v) :: kvs, h2)
  end.

(** [rep P h pv v]: in the store [h] the value [v] holds the Python value
    [pv], and the objects read on the way have their references in [P]. *)
Inductive rep (P : nat -> Prop) (h : store) : pyval -> val -> Prop :=
  | rep_none : rep P h PNone VNone
  | rep_bool b : rep P h (PBool b) (VBool b)
  | rep_int z : rep P h (PInt z) (VInt z)
  | rep_str s : rep P h (PStr s) (VStr s)
  | rep_list l ps vs :
      P l -> h !! l = Some (OList vs) ->
      Forall2 (rep P h) ps vs ->
      rep P h (PList ps) (VRef l)
  | rep_dict l pd d :
      P l -> h !! l = Some (ODict d) ->
      map fst pd = map fst d ->
      Forall2 (rep P h) (map snd pd) (map snd d) ->
      rep P h (PDict pd) (VRef l).

(** The entries of a dict object hold the entries of a Python dict. *)
Definition entries (P : nat -> Prop) (h : store) (pd : dict) (d : list (hkey * val)) : Prop :=
  map fst pd = map fst d /\ Forall2 (rep P h) (map snd pd) (map snd d).

(** References outside the list [X]: the objects that are being built. *)
Definition outside (X : list nat) (l : nat) : Prop := l ∉ X.

(** [h'] has the objects of [h], but for those of [X]. *)
Definition agree_outside (X : list nat) (h h' : store) : Prop :=
  (length h <= length h')%nat /\
  forall l, (l < length h)%nat -> l ∉ X -> h' !! l = h !! l.

(** The examples kept in the store are the examples kept by value. *)
Definition examples_rep (P : nat -> Prop) (h : store)
    (pt : list (hkey * list pyval)) (t : list (hkey * list val)) : Prop :=
  Forall2 (fun pe e => fst pe = fst e /\ Forall2 (rep P h) (snd pe) (snd e)) pt t.

(** The tables of the store run hold the tables of the run by value;
    [trimmed_detectors] is the list object at [Lt]. *)
Definition agg_rep (P : nat -> Prop) (h : store) (Lt : nat)
    (pst : Script.agg) (st : agg) : Prop :=
  counts st = Script.counts pst /\
  impact_counts st = Script.impact_counts pst /\
  confidence_counts st = Script.confidence_counts pst /\
  examples_rep P h (Script.top_examples pst) (top_examples st) /\
  trimmed_detectors st = VRef Lt /\
  exists ts, h !! Lt = Some (OList ts) /\
             Forall2 (rep P h) (Script.trimmed_detectors pst) ts.

(** A value that is no reference into [h0]: what the script may write to
    without touching an object of [h0]. *)
Definition new_in (h0 : store) (v : val) : Prop :=
  match v with
  | VRef l => (length h0 <= l)%nat
  | _ => True
  end.

(** A value of the store [h]: no reference, or a reference to an object of
    [h]; and a store whose objects hold values of the store only. *)
Definition in_store (h : store) (v : val) : bool :=
  match v with
  | VRef l => (l <? length h)%nat
  | _ => true
  end.

Definition obj_vals (o : obj) : list val :=
  match o with
  | OList items => items
  | ODict d => map snd d
  end.

Definition closed (h : store) : bool :=
  forallb (fun o => forallb (in_store h) (obj_vals o)) h.

(** [m] keeps the objects of [h0]: from a store that starts with [h0] it
    ends in a store that starts with [h0], and what it returns has [Q]. *)
Definition keeps {A : Type} (h0 : store) (m : M A) (Q : A -> Prop) : Prop :=
  forall h, h0 `prefix_of` h ->
            h0 `prefix_of` snd (m h) /\ forall a, fst (m h) = Done a -> Q a.

End Store.

(** ** Sample reports *)

Module Samples.
Import Py.

(** The line numbers 1 to [n]. *)
Definition lines (n : nat) : pyval :=
  PList (map (fun i => PInt (Z.of_nat i)) (seq 1 n)).

Definition element (n : nat) : pyval :=
  PDict [(KStr "name", PStr "withdraw");
         (KStr "source_mapping",
          PDict [(KStr "filename", PStr "Vault.sol"); (KStr "lines", lines n)])].

(** A finding with one element of [n] lines. *)
Definition finding (check impact : string) (n : nat) : pyval :=
  PDict [(KStr "check", PStr check);
         (KStr "impact", PStr impact);
         (KStr "confidence", PStr "Medium");
         (KStr "description", PStr "Vault.withdraw");
         (KStr "elements", PList [element n])].

Definition findings : list pyval :=
  [finding "reentrancy" "High" 12;
   finding "timestamp" "Low" 3;
   finding "reentrancy" "High" 2;
   finding "reentrancy" "Medium" 1;
   finding "reentrancy" "High" 4].

(** [{"success": true, "results": {"detectors": [...]}}] *)
Definition report_entries : dict :=
  [(KStr "success", PBool true);
   (KStr "results", PDict [(KStr "detectors", PList findings)])].
Definition report : pyval := PDict report_entries.

(** [{"success": true, "results": [...]}]: the findings directly under
    [results]. *)
Definition list_report_entries : dict :=
  [(KStr "success", PBool true); (KStr "results", PList findings)].
Definition list_report : pyval := PDict list_report_entries.

(** The tables the loop builds from [findings]. *)
Definition tables : Script.agg :=
  match Script.aggregate findings with
  | Ok st => st
  | Raise _ => Script.agg_init
  end.

(** The store that holds [report] and nothing else, and the reference to
    the report in it; the references to its findings. *)
Definition report_store : list Store.obj := snd (Store.load report []).
Definition report_ref : Store.val := fst (Store.load report []).
Definition detectors_ref : Store.val :=
  match Store.locate report_ref report_store with
  | (Store.Done found, _) => snd found
  | _ => Store.VNone
  end.
Definition finding_refs : list Store.val :=
  match Store.iter detectors_ref report_store with
  | (Store.Done refs, _) => refs
  | _ => []
  end.

(** The tables the loop builds on that store. *)
Definition store_tables : Store.agg :=
  match Store.aggregate detectors_ref report_store with
  | (Store.Done st, _) => st
  | _ => {| Store.counts := []; Store.impact_counts := [];
            Store.confidence_counts := []; Store.top_examples := [];
            Store.trimmed_detectors := Store.VNone |}
  end.

(** [{"results": []}] and [{"results": {"detectors": []}}]: no finding. *)
Definition empty_list_report : pyval := PDict [(KStr "results", PList [])].
Definition empty_report : pyval :=
  PDict [(KStr "results", PDict [(KStr "detectors", PList [])])].

End Samples.

(** ** Reading the outputs back, and more samples

    [Readers] names the parts of the script that the later theorems speak
    of and the functions that read its outputs back; [Sharing] says what a
    shallow copy shares with its original; [Cases] holds more sample
    reports. *)

Module Readers.
Import Py.
Import Script.

(** The counts the summary prints: those of the top list and those of
    the section headings, in the order of the lines. *)
Fixpoint printed_counts (md : list md_line) : list (hkey * nat) :=
  match md with
  | [] => []
  | MdTop check cnt :: r => (check, cnt) :: printed_counts r
  | MdCheck check cnt :: r => (check, cnt) :: printed_counts r
  | _ :: r => printed_counts r
  end.

(** The number a count field of the CSV table stands for: a decimal
    numeral, read as a reader of the table reads it. *)
Definition read_count (field : string) : option nat :=
  match NilZero.uint_of_string field with
  | Some d => Some (Nat.of_uint d)
  | None => None
  end.

(** [desc] of line 133. *)
Definition description_of (d : dict) : pyval :=
  py_or (py_or (get d "description") (get d "markdown")) (PStr "").

Definition is_str (v : pyval) : bool :=
  match v with PStr _ => true | _ => false end.

(** Whether [desc.strip()] of line 138 can be called for the example. *)
Definition has_text (ex : pyval) : bool :=
  match ex with
  | PDict d => is_str (description_of d)
  | _ => false
  end.

(** A value that can be a key of a counter: no list, no dict. *)
Definition plain (v : pyval) : bool :=
  match v with
  | PList _ | PDict _ => false
  | _ => true
  end.

(** Whether a turn of the loop goes through for the finding: its three
    keys can be read and hashed, and its elements copied. *)
Definition accepted (det : pyval) : bool :=
  match keys_of det, trim_finding det with
  | Ok _, Ok _ => true
  | _, _ => false
  end.

(** [v'] is [v] but for what is found along [path]: at each step a dict
    with the same keys, in the same order, and the same values under the
    other keys. *)
Fixpoint same_except (path : list string) (v v' : pyval) : Prop :=
  match path with
  | [] => True
  | name :: rest =>
      v' = v \/
      exists d d',
        v = PDict d /\ v' = PDict d' /\
        map fst d' = map fst d /\
        (forall k, key_eqb k (KStr name) = false -> lookup_key k d' = lookup_key k d) /\
        same_except rest (get d name) (get d' name)
  end.

(** The two places of an element where the script looks for [lines]. *)
Definition own_lines (e : dict) : pyval :=
  match get e "source_mapping" with
  | PDict sm => get sm "lines"
  | _ => PNone
  end.

Definition parent_lines (e : dict) : pyval :=
  match get e "type_specific_fields" with
  | PDict tsf =>
      match get tsf "parent" with
      | PDict parent =>
          match get parent "source_mapping" with
          | PDict psm => get psm "lines"
          | _ => PNone
          end
      | _ => PNone
      end
  | _ => PNone
  end.

(** The tables of a second run, on the trimmed findings of a first one:
    the same counts and the same trimmed findings, and for examples the
    trimmed copies of the examples. *)
Definition tables_again (st st' : agg) : Prop :=
  counts st' = counts st /\
  impact_counts st' = impact_counts st /\
  confidence_counts st' = confidence_counts st /\
  trimmed_detectors st' = trimmed_detectors st /\
  Forall2 (fun a b => fst b = fst a /\
                      Forall2 (fun x t => trim_finding x = Ok t) (snd a) (snd b))
          (top_examples st) (top_examples st').

End Readers.

Module Sharing.
Import Py.
Import Store.

(** The entries [d'] of a copy made in a run that started with the store
    [h0], against the entries [d] of the original: the same keys in the same
    order, and under each key the same value (the same reference, for an
    object), but for the keys of [names], which may refer to an object made
    during the run. *)
Definition copy_of (h0 : store) (names : list string) (d d' : list (hkey * val)) : Prop :=
  map fst d' = map fst d /\
  forall k,
    lookup_key k d' = lookup_key k d \/
    (exists name, name ∈ names /\ key_eqb k (KStr name) = true) /\
    exists l, lookup_key k d' = Some (VRef l) /\ (length h0 <= l)%nat.

End Sharing.

(** ** More sample reports *)

Module Cases.
Import Py.

(** A report whose second finding has a number for a description, and a
    report whose second finding is a string. *)
Definition numbered_entries : dict :=
  [(KStr "check", PStr "timestamp"); (KStr "description", PInt 7)].
Definition numbered : pyval := PDict numbered_entries.

Definition numbered_report_entries : dict :=
  [(KStr "results",
    PDict [(KStr "detectors", PList [Samples.finding "reentrancy" "High" 12; numbered])])].
Definition numbered_report : pyval := PDict numbered_report_entries.

Definition stray_report_entries : dict :=
  [(KStr "results",
    PDict [(KStr "detectors",
            PList [Samples.finding "reentrancy" "High" 12; PStr "stray";
                   Samples.finding "timestamp" "Low" 3])])].

(** An element with the two places where [lines] are looked for. *)
Definition nested_element : dict :=
  [(KStr "name", PStr "withdraw");
   (KStr "source_mapping",
    PDict [(KStr "filename", PStr "Vault.sol"); (KStr "lines", Samples.lines 12)]);
   (KStr "type_specific_fields",
    PDict [(KStr "parent",
            PDict [(KStr "name", PStr "Vault");
                   (KStr "source_mapping",
                    PDict [(KStr "filename", PStr "Vault.sol");
                           (KStr "lines", Samples.lines 3)])])])].

(** The store that holds [nested_element] and an empty list, the list
    [new_elems] of the loop. *)
Definition element_store : list Store.obj :=
  snd (Store.load (PDict nested_element) []) ++ [Store.OList []].
Definition element_ref : nat := pred (pred (length element_store)).
Definition new_elems_ref : nat := pred (length element_store).
Definition element_entries : list (hkey * Store.val) :=
  match element_store !! element_ref with
  | Some (Store.ODict d) => d
  | _ => []
  end.

(** [{"results": [{"check": "reentrancy"}]}]: one finding, directly under
    [results]. *)
Definition short_list_report : pyval :=
  PDict [(KStr "results", PList [PDict [(KStr "check", PStr "reentrancy")]])].

(** 31 findings, each of a detector of its own, ["1"] to ["31"]. *)
Definition many_findings : list pyval :=
  map (fun i => Samples.finding (str_of_nat i) "High" 1) (seq 1 31).
Definition many_report : pyval :=
  PDict [(KStr "results", PDict [(KStr "detectors", PList many_findings)])].
Definition many_tables : Script.agg :=
  match Script.aggregate many_findings with
  | Ok st => st
  | Raise _ => Script.agg_init
  end.

(** Two findings of one detector; the first has a number for a
    description. *)
Definition untexted : pyval :=
  PDict [(KStr "check", PStr "timestamp"); (KStr "impact", PStr "Low");
         (KStr "confidence", PStr "High"); (KStr "description", PInt 7)].
Definition cut_short_findings : list pyval :=
  [untexted; Samples.finding "timestamp" "Low" 3].
Definition cut_short_report : pyval :=
  PDict [(KStr "results", PDict [(KStr "detectors", PList cut_short_findings)])].

(** A finding whose element has [lines] at both places, and its trimmed
    copy. *)
Definition nested_finding : pyval :=
  PDict [(KStr "check", PStr "reentrancy");
         (KStr "impact", PStr "High");
         (KStr "confidence", PStr "Medium");
         (KStr "description", PStr "Vault.withdraw");
         (KStr "elements", PList [PDict nested_element])].

Definition trimmed_nested_finding : pyval :=
  PDict [(KStr "check", PStr "reentrancy");
         (KStr "impact", PStr "High");
         (KStr "confidence", PStr "Medium");
         (KStr "description", PStr "Vault.withdraw");
         (KStr "elements",
          PList [PDict [(KStr "name", PStr "withdraw");
                        (KStr "source_mapping",
                         PDict [(KStr "filename", PStr "Vault.sol");
                                (KStr "lines",
                                 PDict [(KStr "count", PInt 12);
                                        (KStr "first", PList (map PInt [1; 2; 3; 4; 5]));
                                        (KStr "last", PList (map PInt [8; 9; 10; 11; 12]))])]);
                        (KStr "type_specific_fields",
                         PDict [(KStr "parent",
                                 PDict [(KStr "name", PStr "Vault");
                                        (KStr "source_mapping",
                                         PDict [(KStr "filename", PStr "Vault.sol");
                                                (KStr "lines",
                                                 PDict [(KStr "count", PInt 3);
                                                        (KStr "lines_preview",
                                                         PList (map PInt [1; 2; 3]))])])])])]])].

(** A report with fields around [results], and fields around [detectors]
    in it. *)
Definition wide_results : dict :=
  [(KStr "version", PStr "0.10.0");
   (KStr "detectors", PList [nested_finding]);
   (KStr "printers", PList [])].
Definition wide_report_entries : dict :=
  [(KStr "success", PBool true);
   (KStr "error", PNone);
   (KStr "results", PDict wide_results);
   (KStr "tool", PStr "slither")].
Definition wide_report : pyval := PDict wide_report_entries.

End Cases.

(** ** Facts about the built-ins *)

Import Py.

Section KeyEquality.

Lemma key_eqb_refl (k : hkey) : key_eqb k k = true.
Proof.
  destruct k as [|b|z|s]; simpl; auto using Z.eqb_refl, String.eqb_refl.
Qed.

Lemma key_eqb_sym (a b : hkey) : key_eqb a b = key_eqb b a.
Proof.
  destruct a, b; simpl; auto using Z.eqb_sym, String.eqb_sym.
Qed.

Lemma key_eqb_trans (a b c : hkey) :
  key_eqb a b = true -> key_eqb b c = true -> key_eqb a c = true.
Proof.
  destruct a, b, c; simpl; try congruence;
    rewrite ?Z.eqb_eq, ?String.eqb_eq; congruence.
Qed.

(** Two equal keys compare alike with any third. *)
Lemma key_eqb_congr (a b c : hkey) :
  key_eqb a b = true -> key_eqb a c = key_eqb b c.
Proof.
  intros Hab. destruct (key_eqb b c) eqn:Hbc.
  - eauto using key_eqb_trans.
  - destruct (key_eqb a c) eqn:Hac; [|reflexivity].
    rewrite key_eqb_sym in Hab.
    rewrite <- Hbc. symmetry. eauto using key_eqb_trans.
Qed.

End KeyEquality.

Section OrderedDictFacts.
Context {V : Type}.
Implicit Types (d : list (hkey * V)) (k : hkey) (f : option V -> V).

Lemma lookup_key_congr k k' d :
  key_eqb k k' = true -> lookup_key k d = lookup_key k' d.
Proof.
  intros Hk. induction d as [|[k0 v] d IH]; simpl; [reflexivity|].
  rewrite (key_eqb_sym k0 k), (key_eqb_sym k0 k'), (key_eqb_congr _ _ _ Hk).
  destruct (key_eqb k' k0); auto.
Qed.

Lemma lookup_alter_same k f d :
  lookup_key k (alter_key f k d) = Some (f (lookup_key k d)).
Proof.
  induction d as [|[k0 v] d IH]; simpl.
  - by rewrite key_eqb_refl.
  - destruct (key_eqb k0 k) eqn:E; simpl; rewrite E; auto.
Qed.

Lemma lookup_alter_other k k' f d :
  key_eqb k' k = false -> lookup_key k (alter_key f k' d) = lookup_key k d.
Proof.
  intros Hne. induction d as [|[k0 v] d IH]; simpl.
  - by rewrite Hne.
  - destruct (key_eqb k0 k') eqn:E; simpl.
    + by rewrite (key_eqb_congr _ _ _ E), Hne.
    + destruct (key_eqb k0 k); auto.
Qed.

(** Reading after [alter_key], whatever the two keys. *)
Lemma lookup_alter k k' f d :
  lookup_key k (alter_key f k' d) =
  if key_eqb k' k then Some (f (lookup_key k d)) else lookup_key k d.
Proof.
  destruct (key_eqb k' k) eqn:E.
  - rewrite key_eqb_sym in E. rewrite !(lookup_key_congr k k' _ E).
    apply lookup_alter_same.
  - by apply lookup_alter_other.
Qed.

(** [alter_key] keeps the keys and their order; a new key goes last. *)
Lemma alter_key_keys k f d :
  map fst (alter_key f k d) =
  if mem_key k d then map fst d else map fst d ++ [k].
Proof.
  unfold mem_key. induction d as [|[k0 v] d IH]; simpl; [reflexivity|].
  destruct (key_eqb k0 k); simpl; [reflexivity|].
  rewrite IH. by destruct (lookup_key k d).
Qed.

(** Writing back the value a key already has changes nothing. *)
Lemma set_key_same k (v : V) d :
  lookup_key k d = Some v -> set_key k v d = d.
Proof.
  unfold set_key. induction d as [|[k0 v0] d IH]; simpl; [discriminate|].
  destruct (key_eqb k0 k); [by intros [= ->]|].
  intros H. by rewrite IH.
Qed.

End OrderedDictFacts.

(** Membership only looks at the keys. *)
Lemma mem_key_keys {V W : Type} (k : hkey) (a : list (hkey * V)) (b : list (hkey * W)) :
  map fst a = map fst b -> mem_key k a = mem_key k b.
Proof.
  unfold mem_key. revert b.
  induction a as [|[k1 v] a IH]; intros [|[k2 w] b]; try discriminate; [reflexivity|].
  simpl. intros [= <- Hab]. destruct (key_eqb k1 k); auto.
Qed.

Section CounterFacts.

Lemma total_incr (k : hkey) (c : counter) : total (incr k c) = S (total c).
Proof.
  unfold incr. induction c as [|[k0 n] c IH]; simpl; [reflexivity|].
  destruct (key_eqb k0 k); simpl; [reflexivity|].
  rewrite IH. lia.
Qed.

Lemma count_of_incr (k k' : hkey) (c : counter) :
  count_of k (incr k' c) =
  if key_eqb k' k then S (count_of k c) else count_of k c.
Proof.
  unfold count_of, incr. rewrite lookup_alter.
  by destruct (key_eqb k' k).
Qed.

Context {K : Type}.
Implicit Types (x : K * nat) (l c : list (K * nat)).

Lemma insert_desc_perm x l : insert_desc x l ≡ₚ x :: l.
Proof.
  induction l as [|y l IH]; simpl; [reflexivity|].
  destruct (snd x <? snd y)%nat; [|reflexivity].
  rewrite IH. apply perm_swap.
Qed.

Lemma most_common_perm c : most_common c ≡ₚ c.
Proof.
  induction c as [|x c IH]; simpl; [reflexivity|].
  by rewrite insert_desc_perm, IH.
Qed.

Lemma insert_desc_sorted x l :
  StronglySorted desc l -> StronglySorted desc (insert_desc x l).
Proof.
  induction 1 as [|y l Hs IH Hy]; simpl.
  - repeat constructor.
  - destruct (snd x <? snd y)%nat eqn:E.
    + apply Nat.ltb_lt in E. constructor; [assumption|].
      rewrite insert_desc_perm. constructor; [unfold desc; lia | assumption].
    + apply Nat.ltb_ge in E. constructor; [by constructor|].
      constructor; [assumption|].
      eapply Forall_impl; [exact Hy|]. unfold desc. intros; simpl in *; lia.
Qed.

Lemma most_common_sorted c : StronglySorted desc (most_common c).
Proof.
  induction c as [|x c IH]; simpl; [constructor|].
  by apply insert_desc_sorted.
Qed.

(** The sort is stable: the entries of one count keep their order. *)
Lemma insert_desc_stable (n : nat) x l :
  StronglySorted desc l ->
  List.filter (fun y => (snd y =? n)%nat) (insert_desc x l) =
  List.filter (fun y => (snd y =? n)%nat) (x :: l).
Proof.
  induction 1 as [|y l Hs IH Hy]; [reflexivity|].
  cbn [insert_desc]. destruct (snd x <? snd y)%nat eqn:E; [|reflexivity].
  apply Nat.ltb_lt in E.
  cbn [List.filter] in *. rewrite IH.
  destruct (snd x =? n)%nat eqn:Ex, (snd y =? n)%nat eqn:Ey; try reflexivity.
  apply Nat.eqb_eq in Ex, Ey. lia.
Qed.

Lemma most_common_stable (n : nat) c :
  List.filter (fun y => (snd y =? n)%nat) (most_common c) =
  List.filter (fun y => (snd y =? n)%nat) c.
Proof.
  induction c as [|x c IH]; [reflexivity|].
  cbn [most_common foldr].
  rewrite insert_desc_stable by apply most_common_sorted.
  cbn [List.filter]. fold (most_common c). by rewrite IH.
Qed.

Lemma most_common_length c : length (most_common c) = length c.
Proof. by rewrite most_common_perm. Qed.

End CounterFacts.

Lemma total_perm (c c' : counter) : c ≡ₚ c' -> total c = total c'.
Proof.
  induction 1; simpl; lia.
Qed.

Lemma total_most_common (c : counter) : total (most_common c) = total c.
Proof. apply total_perm, most_common_perm. Qed.

(** The first entry of [most_common] has the largest count, and is the first
    of the counter to have it. *)
Lemma most_common_head {K : Type} (c : list (K * nat)) (k : K) (n : nat) rest :
  most_common c = (k, n) :: rest ->
  exists pre post,
    c = pre ++ (k, n) :: post /\
    Forall (fun y => (snd y < n)%nat) pre /\
    Forall (fun y => (snd y <= n)%nat) post.
Proof.
  revert k n rest. induction c as [|x c IH]; intros k n rest; [discriminate|].
  cbn [most_common foldr]. fold (most_common c).
  destruct (most_common c) as [|[k' n'] r'] eqn:Hmc.
  - assert (c = []) as ->.
    { apply length_zero_iff_nil. by rewrite <- (most_common_length c), Hmc. }
    simpl. intros [= ->]. exists [], []. repeat split; constructor.
  - destruct (IH _ _ _ eq_refl) as (pre & post & -> & Hpre & Hpost).
    cbn [insert_desc snd]. destruct (snd x <? n')%nat eqn:E.
    + apply Nat.ltb_lt in E. intros [= -> -> <-].
      exists (x :: pre), post. repeat split; auto.
    + apply Nat.ltb_ge in E. intros [= -> <-].
      exists [], (pre ++ (k', n') :: post). repeat split; [constructor|].
      simpl in E. apply Forall_app. split; [|constructor].
      * eapply Forall_impl; [exact Hpre|]. intros; simpl in *; lia.
      * simpl; lia.
      * eapply Forall_impl; [exact Hpost|]. intros; simpl in *; lia.
Qed.

Import Script.

(** The most frequent key of a counter that is not empty: the first key to
    have the largest count. *)
Lemma top_key_first_max (c : counter) : c <> [] -> first_max (top_key c) c.
Proof.
  intros Hc. unfold first_max, top_key, most_common_n.
  destruct c as [|x c]; [done|].
  destruct (most_common (x :: c)) as [|[k n] rest] eqn:Hmc.
  - apply (f_equal length) in Hmc. rewrite most_common_length in Hmc. discriminate.
  - simpl. exists n. by apply most_common_head in Hmc.
Qed.

(** ** Facts about the loop *)

Section Loop.

Lemma foldM_snoc {A S : Type} (f : S -> A -> result S) (s : S) (l : list A) (x : A) :
  foldM f s (l ++ [x]) = (s' <- foldM f s l ;; f s' x).
Proof.
  revert s. induction l as [|y l IH]; intros s; simpl.
  - by destruct (f s x).
  - destruct (f s y); simpl; auto.
Qed.

Lemma mapM_snoc {A B : Type} (f : A -> result B) (l : list A) (x : A) :
  mapM f (l ++ [x]) = (ys <- mapM f l ;; y <- f x ;; Ok (ys ++ [y])).
Proof.
  induction l as [|z l IH]; simpl.
  - by destruct (f x).
  - destruct (f z); simpl; [|reflexivity].
    rewrite IH. destruct (mapM f l); simpl; [|reflexivity].
    by destruct (f x).
Qed.

Lemma mapM_Forall2 {A B : Type} (f : A -> result B) (l : list A) (ys : list B) :
  mapM f l = Ok ys <-> Forall2 (fun x y => f x = Ok y) l ys.
Proof.
  revert ys. induction l as [|x l IH]; intros ys; simpl.
  - split; [intros [= <-]; constructor | by inversion 1].
  - split.
    + destruct (f x) eqn:Hx; simpl; [|discriminate].
      destruct (mapM f l) eqn:Hl; simpl; [|discriminate].
      intros [= <-]. constructor; [assumption | by apply IH].
    + inversion 1 as [|? y ? ys' Hx Hl]; subst.
      apply IH in Hl. by rewrite Hx, Hl.
Qed.

(** A turn of the loop succeeds when the keys of the finding can be read
    and its elements trimmed, and then updates the five tables. *)
Lemma step_Ok (st st' : agg) (det : pyval) :
  step st det = Ok st' <->
  exists check impact confidence det_copy,
    keys_of det = Ok (check, impact, confidence) /\
    trim_finding det = Ok det_copy /\
    st' = {| counts := incr check (counts st);
             impact_counts := incr_in check impact (impact_counts st);
             confidence_counts := incr_in check confidence (confidence_counts st);
             top_examples := keep_example check det (top_examples st);
             trimmed_detectors := trimmed_detectors st ++ [det_copy] |}.
Proof.
  unfold step, keys_of, trim_finding.
  destruct (as_dict det) as [d|]; simpl; [|split; [discriminate | by intros (?&?&?&?&?&_)]].
  destruct (py_hash (check_of d)) as [c|]; simpl;
    [|split; [discriminate | by intros (?&?&?&?&?&_)]].
  destruct (py_hash (impact_of d)) as [i|]; simpl;
    [|split; [discriminate | by intros (?&?&?&?&?&_)]].
  destruct (py_hash (confidence_of d)) as [cf|]; simpl;
    [|split; [discriminate | by intros (?&?&?&?&?&_)]].
  destruct (trim_detector d) as [t|]; simpl.
  - split.
    + intros [= <-]. by exists c, i, cf, t.
    + intros (?&?&?&?&[= <- <- <-]&[= <-]&->). reflexivity.
  - split; [discriminate | by intros (?&?&?&?&_&?&_)].
Qed.

(** Induction over the turns of the loop. *)
Lemma aggregate_ind (P : list pyval -> agg -> Prop) :
  P [] agg_init ->
  (forall dets st det st',
      aggregate dets = Ok st -> P dets st -> step st det = Ok st' ->
      P (dets ++ [det]) st') ->
  forall dets st, aggregate dets = Ok st -> P dets st.
Proof.
  intros Hinit Hstep dets.
  induction dets as [|det dets IH] using rev_ind; intros st.
  - by intros [= <-].
  - unfold aggregate. rewrite foldM_snoc.
    destruct (foldM step agg_init dets) as [st0|] eqn:H0; simpl; [|discriminate].
    intros Hst. eapply Hstep; eauto.
Qed.

End Loop.

Section Tables.

Lemma tally_snoc (ks : list hkey) (k : hkey) : tally (ks ++ [k]) = incr k (tally ks).
Proof. unfold tally. by rewrite foldl_app. Qed.

Lemma total_tally (ks : list hkey) : total (tally ks) = length ks.
Proof.
  induction ks as [|k ks IH] using rev_ind; [reflexivity|].
  rewrite tally_snoc, total_incr, IH, length_app. simpl. lia.
Qed.

(** The count of a key is the number of its occurrences. *)
Lemma count_of_tally (k : hkey) (ks : list hkey) :
  count_of k (tally ks) = length (List.filter (fun k' => key_eqb k' k) ks).
Proof.
  induction ks as [|k' ks IH] using rev_ind; [reflexivity|].
  rewrite tally_snoc, count_of_incr, IH, List.filter_app, length_app. simpl.
  destruct (key_eqb k' k); simpl; lia.
Qed.

Lemma counter_of_incr_in (k check key : hkey) (table : list (hkey * counter)) :
  counter_of k (incr_in check key table) =
  if key_eqb check k then incr key (counter_of k table) else counter_of k table.
Proof.
  unfold counter_of, incr_in. rewrite lookup_alter.
  by destruct (key_eqb check k).
Qed.

(** What the three counting tables hold after the loop: [counts] tallies
    the detectors of the findings, and the table of a detector tallies the
    impact (the confidence) of its findings, in the order of the input. *)
Lemma aggregate_counts (dets : list pyval) (st : agg) :
  aggregate dets = Ok st ->
  exists keys,
    mapM keys_of dets = Ok keys /\
    counts st = tally (map (fun x => fst (fst x)) keys) /\
    (forall k, counter_of k (impact_counts st) =
               tally (map (fun x => snd (fst x))
                          (List.filter (fun x => key_eqb (fst (fst x)) k) keys))) /\
    (forall k, counter_of k (confidence_counts st) =
               tally (map snd
                          (List.filter (fun x => key_eqb (fst (fst x)) k) keys))).
Proof.
  revert dets st. apply aggregate_ind.
  - exists []. repeat split.
  - intros dets st det st' _ (keys & Hkeys & Hc & Hi & Hcf) Hstep.
    apply step_Ok in Hstep as (c & i & cf & t & Hk & _ & ->).
    exists (keys ++ [(c, i, cf)]). cbn [counts impact_counts confidence_counts].
    split; [by rewrite mapM_snoc, Hkeys; simpl; rewrite Hk|].
    split; [by rewrite map_app; cbn [map fst]; rewrite tally_snoc, Hc|].
    split; intros k; rewrite counter_of_incr_in, List.filter_app, map_app;
      cbn [List.filter fst snd]; destruct (key_eqb c k); cbn [map fst snd];
      rewrite ?tally_snoc, ?app_nil_r, ?Hi, ?Hcf; reflexivity.
Qed.

Lemma in_category_keys (k : hkey) (det : pyval) c i cf :
  keys_of det = Ok (c, i, cf) -> in_category k det = key_eqb c k.
Proof. unfold in_category. by intros ->. Qed.

(** What [top_examples] holds after the loop: for each detector, the first
    three of its findings, as they stand in the input. *)
Lemma aggregate_examples (dets : list pyval) (st : agg) :
  aggregate dets = Ok st ->
  forall k, default [] (lookup_key k (top_examples st)) =
            take 3 (List.filter (in_category k) dets).
Proof.
  revert dets st.
  apply (aggregate_ind (fun dets st =>
           forall k, default [] (lookup_key k (top_examples st)) =
                     take 3 (List.filter (in_category k) dets))); [reflexivity|].
  intros dets st det st' _ IH Hstep k.
  apply step_Ok in Hstep as (c & i & cf & t & Hk & _ & ->).
  cbn [top_examples]. unfold keep_example. rewrite lookup_alter.
  rewrite List.filter_app. cbn [List.filter].
  rewrite (in_category_keys _ _ _ _ _ Hk).
  destruct (key_eqb c k); [|by rewrite app_nil_r].
  cbn [default]. rewrite IH.
  set (F := List.filter (in_category k) dets).
  destruct (length (take 3 F) <? 3)%nat eqn:E.
  - apply Nat.ltb_lt in E. rewrite length_take in E.
    assert (length F < 3)%nat by lia.
    rewrite (take_ge F) by lia.
    rewrite take_ge; [reflexivity|]. rewrite length_app. simpl. lia.
  - apply Nat.ltb_ge in E. rewrite length_take in E.
    by rewrite take_app_le by lia.
Qed.

(** [top_examples] has the keys of [counts], in the same order. *)
Lemma aggregate_example_keys (dets : list pyval) (st : agg) :
  aggregate dets = Ok st -> map fst (top_examples st) = map fst (counts st).
Proof.
  revert dets st. apply aggregate_ind; [reflexivity|].
  intros dets st det st' _ IH Hstep.
  apply step_Ok in Hstep as (c & i & cf & t & _ & _ & ->).
  cbn [top_examples counts]. unfold keep_example, incr.
  by rewrite !alter_key_keys, (mem_key_keys _ _ _ IH), IH.
Qed.

(** [trimmed_detectors] holds the trimmed copy of each finding, in the
    order of the input. *)
Lemma aggregate_trimmed (dets : list pyval) (st : agg) :
  aggregate dets = Ok st -> mapM trim_finding dets = Ok (trimmed_detectors st).
Proof.
  revert dets st. apply aggregate_ind; [reflexivity|].
  intros dets st det st' _ IH Hstep.
  apply step_Ok in Hstep as (c & i & cf & t & _ & Ht & ->).
  rewrite mapM_snoc, IH. simpl. by rewrite Ht.
Qed.

End Tables.

(** ** The line summary *)

(** C1. For a list of [n] lines: when [n <= 10] the summary is the record of
    [count = n] and [lines_preview], the list itself; when [n > 10] it is the
    record of [count = n], [first], the first five lines, and [last], the last
    five lines, and of nothing else: the lines in between are in no field. *)
Theorem summarize_lines_length_invariant (l : list pyval) :
  ((length l <= 10)%nat ->
   summarize_lines (PList l) =
   PDict [(KStr "count", PInt (Z.of_nat (length l))); (KStr "lines_preview", PList l)]) /\
  ((10 < length l)%nat ->
   exists first middle last,
     l = first ++ middle ++ last /\
     length first = 5%nat /\ length last = 5%nat /\
     summarize_lines (PList l) =
     PDict [(KStr "count", PInt (Z.of_nat (length l)));
            (KStr "first", PList first); (KStr "last", PList last)]).
Proof.
  split; intros Hn; unfold summarize_lines.
  - apply Nat.leb_le in Hn. by rewrite Hn.
  - assert ((length l <=? 10)%nat = false) as -> by (apply Nat.leb_gt; lia).
    unfold slice_to, slice_from_end, py_len.
    exists (take 5 l), (take (length l - 10) (drop 5 l)), (drop (length l - 5) l).
    repeat split.
    + rewrite <- (take_drop 5 l) at 1. f_equal.
      rewrite <- (take_drop (length l - 10) (drop 5 l)) at 1. f_equal.
      rewrite drop_drop. f_equal. lia.
    + rewrite length_take. lia.
    + rewrite length_drop. lia.
Qed.

Lemma summarize_lines_length_invariant_witness :
  summarize_lines (PList [PInt 7; PInt 8]) =
  PDict [(KStr "count", PInt 2); (KStr "lines_preview", PList [PInt 7; PInt 8])] /\
  exists first middle last,
    map PInt [1; 2; 3; 4; 5; 6; 7; 8; 9; 10; 11; 12] = first ++ middle ++ last /\
    length first = 5%nat /\ length last = 5%nat /\
    summarize_lines (PList (map PInt [1; 2; 3; 4; 5; 6; 7; 8; 9; 10; 11; 12])) =
    PDict [(KStr "count", PInt 12); (KStr "first", PList first); (KStr "last", PList last)].
Proof.
  split.
  - apply (proj1 (summarize_lines_length_invariant [PInt 7; PInt 8])). simpl. lia.
  - apply (proj2 (summarize_lines_length_invariant
                    (map PInt [1; 2; 3; 4; 5; 6; 7; 8; 9; 10; 11; 12]))).
    simpl. lia.
Defined.

(** C6. A [lines] value that is not a list, such as a summary
    [{count, lines_preview}] or [{count, first, last}] made by an earlier
    pass, comes back unchanged; a list is replaced by a record, which is not
    a list: so a second pass changes nothing. *)
Theorem summarize_lines_only_lists (v : pyval) :
  (is_list v = false -> summarize_lines v = v) /\
  (is_list v = true -> summarize_lines v <> v /\ is_list (summarize_lines v) = false) /\
  summarize_lines (summarize_lines v) = summarize_lines v.
Proof.
  destruct v as [| | | |l|d]; simpl; repeat split; try discriminate; try reflexivity.
  - destruct (length l <=? 10)%nat; discriminate.
  - by destruct (length l <=? 10)%nat.
  - by destruct (length l <=? 10)%nat.
Qed.

Lemma summarize_lines_only_lists_witness :
  (summarize_lines (PDict [(KStr "count", PInt 2); (KStr "lines_preview", PList [PInt 7; PInt 8])]) =
   PDict [(KStr "count", PInt 2); (KStr "lines_preview", PList [PInt 7; PInt 8])]) /\
  (summarize_lines (PDict [(KStr "count", PInt 12);
                           (KStr "first", PList (map PInt [1; 2; 3; 4; 5]));
                           (KStr "last", PList (map PInt [8; 9; 10; 11; 12]))]) =
   PDict [(KStr "count", PInt 12);
          (KStr "first", PList (map PInt [1; 2; 3; 4; 5]));
          (KStr "last", PList (map PInt [8; 9; 10; 11; 12]))]) /\
  (summarize_lines (PList [PInt 7; PInt 8]) <> PList [PInt 7; PInt 8] /\
   is_list (summarize_lines (PList [PInt 7; PInt 8])) = false).
Proof.
  split; [|split].
  - apply (proj1 (summarize_lines_only_lists _)). reflexivity.
  - apply (proj1 (summarize_lines_only_lists _)). reflexivity.
  - apply (proj1 (proj2 (summarize_lines_only_lists _))). reflexivity.
Defined.

(** ** The run *)

(** The run once the loop is over: the three files hold the trimmed report,
    the table and what the Markdown writer wrote before it stopped. *)
Lemma run_after_loop (data : dict) (dets : list pyval) (st : agg) :
  is_none (snd (locate data)) = false ->
  py_iter (snd (locate data)) = Ok dets ->
  aggregate dets = Ok st ->
  run (Parsed (PDict data)) =
  {| ended := match snd (write_md st) with Some e => Uncaught e | None => Exit 0 end;
     stdout := match snd (write_md st) with
               | Some _ => []
               | None => [TrimmedWritten; SummaryWritten; CountsWritten]
               end;
     outputs := {| trimmed_json :=
                     Some (build_trimmed data (fst (locate data)) (trimmed_detectors st));
                   counts_csv := Some (write_csv st);
                   summary_md := Some (fst (write_md st)) |} |}.
Proof.
  intros Hnone Hiter Hagg. unfold run. cbn [as_dict].
  destruct (locate data) as [results detectors]. cbn [fst snd] in *.
  rewrite Hnone, Hiter. cbn [Py.bind]. rewrite Hagg.
  by destruct (write_md st) as [md [e|]].
Qed.

(** A run that leaves a file has read a document, found a findings
    collection in it and gone through the loop. *)
Lemma run_wrote (input : input_file) :
  outputs (run input) <> no_files ->
  exists data dets st,
    input = Parsed (PDict data) /\
    is_none (snd (locate data)) = false /\
    py_iter (snd (locate data)) = Ok dets /\
    aggregate dets = Ok st.
Proof.
  destruct input as [| |doc]; [done..|].
  destruct doc as [| | | | |data]; [done..|].
  intros Hout. exists data. unfold run in Hout. cbn [as_dict] in Hout.
  destruct (locate data) as [results detectors] eqn:Hloc. cbn [fst snd].
  destruct (is_none detectors); [done|].
  destruct (py_iter detectors) as [dets|]; [|done]. cbn [Py.bind] in Hout.
  destruct (aggregate dets) as [st|] eqn:Hagg; [|done].
  by exists dets, st.
Qed.

Lemma get_set_key (d : dict) (name : string) (v : pyval) :
  get (set_key (KStr name) v d) name = v.
Proof. unfold get, set_key. by rewrite lookup_alter_same. Qed.

(** C7. The findings of the trimmed report are as many as the findings of
    the input, and the finding at each position is the trimmed copy of the
    input finding at that position. *)
Theorem trimmed_findings_keep_order (input : input_file) (report : pyval) :
  trimmed_json (outputs (run input)) = Some report ->
  exists data dets report_entries results trimmed,
    input = Parsed (PDict data) /\
    py_iter (snd (locate data)) = Ok dets /\
    report = PDict report_entries /\
    get report_entries "results" = PDict results /\
    get results "detectors" = PList trimmed /\
    length trimmed = length dets /\
    forall i det, dets !! i = Some det ->
                  exists t, trimmed !! i = Some t /\ trim_finding det = Ok t.
Proof.
  intros Hreport.
  destruct (run_wrote input) as (data & dets & st & -> & Hnone & Hiter & Hagg).
  { intros Hno. by rewrite Hno in Hreport. }
  rewrite (run_after_loop _ _ _ Hnone Hiter Hagg) in Hreport.
  cbn [outputs trimmed_json] in Hreport. injection Hreport as <-.
  apply aggregate_trimmed, mapM_Forall2 in Hagg.
  unfold build_trimmed.
  eexists data, dets, _, _, (trimmed_detectors st).
  split; [reflexivity|]. split; [assumption|]. split; [reflexivity|].
  split; [apply get_set_key|]. split; [apply get_set_key|].
  split; [symmetry; by eapply Forall2_length|].
  intros i det Hi. by eapply Forall2_lookup_l in Hagg.
Qed.

Lemma trimmed_findings_keep_order_witness :
  exists data dets report_entries results trimmed,
    Parsed Samples.report = Parsed (PDict data) /\
    py_iter (snd (locate data)) = Ok dets /\
    build_trimmed Samples.report_entries
      (PDict [(KStr "detectors", PList Samples.findings)])
      (default [] (match mapM trim_finding Samples.findings with
                   | Ok l => Some l
                   | Raise _ => None
                   end)) = PDict report_entries /\
    get report_entries "results" = PDict results /\
    get results "detectors" = PList trimmed /\
    length trimmed = length dets /\
    forall i det, dets !! i = Some det ->
                  exists t, trimmed !! i = Some t /\ trim_finding det = Ok t.
Proof.
  apply (trimmed_findings_keep_order (Parsed Samples.report)).
  vm_compute. reflexivity.
Defined.

(** ** The keys of the tables are pairwise different *)

Section Distinct.
Context {V : Type}.
Implicit Types (d : list (hkey * V)) (k : hkey).

Lemma lookup_key_None k d :
  lookup_key k d = None <-> Forall (fun k' => key_eqb k' k = false) (map fst d).
Proof.
  induction d as [|[k0 v] d IH]; simpl.
  - split; [constructor | reflexivity].
  - rewrite Forall_cons. simpl. destruct (key_eqb k0 k).
    + split; [discriminate | by intros [? _]].
    + rewrite IH. tauto.
Qed.

Lemma alter_key_distinct k f d :
  distinct (map fst d) -> distinct (map fst (alter_key f k d)).
Proof.
  intros Hd. rewrite alter_key_keys. unfold mem_key.
  destruct (lookup_key k d) eqn:E; [assumption|].
  apply lookup_key_None in E.
  apply StronglySorted_app_2; [|assumption|repeat constructor].
  intros a b Ha Hb. apply list_elem_of_singleton in Hb as ->.
  rewrite Forall_forall in E. by apply E.
Qed.

(** With distinct keys, every entry is the one its key finds. *)
Lemma lookup_key_entry k (v : V) d :
  distinct (map fst d) -> (k, v) ∈ d -> lookup_key k d = Some v.
Proof.
  induction d as [|[k0 v0] d IH]; simpl; [by intros _ ?%elem_of_nil|].
  intros Hd Hin. apply StronglySorted_inv in Hd as [Hd Hk0].
  apply elem_of_cons in Hin as [[= -> ->]|Hin].
  - by rewrite key_eqb_refl.
  - rewrite Forall_forall in Hk0.
    rewrite (Hk0 k); [by apply IH|].
    apply list_elem_of_fmap. by exists (k, v).
Qed.

End Distinct.

Lemma aggregate_distinct (dets : list pyval) (st : agg) :
  aggregate dets = Ok st -> distinct (map fst (counts st)).
Proof.
  revert dets st. apply aggregate_ind; [constructor|].
  intros dets st det st' _ IH Hstep.
  apply step_Ok in Hstep as (c & i & cf & t & _ & _ & ->).
  by apply alter_key_distinct.
Qed.

(** Each entry of [top_examples] holds the first three findings of its
    detector. *)
Lemma aggregate_example_entries (dets : list pyval) (st : agg) check examples :
  aggregate dets = Ok st ->
  (check, examples) ∈ top_examples st ->
  examples = take 3 (List.filter (in_category check) dets).
Proof.
  intros Hagg Hin.
  rewrite <- (aggregate_examples _ _ Hagg).
  rewrite (lookup_key_entry check examples); [reflexivity| |assumption].
  rewrite (aggregate_example_keys _ _ Hagg). by eapply aggregate_distinct.
Qed.

(** ** The counts of the tables *)

Section Rows.

Lemma tally_positive (ks : list hkey) : Forall (fun e => (0 < snd e)%nat) (tally ks).
Proof.
  induction ks as [|k ks IH] using rev_ind; [constructor|].
  rewrite tally_snoc. unfold incr.
  induction IH as [|[k0 n] c Hn Hc IHc]; simpl.
  - repeat constructor.
  - destruct (key_eqb k0 k); constructor; simpl; auto; lia.
Qed.

Lemma tally_nonempty (ks : list hkey) : ks <> [] -> tally ks <> [].
Proof.
  destruct ks as [|k ks] using rev_ind; [done|]. intros _.
  rewrite tally_snoc. unfold incr. by destruct (tally ks) as [|[k0 n] c]; simpl;
    [|destruct (key_eqb k0 k)].
Qed.

Lemma lookup_key_elem {V : Type} (k : hkey) (v : V) (d : list (hkey * V)) :
  lookup_key k d = Some v -> exists k0, (k0, v) ∈ d /\ key_eqb k0 k = true.
Proof.
  induction d as [|[k1 v1] d IH]; simpl; [discriminate|].
  destruct (key_eqb k1 k) eqn:E.
  - intros [= ->]. exists k1. split; [left | done].
  - intros Hd. destruct (IH Hd) as (k0 & Hin & Hk0).
    exists k0. split; [by right | done].
Qed.

(** The findings of a detector, counted on the keys or on the findings. *)
Lemma category_length (k : hkey) (dets : list pyval) keys :
  mapM keys_of dets = Ok keys ->
  length (List.filter (fun x => key_eqb (fst (fst x)) k) keys) =
  length (List.filter (in_category k) dets).
Proof.
  intros H%mapM_Forall2. induction H as [|det [[c i] cf] dets keys Hk _ IH]; [done|].
  cbn [List.filter fst]. rewrite (in_category_keys _ _ _ _ _ Hk).
  destruct (key_eqb c k); simpl; auto.
Qed.

(** The count of a row is the number of findings of its detector. *)
Lemma aggregate_row_count (dets : list pyval) (st : agg) check cnt :
  aggregate dets = Ok st ->
  (check, cnt) ∈ counts st ->
  cnt = length (List.filter (in_category check) dets) /\ (0 < cnt)%nat.
Proof.
  intros Hagg Hin.
  pose proof (aggregate_distinct _ _ Hagg) as Hd.
  destruct (aggregate_counts _ _ Hagg) as (keys & Hkeys & Hc & _).
  split.
  - rewrite <- (category_length _ _ _ Hkeys).
    pose proof (count_of_tally check (map (fun x => fst (fst x)) keys)) as Hn.
    rewrite <- Hc in Hn. unfold count_of in Hn.
    rewrite (lookup_key_entry _ _ _ Hd Hin) in Hn. cbn [default from_option id] in Hn.
    rewrite Hn. clear. induction keys as [|x keys IH]; [done|].
    cbn [map List.filter]. destruct (key_eqb _ _); simpl; auto.
  - pose proof (tally_positive (map (fun x => fst (fst x)) keys)) as Hpos.
    rewrite <- Hc, Forall_forall in Hpos. apply (Hpos _ Hin).
Qed.

(** Every finding has the row of its detector. *)
Lemma aggregate_row_exists (dets : list pyval) (st : agg) det :
  aggregate dets = Ok st -> det ∈ dets ->
  exists check cnt, (check, cnt) ∈ counts st /\ in_category check det = true.
Proof.
  intros Hagg Hdet.
  destruct (aggregate_counts _ _ Hagg) as (keys & Hkeys & Hc & _).
  pose proof Hkeys as HF%mapM_Forall2.
  apply list_elem_of_lookup in Hdet as [n Hn].
  destruct (Forall2_lookup_l _ _ _ _ _ HF Hn) as ([[c i] cf] & Hx & Hk).
  pose proof (count_of_tally c (map (fun x => fst (fst x)) keys)) as Hcount.
  rewrite <- Hc in Hcount. unfold count_of in Hcount.
  destruct (lookup_key c (counts st)) as [cnt|] eqn:E.
  - apply lookup_key_elem in E as (k0 & Hin & Hk0).
    exists k0, cnt. split; [done|].
    rewrite (in_category_keys _ _ _ _ _ Hk). by rewrite key_eqb_sym.
  - exfalso. cbn [default from_option] in Hcount.
    assert (c ∈ List.filter (fun k' => key_eqb k' c) (map (fun x => fst (fst x)) keys)) as Hc'.
    { apply list_elem_of_In, List.filter_In. split; [|apply key_eqb_refl].
      apply list_elem_of_In, list_elem_of_fmap. exists (c, i, cf). split; [done|].
      by eapply list_elem_of_lookup_2. }
    destruct (List.filter _ _); [by apply elem_of_nil in Hc' | discriminate].
Qed.

End Rows.

(** A count is written as the decimal numeral that reads back as it. *)
Lemma read_count_str_of_nat (n : nat) : Readers.read_count (str_of_nat n) = Some n.
Proof.
  unfold Readers.read_count, str_of_nat. rewrite NilZero.usu.
  - f_equal. apply DecimalNat.Unsigned.of_to.
  - intros Hnil. apply (DecimalFacts.unorm_nonnil (Nat.to_uint n)).
    pose proof (DecimalNat.Unsigned.to_of (Nat.to_uint n)) as E.
    rewrite DecimalNat.Unsigned.of_to in E. by rewrite <- E.
Qed.

Lemma sum_list_total (c : counter) : sum_list (map snd c) = total c.
Proof. induction c as [|[k n] c IH]; [done|]. cbn. by rewrite IH. Qed.

(** C3. The CSV table is the header line and one row per detector, and the
    count field of a row is the numeral of the number of findings of that
    detector; every finding is counted in the row of its detector, and no
    detector has two rows.  The total written in the Markdown summary is the
    number of findings of the input, and so is the sum of the counts that the
    rows of the table hold. *)
Theorem count_conservation (input : input_file) (csv : string) (md : list md_line) :
  counts_csv (outputs (run input)) = Some csv ->
  summary_md (outputs (run input)) = Some md ->
  exists data dets st (rows : list (hkey * string * hkey * hkey)) rest,
    input = Parsed (PDict data) /\
    py_iter (snd (locate data)) = Ok dets /\
    aggregate dets = Ok st /\
    csv = String.append (String.append "check,count,top_impact,top_confidence" newline)
            (concat_text
               (map (fun '(check, count_field, top_imp, top_conf) =>
                       concat_text [quoted (key_str check); ","%string;
                                    count_field; ","%string;
                                    quoted (key_str top_imp); ","%string;
                                    quoted (key_str top_conf); newline])
                    rows)) /\
    Forall (fun '(check, count_field, _, _) =>
              Readers.read_count count_field =
              Some (length (List.filter (in_category check) dets))) rows /\
    map (fun '(check, count_field, _, _) => (check, Readers.read_count count_field)) rows
      ≡ₚ map (fun kv => (fst kv, Some (snd kv))) (counts st) /\
    distinct (map fst (counts st)) /\
    (forall det, det ∈ dets ->
                 exists check count_field top_imp top_conf,
                   (check, count_field, top_imp, top_conf) ∈ rows /\
                   in_category check det = true) /\
    md = MdTitle :: MdTotal (length dets) :: rest /\
    sum_list (map (fun '(_, count_field, _, _) =>
                     default 0%nat (Readers.read_count count_field)) rows)
    = length dets.
Proof.
  intros Hcsv Hmd.
  destruct (run_wrote input) as (data & dets & st & -> & Hnone & Hiter & Hagg).
  { intros Hno. by rewrite Hno in Hcsv. }
  rewrite (run_after_loop _ _ _ Hnone Hiter Hagg) in Hcsv, Hmd.
  cbn [outputs counts_csv summary_md] in Hcsv, Hmd.
  injection Hcsv as <-. injection Hmd as <-.
  assert (total (counts st) = length dets) as Htotal.
  { destruct (aggregate_counts _ _ Hagg) as (keys & Hkeys & -> & _).
    rewrite total_tally, length_map.
    apply mapM_Forall2 in Hkeys. symmetry. by eapply Forall2_length. }
  set (row := fun r : hkey * nat =>
                (fst r, str_of_nat (snd r),
                 top_key (counter_of (fst r) (impact_counts st)),
                 top_key (counter_of (fst r) (confidence_counts st)))).
  exists data, dets, st, (map row (most_common (counts st))). eexists.
  split; [reflexivity|]. split; [assumption|]. split; [assumption|].
  split; [|split; [|split; [|split; [|split; [|split]]]]].
  - unfold write_csv, csv_header. f_equal. f_equal. rewrite map_map.
    apply map_ext. by intros [check cnt].
  - apply Forall_forall. intros [[[check field] imp] conf] Hin.
    apply list_elem_of_fmap in Hin as ([check' cnt] & [= -> -> _ _] & Hin).
    rewrite (most_common_perm (counts st)) in Hin.
    rewrite read_count_str_of_nat. f_equal.
    by apply (aggregate_row_count dets st).
  - rewrite map_map.
    assert (map (fun x => let '(check, count_field, _, _) := row x in
                          (check, Readers.read_count count_field))
                (most_common (counts st)) =
            map (fun kv => (fst kv, Some (snd kv))) (most_common (counts st))) as ->.
    { apply map_ext. intros [check cnt]. cbn. by rewrite read_count_str_of_nat. }
    apply fmap_Permutation, most_common_perm.
  - by eapply aggregate_distinct.
  - intros det Hdet.
    destruct (aggregate_row_exists _ _ _ Hagg Hdet) as (check & cnt & Hin & Hcat).
    exists check, (str_of_nat cnt). eexists _, _. split; [|exact Hcat].
    apply list_elem_of_fmap. exists (check, cnt). split; [reflexivity|].
    by rewrite (most_common_perm (counts st)).
  - unfold write_md, then_write. cbn [fst app]. rewrite Htotal. reflexivity.
  - rewrite map_map.
    assert (map (fun x => let '(_, count_field, _, _) := row x in
                          default 0%nat (Readers.read_count count_field))
                (most_common (counts st)) = map snd (most_common (counts st))) as ->.
    { apply map_ext. intros [check cnt]. cbn. by rewrite read_count_str_of_nat. }
    by rewrite sum_list_total, total_most_common.
Qed.

Lemma count_conservation_witness :
  exists data dets st (rows : list (hkey * string * hkey * hkey)) rest,
    Parsed Samples.report = Parsed (PDict data) /\
    py_iter (snd (locate data)) = Ok dets /\
    aggregate dets = Ok st /\
    default EmptyString (counts_csv (outputs (run (Parsed Samples.report)))) =
      String.append (String.append "check,count,top_impact,top_confidence" newline)
        (concat_text
           (map (fun '(check, count_field, top_imp, top_conf) =>
                   concat_text [quoted (key_str check); ","%string;
                                count_field; ","%string;
                                quoted (key_str top_imp); ","%string;
                                quoted (key_str top_conf); newline])
                rows)) /\
    Forall (fun '(check, count_field, _, _) =>
              Readers.read_count count_field =
              Some (length (List.filter (in_category check) dets))) rows /\
    map (fun '(check, count_field, _, _) => (check, Readers.read_count count_field)) rows
      ≡ₚ map (fun kv => (fst kv, Some (snd kv))) (counts st) /\
    distinct (map fst (counts st)) /\
    (forall det, det ∈ dets ->
                 exists check count_field top_imp top_conf,
                   (check, count_field, top_imp, top_conf) ∈ rows /\
                   in_category check det = true) /\
    default [] (summary_md (outputs (run (Parsed Samples.report)))) =
      MdTitle :: MdTotal (length dets) :: rest /\
    sum_list (map (fun '(_, count_field, _, _) =>
                     default 0%nat (Readers.read_count count_field)) rows)
    = length dets.
Proof.
  apply (count_conservation (Parsed Samples.report)); vm_compute; reflexivity.
Defined.

(** ** What the Markdown writer shows *)

Section Summary.

Lemma example_block_nil : example_block [] [].
Proof. by intros tail. Qed.

Lemma example_block_app l1 s1 l2 s2 :
  example_block l1 s1 -> example_block l2 s2 -> example_block (l1 ++ l2) (s1 ++ s2).
Proof.
  intros H1 H2 tail. rewrite <- !app_assoc.
  destruct (H1 (l2 ++ tail)) as [-> ->]. destruct (H2 tail) as [-> ->]. done.
Qed.

(** An example that is a dict gets its line, even when its description
    then stops the writer. *)
Lemma write_example_block (ex : pyval) :
  exists shown,
    example_block (fst (write_example ex)) shown /\
    (shown = [shown_of ex] \/ shown = [] /\ snd (write_example ex) <> None).
Proof.
  destruct ex as [| | | | |d];
    try (exists []; split; [apply example_block_nil | by right]).
  exists [shown_of (PDict d)]. split; [|by left].
  unfold write_example. cbn [as_dict then_write fst].
  destruct (py_or _ _) as [| | |s| |]; cbn [fst]; try by intros tail.
  destruct (String.eqb _ _); by intros tail.
Qed.

Lemma for_each_examples (exs : list pyval) :
  exists j,
    example_block (fst (for_each write_example exs)) (map shown_of (take j exs)) /\
    (snd (for_each write_example exs) = None -> j = length exs).
Proof.
  induction exs as [|ex exs (j & Hblock & Hj)]; cbn [for_each].
  - exists 0%nat. split; [apply example_block_nil | done].
  - destruct (write_example_block ex) as (shown & Hex & Hshown).
    destruct (write_example ex) as [l [e|]]; cbn [then_write fst snd] in *.
    + exists (match shown with [] => 0 | _ => 1 end)%nat.
      split; [|discriminate].
      destruct Hshown as [->|[-> _]]; [|done].
      cbn [firstn map]. by rewrite take_0.
    + destruct Hshown as [->|[_ ?]]; [|done].
      exists (S j). split; [|intros ?; cbn [length]; f_equal; auto].
      by apply (example_block_app _ [_]).
Qed.

(** The sections of what [for_each (write_section st)] writes: one per
    entry when the writer goes to the end, and in any case each section
    shows some of the first examples of an entry. *)
Lemma for_each_sections (st : agg) (entries : list (hkey * list pyval)) :
  (snd (for_each (write_section st) entries) = None ->
   sections (fst (for_each (write_section st) entries)) =
   map (fun e => (fst e, map shown_of (snd e))) entries) /\
  (forall k shown,
      (k, shown) ∈ sections (fst (for_each (write_section st) entries)) ->
      exists exs j, (k, exs) ∈ entries /\ shown = map shown_of (take j exs)).
Proof.
  induction entries as [|[k exs] entries [IHa IHb]]; cbn [for_each].
  - split; [done | by intros ?? ?%elem_of_nil].
  - unfold write_section at 1 3 5. cbn [fst snd].
    destruct (for_each_examples exs) as (j & Hblock & Hj).
    destruct (for_each write_example exs) as [body [e|]]; cbn [then_write fst snd app] in *.
    + split; [discriminate|].
      destruct (Hblock []) as [Hl Hs]. rewrite app_nil_r in Hl, Hs.
      cbn [sections]. rewrite Hl, Hs, app_nil_r. cbn [leading_examples sections].
      intros k' shown [[= -> ->]|[]%elem_of_nil]%elem_of_cons.
      exists exs, j. split; [left | done].
    + specialize (Hj eq_refl) as ->. rewrite take_ge in Hblock by done.
      destruct (for_each (write_section st) entries) as [rest err]. cbn [fst snd] in *.
      cbn [sections]. rewrite <- app_assoc.
      destruct (Hblock ([MdBlank] ++ rest)) as [-> ->].
      cbn [app leading_examples sections]. rewrite app_nil_r. split.
      * intros Herr. by rewrite IHa.
      * intros k' shown [[= -> ->]|Hin]%elem_of_cons.
        -- exists exs, (length exs). rewrite take_ge by done. split; [left | done].
        -- destruct (IHb _ _ Hin) as (exs' & j' & ? & ?).
           exists exs', j'. split; [by right | done].
Qed.

Lemma sections_preamble (st : agg) (rest : list md_line) :
  sections (([MdTitle; MdTotal (total (counts st)); MdUnique (length (counts st));
              MdTopHeading]
               ++ map (fun row => MdTop (fst row) (snd row)) (most_common_n 30 (counts st))
               ++ [MdBlank; MdExamplesHeading]) ++ rest) =
  sections rest.
Proof.
  cbn [app sections]. rewrite <- app_assoc.
  induction (most_common_n 30 (counts st)) as [|row rows IH]; [reflexivity|].
  exact IH.
Qed.

Lemma write_md_sections (st : agg) :
  (snd (write_md st) = None ->
   sections (fst (write_md st)) =
   map (fun e => (fst e, map shown_of (snd e))) (take 30 (top_examples st))) /\
  (forall k shown,
      (k, shown) ∈ sections (fst (write_md st)) ->
      exists exs j,
        (k, exs) ∈ take 30 (top_examples st) /\ shown = map shown_of (take j exs)).
Proof.
  unfold write_md. cbn [then_write fst snd].
  rewrite sections_preamble.
  apply for_each_sections.
Qed.

(** One section per entry, in the order of the entries, as far as the
    writer goes. *)
Lemma for_each_sections_keys (st : agg) (entries : list (hkey * list pyval)) :
  map fst (sections (fst (for_each (write_section st) entries)))
    `prefix_of` map fst entries.
Proof.
  induction entries as [|[k exs] entries IH]; cbn [for_each]; [done|].
  unfold write_section at 1. cbn [fst snd].
  destruct (for_each_examples exs) as (j & Hblock & Hj).
  destruct (for_each write_example exs) as [body [e|]]; cbn [then_write fst snd app] in *.
  - destruct (Hblock []) as [Hl Hs]. rewrite app_nil_r in Hs.
    cbn [sections]. rewrite Hs. cbn [sections map fst].
    apply prefix_cons, prefix_nil.
  - destruct (for_each (write_section st) entries) as [rest err]. cbn [fst snd] in *.
    cbn [sections]. rewrite <- app_assoc.
    destruct (Hblock ([MdBlank] ++ rest)) as [_ ->].
    cbn [app sections map fst]. by apply prefix_cons.
Qed.

Lemma write_md_sections_keys (st : agg) :
  map fst (sections (fst (write_md st))) `prefix_of` map fst (take 30 (top_examples st)).
Proof.
  unfold write_md. cbn [then_write fst snd].
  rewrite sections_preamble. apply for_each_sections_keys.
Qed.

End Summary.

(** The detectors of [top_examples] only grow, at the end: they are in the
    order in which the loop first met them. *)
Lemma aggregate_prefix (seen more : list pyval) (st : agg) :
  aggregate (seen ++ more) = Ok st ->
  exists st1,
    aggregate seen = Ok st1 /\
    map fst (top_examples st1) `prefix_of` map fst (top_examples st).
Proof.
  revert st. induction more as [|x more IH] using rev_ind; intros st.
  - rewrite app_nil_r. intros Hst. by exists st.
  - rewrite app_assoc. unfold aggregate at 1. rewrite foldM_snoc.
    destruct (foldM step agg_init (seen ++ more)) as [st0|] eqn:H0; [|discriminate].
    cbn [Py.bind]. intros Hstep.
    destruct (IH st0 H0) as (st1 & Hseen & Hpre).
    exists st1. split; [exact Hseen|].
    apply step_Ok in Hstep as (c & i & cf & t & _ & _ & ->).
    cbn [top_examples]. unfold keep_example. rewrite alter_key_keys.
    destruct (mem_key c (top_examples st0)); [exact Hpre|].
    by apply prefix_app_r.
Qed.

(** C8, as the script has it.  For every detector the table [top_examples]
    holds exactly the first three findings of that detector in the order of
    the input (all of them when there are fewer), as they stand in the input;
    a detector with a finding has one entry, the entries are in the order in
    which the detectors were first met, and an example once kept stays at its
    place: a list of three is never changed by the findings that follow.  The
    Markdown summary has a section for the first 30 entries only; a section
    lists examples of its detector only, from the first on, three at most; in
    a run that ends with status 0 each of these sections lists all the kept
    examples of its detector. *)
Theorem representative_cap (input : input_file) (md : list md_line) :
  summary_md (outputs (run input)) = Some md ->
  exists data dets st,
    input = Parsed (PDict data) /\
    py_iter (snd (locate data)) = Ok dets /\
    aggregate dets = Ok st /\
    (forall check,
        default [] (lookup_key check (top_examples st)) =
        take 3 (List.filter (in_category check) dets)) /\
    distinct (map fst (top_examples st)) /\
    (forall det, det ∈ dets ->
                 exists check examples,
                   (check, examples) ∈ top_examples st /\ in_category check det = true) /\
    (forall check examples,
        (check, examples) ∈ top_examples st ->
        examples = take 3 (List.filter (in_category check) dets) /\
        examples <> [] /\
        (length examples <= 3)%nat) /\
    (forall seen,
        seen `prefix_of` dets ->
        exists st1,
          aggregate seen = Ok st1 /\
          map fst (top_examples st1) `prefix_of` map fst (top_examples st) /\
          forall check,
            default [] (lookup_key check (top_examples st1))
              `prefix_of` default [] (lookup_key check (top_examples st)) /\
            (length (default [] (lookup_key check (top_examples st1))) = 3%nat ->
             default [] (lookup_key check (top_examples st)) =
             default [] (lookup_key check (top_examples st1)))) /\
    map fst (sections md) `prefix_of` map fst (take 30 (top_examples st)) /\
    (length (sections md) <= 30)%nat /\
    (forall check shown,
        (check, shown) ∈ sections md ->
        (length shown <= 3)%nat /\
        exists j, shown = map shown_of (take j (take 3 (List.filter (in_category check) dets)))) /\
    (ended (run input) = Exit 0 ->
     sections md =
     map (fun e => (fst e, map shown_of (take 3 (List.filter (in_category (fst e)) dets))))
         (take 30 (top_examples st))).
Proof.
  intros Hmd.
  destruct (run_wrote input) as (data & dets & st & -> & Hnone & Hiter & Hagg).
  { intros Hno. by rewrite Hno in Hmd. }
  pose proof (run_after_loop _ _ _ Hnone Hiter Hagg) as Hrun.
  assert (md = fst (write_md st)) as ->.
  { rewrite Hrun in Hmd. by injection Hmd. }
  assert (ended (run (Parsed (PDict data))) = Exit 0 -> snd (write_md st) = None) as Hend.
  { rewrite Hrun. cbn [ended]. by destruct (snd (write_md st)). }
  clear Hrun Hmd.
  exists data, dets, st. do 3 (split; [done|]).
  assert (forall check examples,
             (check, examples) ∈ take 30 (top_examples st) ->
             examples = take 3 (List.filter (in_category check) dets)) as Hshown.
  { intros check examples Hin. eapply aggregate_example_entries; [eassumption|].
    eapply elem_of_sublist; [exact Hin | apply sublist_take]. }
  destruct (write_md_sections st) as [Hall Hsome].
  pose proof (aggregate_example_keys _ _ Hagg) as Hkeys.
  split; [by apply aggregate_examples|].
  split; [rewrite Hkeys; by eapply aggregate_distinct|].
  split; [|split; [|split; [|split; [|split; [|split]]]]].
  - intros det Hdet.
    destruct (aggregate_row_exists _ _ _ Hagg Hdet) as (check & cnt & Hin & Hcat).
    assert (check ∈ map fst (top_examples st)) as Hk.
    { rewrite Hkeys. apply list_elem_of_fmap. by exists (check, cnt). }
    apply list_elem_of_fmap in Hk as ([check' examples] & -> & Hex).
    by exists check', examples.
  - intros check examples Hin.
    rewrite (aggregate_example_entries _ _ _ _ Hagg Hin) at 1 2 3.
    split; [reflexivity|]. split; [|rewrite length_take; lia].
    assert (check ∈ map fst (counts st)) as Hk.
    { rewrite <- Hkeys. apply list_elem_of_fmap. by exists (check, examples). }
    apply list_elem_of_fmap in Hk as ([check' cnt] & -> & Hc). cbn [fst].
    destruct (aggregate_row_count _ _ _ _ Hagg Hc) as [Hcnt Hpos].
    destruct (List.filter (in_category check') dets); [simpl in Hcnt; lia | done].
  - intros seen [more ->].
    destruct (aggregate_prefix _ _ _ Hagg) as (st1 & Hseen & Hpre).
    exists st1. split; [exact Hseen|]. split; [exact Hpre|]. intros check.
    rewrite (aggregate_examples _ _ Hagg), (aggregate_examples _ _ Hseen).
    rewrite List.filter_app, take_app. split; [by eexists|].
    rewrite length_take. intros Hfull.
    replace (3 - length (List.filter (in_category check) seen))%nat with 0%nat by lia.
    by rewrite take_0, app_nil_r.
  - apply write_md_sections_keys.
  - pose proof (write_md_sections_keys st) as Hpre%prefix_length.
    rewrite !length_map, length_take in Hpre. lia.
  - intros check shown Hin.
    destruct (Hsome _ _ Hin) as (exs & j & Hexs & ->).
    rewrite (Hshown _ _ Hexs). split; [|by exists j].
    rewrite length_map, !length_take. lia.
  - intros Hfull. rewrite (Hall (Hend Hfull)).
    apply map_ext_in. intros [check examples] Hin%list_elem_of_In.
    cbn [fst snd]. by rewrite (Hshown _ _ Hin).
Qed.

Lemma representative_cap_witness :
  exists data dets st,
    Parsed Samples.report = Parsed (PDict data) /\
    py_iter (snd (locate data)) = Ok dets /\
    aggregate dets = Ok st /\
    (forall check,
        default [] (lookup_key check (top_examples st)) =
        take 3 (List.filter (in_category check) dets)) /\
    distinct (map fst (top_examples st)) /\
    (forall det, det ∈ dets ->
                 exists check examples,
                   (check, examples) ∈ top_examples st /\ in_category check det = true) /\
    (forall check examples,
        (check, examples) ∈ top_examples st ->
        examples = take 3 (List.filter (in_category check) dets) /\
        examples <> [] /\
        (length examples <= 3)%nat) /\
    (forall seen,
        seen `prefix_of` dets ->
        exists st1,
          aggregate seen = Ok st1 /\
          map fst (top_examples st1) `prefix_of` map fst (top_examples st) /\
          forall check,
            default [] (lookup_key check (top_examples st1))
              `prefix_of` default [] (lookup_key check (top_examples st)) /\
            (length (default [] (lookup_key check (top_examples st1))) = 3%nat ->
             default [] (lookup_key check (top_examples st)) =
             default [] (lookup_key check (top_examples st1)))) /\
    map fst (sections (default [] (summary_md (outputs (run (Parsed Samples.report))))))
      `prefix_of` map fst (take 30 (top_examples st)) /\
    (length (sections (default [] (summary_md (outputs (run (Parsed Samples.report))))))
     <= 30)%nat /\
    (forall check shown,
        (check, shown) ∈
          sections (default [] (summary_md (outputs (run (Parsed Samples.report))))) ->
        (length shown <= 3)%nat /\
        exists j, shown = map shown_of (take j (take 3 (List.filter (in_category check) dets)))) /\
    (ended (run (Parsed Samples.report)) = Exit 0 ->
     sections (default [] (summary_md (outputs (run (Parsed Samples.report))))) =
     map (fun e => (fst e, map shown_of (take 3 (List.filter (in_category (fst e)) dets))))
         (take 30 (top_examples st))).
Proof.
  apply (representative_cap (Parsed Samples.report)). vm_compute. reflexivity.
Defined.

(** C8 as stated fails for the detectors after the 30th: of 31 findings of
    31 detectors the last one is kept as the example of its detector, and the
    summary, written to its end, has 30 sections and none for that detector.
    It fails as well in a run that the summary writer does not finish: of two
    findings of one detector, the first with a number for a description, the
    section lists the first only. *)
Lemma representative_cap_counterexample :
  ended (run (Parsed Cases.many_report)) = Exit 0 /\
  take 3 (List.filter (in_category (KStr "31")) Cases.many_findings) =
    [Samples.finding "31" "High" 1] /\
  lookup_key (KStr "31") (top_examples Cases.many_tables) =
    Some [Samples.finding "31" "High" 1] /\
  length (sections (default [] (summary_md (outputs (run (Parsed Cases.many_report)))))) = 30%nat /\
  lookup_key (KStr "31")
    (sections (default [] (summary_md (outputs (run (Parsed Cases.many_report)))))) = None /\
  exit_status (ended (run (Parsed Cases.cut_short_report))) = 1 /\
  take 3 (List.filter (in_category (KStr "timestamp")) Cases.cut_short_findings) =
    Cases.cut_short_findings /\
  sections (default [] (summary_md (outputs (run (Parsed Cases.cut_short_report))))) =
    [(KStr "timestamp", [(PStr "Low", PStr "High")])].
Proof. vm_compute. repeat split. Qed.

(** C9, as the script has it.  The process ends with status 2 and no
    output file when the input file is absent; with status 0, the message
    and no output file when the document read is a mapping in which the
    Loader resolves no findings collection ([None]), and for no other
    document; and when it has gone through the loop, it ends with status 0
    only with the three closing messages and the three output files written
    in full.  A run that ends with status 0 is of one of the last two kinds.
    A document that is no mapping, a resolved value that cannot be iterated
    and a finding that stops the loop end the run with an uncaught
    exception, status 1, and no output file. *)
Theorem process_exit_behaviour (input : input_file) :
  (input = Absent ->
   exit_status (ended (run input)) = 2 /\ outputs (run input) = no_files) /\
  (forall data,
      input = Parsed (PDict data) -> snd (locate data) = PNone ->
      exit_status (ended (run input)) = 0 /\
      stdout (run input) = [NoDetectorsFound] /\
      outputs (run input) = no_files) /\
  (forall data dets st,
      input = Parsed (PDict data) -> is_none (snd (locate data)) = false ->
      py_iter (snd (locate data)) = Ok dets ->
      aggregate dets = Ok st ->
      exit_status (ended (run input)) = 0 ->
      stdout (run input) = [TrimmedWritten; SummaryWritten; CountsWritten] /\
      outputs (run input) =
      {| trimmed_json :=
           Some (build_trimmed data (fst (locate data)) (trimmed_detectors st));
         counts_csv := Some (write_csv st);
         summary_md := Some (fst (write_md st)) |}) /\
  (exit_status (ended (run input)) = 0 ->
   outputs (run input) = no_files /\ stdout (run input) = [NoDetectorsFound] \/
   exists trimmed csv md,
     outputs (run input) =
     {| trimmed_json := Some trimmed; counts_csv := Some csv; summary_md := Some md |}) /\
  (forall doc,
      input = Parsed doc ->
      (exit_status (ended (run input)) = 0 /\ outputs (run input) = no_files <->
       exists data, doc = PDict data /\ snd (locate data) = PNone)) /\
  (forall doc,
      input = Parsed doc -> is_dict doc = false ->
      run input = crash AttributeError) /\
  (forall data e,
      input = Parsed (PDict data) -> is_none (snd (locate data)) = false ->
      (dets <- py_iter (snd (locate data)) ;; aggregate dets) = Raise e ->
      run input = crash e).
Proof.
  assert (forall data, snd (locate data) = PNone ->
            run (Parsed (PDict data)) =
            {| ended := Exit 0; stdout := [NoDetectorsFound]; outputs := no_files |}) as Hstop.
  { intros data Hnone. unfold run. cbn [as_dict].
    destruct (locate data) as [results detectors]. cbn [snd] in Hnone. by subst. }
  assert (forall data e, is_none (snd (locate data)) = false ->
            (dets <- py_iter (snd (locate data)) ;; aggregate dets) = Raise e ->
            run (Parsed (PDict data)) = crash e) as Hdie.
  { intros data e Hnone Hloop. unfold run. cbn [as_dict].
    destruct (locate data) as [results detectors]. cbn [snd] in *.
    by rewrite Hnone, Hloop. }
  split; [by intros ->|]. split; [|split; [|split; [|split; [|split]]]].
  - intros data -> Hnone. by rewrite (Hstop data Hnone).
  - intros data dets st -> Hsome Hiter Hagg.
    rewrite (run_after_loop data dets st); [|done..]. cbn [ended stdout outputs].
    by destruct (snd (write_md st)).
  - destruct input as [| |doc]; [done..|].
    destruct doc as [| | | | |data]; [done..|].
    destruct (is_none (snd (locate data))) eqn:Hnone.
    + intros _. left. rewrite (Hstop data); [done|]. by destruct (snd (locate data)).
    + destruct (dets <- py_iter (snd (locate data)) ;; aggregate dets) as [st|e] eqn:Hloop.
      * destruct (py_iter (snd (locate data))) as [dets|] eqn:Hiter; [|done].
        cbn [Py.bind] in Hloop.
        rewrite (run_after_loop _ _ _ Hnone Hiter Hloop). cbn [outputs]. eauto.
      * by rewrite (Hdie data e Hnone Hloop).
  - intros doc ->. split.
    + intros [Hstatus Hout].
      destruct doc as [| | | | |data]; [done..|].
      exists data. split; [reflexivity|].
      destruct (is_none (snd (locate data))) eqn:Hnone;
        [by destruct (snd (locate data))|exfalso].
      destruct (dets <- py_iter (snd (locate data)) ;; aggregate dets) as [st|e] eqn:Hloop.
      * destruct (py_iter (snd (locate data))) as [dets|] eqn:Hiter; [|done].
        cbn [Py.bind] in Hloop.
        by rewrite (run_after_loop _ _ _ Hnone Hiter Hloop) in Hout.
      * by rewrite (Hdie data e Hnone Hloop) in Hstatus.
    + intros (data & -> & Hnone). by rewrite (Hstop data Hnone).
  - intros doc -> Hdoc. by destruct doc.
  - intros data e -> Hnone Hloop. by apply Hdie.
Qed.

Lemma process_exit_behaviour_witness :
  (exit_status (ended (run Absent)) = 2 /\ outputs (run Absent) = no_files) /\
  (exit_status (ended (run (Parsed (PDict [])))) = 0 /\
   stdout (run (Parsed (PDict []))) = [NoDetectorsFound] /\
   outputs (run (Parsed (PDict []))) = no_files) /\
  (exit_status (ended (run (Parsed Samples.report))) = 0 /\
   stdout (run (Parsed Samples.report)) = [TrimmedWritten; SummaryWritten; CountsWritten] /\
   outputs (run (Parsed Samples.report)) =
   {| trimmed_json :=
        Some (build_trimmed Samples.report_entries
                (fst (locate Samples.report_entries))
                (trimmed_detectors Samples.tables));
      counts_csv := Some (write_csv Samples.tables);
      summary_md := Some (fst (write_md Samples.tables)) |}) /\
  run (Parsed (PStr "report")) = crash AttributeError /\
  run (Parsed (PDict [(KStr "results", PBool true)])) = crash TypeError.
Proof.
  split; [|split; [|split; [|split]]].
  - by apply (proj1 (process_exit_behaviour Absent)).
  - by apply (proj1 (proj2 (process_exit_behaviour (Parsed (PDict [])))) []).
  - split; [by vm_compute|].
    apply (proj1 (proj2 (proj2 (process_exit_behaviour (Parsed Samples.report))))
             Samples.report_entries Samples.findings Samples.tables);
      [reflexivity | reflexivity | reflexivity | by vm_compute | by vm_compute].
  - by apply (proj1 (proj2 (proj2 (proj2 (proj2 (proj2
             (process_exit_behaviour (Parsed (PStr "report")))))))) (PStr "report")).
  - by apply (proj2 (proj2 (proj2 (proj2 (proj2 (proj2
             (process_exit_behaviour (Parsed (PDict [(KStr "results", PBool true)]))))))))
             [(KStr "results", PBool true)] TypeError).
Defined.

(** C9 as stated fails on documents that are read and hold no findings
    collection, when they are not a mapping in which the Loader resolves
    [None]: the document [[]] is no mapping, and in [{"results": 7}] the
    Loader resolves 7; both runs end with status 1. *)
Lemma process_exit_behaviour_counterexample :
  exit_status (ended (run (Parsed (PList [])))) = 1 /\
  stdout (run (Parsed (PList []))) = [] /\
  outputs (run (Parsed (PList []))) = no_files /\
  locate [(KStr "results", PInt 7)] = (PInt 7, PInt 7) /\
  exit_status (ended (run (Parsed (PDict [(KStr "results", PInt 7)])))) = 1 /\
  outputs (run (Parsed (PDict [(KStr "results", PInt 7)]))) = no_files.
Proof. vm_compute. repeat split. Qed.

(** ** The trimmed report *)

(** [d[k] = v] on a key that is there: the entry keeps its place and its
    key, the entries around it are untouched. *)
Lemma set_key_present {V : Type} (k : hkey) (old v : V) (d : list (hkey * V)) :
  lookup_key k d = Some old ->
  exists before k0 after,
    d = before ++ (k0, old) :: after /\
    key_eqb k0 k = true /\
    Forall (fun e => key_eqb (fst e) k = false) before /\
    set_key k v d = before ++ (k0, v) :: after.
Proof.
  unfold set_key. induction d as [|[k1 v1] d IH]; simpl; [discriminate|].
  destruct (key_eqb k1 k) eqn:E.
  - intros [= ->]. by exists [], k1, d.
  - intros Hd. destruct (IH Hd) as (before & k0 & after & -> & Hk0 & Hb & ->).
    exists ((k1, v1) :: before), k0, after. repeat split; auto.
Qed.

(** A findings collection is resolved only from a [results] field that is
    there and is true for [or]. *)
Lemma locate_found (data : dict) :
  is_none (snd (locate data)) = false ->
  lookup_key (KStr "results") data = Some (fst (locate data)) /\
  truthy (fst (locate data)) = true.
Proof.
  unfold locate, py_or, get. cbn [fst snd].
  destruct (lookup_key (KStr "results") data) as [v|]; [|done].
  destruct (truthy v) eqn:Hv; [done|]. done.
Qed.

(** X13. A report whose [results] is a mapping keeps its shape.  The
    trimmed report is the document with the same fields at the same places;
    its [results] is the mapping of the input with the same fields at the
    same places; and the one value that differs is the list under
    [detectors], which holds the trimmed findings, as many as the findings of
    the input. *)
Theorem mapping_results_keep_their_shape (input : input_file) (report : pyval)
    (data results : dict) :
  input = Parsed (PDict data) ->
  get data "results" = PDict results ->
  trimmed_json (outputs (run input)) = Some report ->
  exists dets st before k0 after rbefore k1 rafter,
    py_iter (get results "detectors") = Ok dets /\
    aggregate dets = Ok st /\
    data = before ++ (k0, PDict results) :: after /\
    key_eqb k0 (KStr "results") = true /\
    Forall (fun e => key_eqb (fst e) (KStr "results") = false) before /\
    results = rbefore ++ (k1, get results "detectors") :: rafter /\
    key_eqb k1 (KStr "detectors") = true /\
    Forall (fun e => key_eqb (fst e) (KStr "detectors") = false) rbefore /\
    report =
    PDict (before ++
           (k0, PDict (rbefore ++ (k1, PList (trimmed_detectors st)) :: rafter)) :: after) /\
    length (trimmed_detectors st) = length dets.
Proof.
  intros -> Hres Hreport.
  destruct (run_wrote (Parsed (PDict data))) as (data' & dets & st & [= <-] & Hnone & Hiter & Hagg).
  { intros Hno. by rewrite Hno in Hreport. }
  rewrite (run_after_loop _ _ _ Hnone Hiter Hagg) in Hreport.
  destruct (locate_found _ Hnone) as [Hlook _].
  assert (locate data = (PDict results, get results "detectors")) as Hloc.
  { unfold locate, py_or. rewrite Hres. by destruct results. }
  rewrite Hloc in Hnone, Hiter, Hlook, Hreport.
  cbn [fst snd outputs trimmed_json] in Hnone, Hiter, Hlook, Hreport.
  injection Hreport as <-.
  assert (exists old, lookup_key (KStr "detectors") results = Some old /\
                      get results "detectors" = old) as (old & Hold & Hget).
  { unfold get in *. destruct (lookup_key (KStr "detectors") results) as [v|]; [|done].
    by exists v. }
  change (build_trimmed data (PDict results) (trimmed_detectors st))
    with (PDict (set_key (KStr "results")
                   (PDict (set_key (KStr "detectors") (PList (trimmed_detectors st)) results))
                   data)).
  destruct (set_key_present (KStr "detectors") old (PList (trimmed_detectors st)) results Hold)
    as (rbefore & k1 & rafter & Hr & Hk1 & Hrb & ->).
  destruct (set_key_present (KStr "results") (PDict results)
              (PDict (rbefore ++ (k1, PList (trimmed_detectors st)) :: rafter)) data Hlook)
    as (before & k0 & after & Hd & Hk0 & Hb & ->).
  exists dets, st, before, k0, after, rbefore, k1, rafter.
  split; [exact Hiter|]. split; [exact Hagg|]. split; [exact Hd|].
  split; [exact Hk0|]. split; [exact Hb|].
  split; [by rewrite Hget|]. split; [exact Hk1|]. split; [exact Hrb|].
  split; [reflexivity|].
  pose proof (aggregate_trimmed _ _ Hagg) as Ht%mapM_Forall2.
  symmetry. by eapply Forall2_length.
Qed.

Lemma mapping_results_keep_their_shape_witness :
  exists dets st before k0 after rbefore k1 rafter,
    py_iter (get Cases.wide_results "detectors") = Ok dets /\
    aggregate dets = Ok st /\
    Cases.wide_report_entries = before ++ (k0, PDict Cases.wide_results) :: after /\
    key_eqb k0 (KStr "results") = true /\
    Forall (fun e => key_eqb (fst e) (KStr "results") = false) before /\
    Cases.wide_results = rbefore ++ (k1, get Cases.wide_results "detectors") :: rafter /\
    key_eqb k1 (KStr "detectors") = true /\
    Forall (fun e => key_eqb (fst e) (KStr "detectors") = false) rbefore /\
    PDict [(KStr "success", PBool true);
           (KStr "error", PNone);
           (KStr "results",
            PDict [(KStr "version", PStr "0.10.0");
                   (KStr "detectors", PList [Cases.trimmed_nested_finding]);
                   (KStr "printers", PList [])]);
           (KStr "tool", PStr "slither")] =
    PDict (before ++
           (k0, PDict (rbefore ++ (k1, PList (trimmed_detectors st)) :: rafter)) :: after) /\
    length (trimmed_detectors st) = length dets.
Proof.
  apply (mapping_results_keep_their_shape (Parsed Cases.wide_report)
           _ Cases.wide_report_entries Cases.wide_results);
    vm_compute; reflexivity.
Defined.

(** C2. The script breaks the claim, and the head of the script, which
    promises a trimmed report of the same structure, on a report whose
    findings are directly under [results]: the input holds a list there, the
    trimmed report holds a mapping with the one field [detectors] (line 102
    starts from an empty mapping for such a report).  So it is for the report
    [{"results": [{"check": "reentrancy"}]}] and for the sample report of five
    findings. *)
Lemma list_shaped_results_become_a_mapping :
  trimmed_json (outputs (run (Parsed Cases.short_list_report))) =
  Some (PDict [(KStr "results",
                PDict [(KStr "detectors",
                        PList [PDict [(KStr "check", PStr "reentrancy");
                                      (KStr "elements", PList [])]])])]) /\
  get Samples.list_report_entries "results" = PList Samples.findings /\
  trimmed_json (outputs (run (Parsed Samples.list_report))) =
  Some (PDict [(KStr "success", PBool true);
               (KStr "results",
                PDict [(KStr "detectors", PList (trimmed_detectors Samples.tables))])]) /\
  length (trimmed_detectors Samples.tables) = 5%nat.
Proof. vm_compute. repeat split. Qed.

(** ** The CSV table *)

Section Quoting.

Lemma list_ascii_of_append (a b : string) :
  list_ascii_of_string (String.append a b) =
  list_ascii_of_string a ++ list_ascii_of_string b.
Proof. induction a as [|c a IH]; simpl; [done | by rewrite IH]. Qed.

Lemma is_quoted_quoted (s : string) : is_quoted (quoted s) = true.
Proof.
  unfold is_quoted, quoted, quote. cbn [String.append list_ascii_of_string].
  rewrite list_ascii_of_append. cbn [list_ascii_of_string].
  by rewrite rev_app_distr.
Qed.

(** A count is written bare: it starts with a digit. *)
Lemma is_quoted_str_of_nat (n : nat) : is_quoted (str_of_nat n) = false.
Proof.
  unfold str_of_nat, NilZero.string_of_uint.
  by destruct (Nat.to_uint n).
Qed.

End Quoting.

(** C4, as the script has it. The table is the header line
    [check,count,top_impact,top_confidence] followed by one line per
    detector; the lines are in the order of [most_common]: larger counts
    first, and among equal counts the order in which the detectors were first
    seen; a line holds the detector between double quotes, the count as a
    bare number, and then, each between double quotes, the impact and the
    confidence that the findings of the detector have most often (the first
    one seen, among the most frequent).  For an empty table [top_key] is the
    empty string. *)
Theorem csv_table_layout (input : input_file) (csv : string) :
  counts_csv (outputs (run input)) = Some csv ->
  exists data dets keys st,
    input = Parsed (PDict data) /\
    py_iter (snd (locate data)) = Ok dets /\
    mapM keys_of dets = Ok keys /\
    aggregate dets = Ok st /\
    counts st = tally (map (fun x => fst (fst x)) keys) /\
    csv = String.append (String.append "check,count,top_impact,top_confidence" newline)
            (concat_text (map (csv_row st) (most_common (counts st)))) /\
    most_common (counts st) ≡ₚ counts st /\
    distinct (map fst (counts st)) /\
    (forall det, det ∈ dets ->
                 exists check cnt, (check, cnt) ∈ counts st /\ in_category check det = true) /\
    StronglySorted desc (most_common (counts st)) /\
    (forall n, List.filter (fun row => (snd row =? n)%nat) (most_common (counts st)) =
               List.filter (fun row => (snd row =? n)%nat) (counts st)) /\
    (forall check cnt,
        (check, cnt) ∈ most_common (counts st) ->
        cnt = length (List.filter (in_category check) dets) /\
        exists top_imp top_conf,
          first_max top_imp
            (tally (map (fun x => snd (fst x))
                        (List.filter (fun x => key_eqb (fst (fst x)) check) keys))) /\
          first_max top_conf
            (tally (map snd (List.filter (fun x => key_eqb (fst (fst x)) check) keys))) /\
          csv_row st (check, cnt) =
          concat_text [quoted (key_str check); ","%string; str_of_nat cnt; ","%string;
                       quoted (key_str top_imp); ","%string;
                       quoted (key_str top_conf); newline] /\
          is_quoted (quoted (key_str check)) = true /\
          is_quoted (str_of_nat cnt) = false /\
          is_quoted (quoted (key_str top_imp)) = true /\
          is_quoted (quoted (key_str top_conf)) = true) /\
    top_key [] = KStr "".
Proof.
  intros Hcsv.
  destruct (run_wrote input) as (data & dets & st & -> & Hnone & Hiter & Hagg).
  { intros Hno. by rewrite Hno in Hcsv. }
  rewrite (run_after_loop _ _ _ Hnone Hiter Hagg) in Hcsv.
  cbn [outputs counts_csv] in Hcsv. injection Hcsv as <-.
  destruct (aggregate_counts _ _ Hagg) as (keys & Hkeys & Hc & Hi & Hcf).
  exists data, dets, keys, st. do 5 (split; [done|]).
  split; [reflexivity|].
  split; [apply most_common_perm|].
  split; [by eapply aggregate_distinct|].
  split; [intros det Hdet; by eapply aggregate_row_exists|].
  split; [apply most_common_sorted|].
  split; [intros n; apply most_common_stable|].
  split; [|reflexivity].
  intros check cnt Hin. rewrite most_common_perm in Hin.
  destruct (aggregate_row_count _ _ _ _ Hagg Hin) as [Hcnt Hpos].
  split; [exact Hcnt|].
  exists (top_key (counter_of check (impact_counts st))),
         (top_key (counter_of check (confidence_counts st))).
  assert (List.filter (fun x => key_eqb (fst (fst x)) check) keys <> []) as Hne.
  { intros Hnil. rewrite <- (category_length _ _ _ Hkeys), Hnil in Hcnt.
    simpl in Hcnt. lia. }
  split; [|split; [|split; [reflexivity|]]].
  - rewrite <- (Hi check). apply top_key_first_max.
    rewrite Hi. apply tally_nonempty. by destruct (List.filter _ keys).
  - rewrite <- (Hcf check). apply top_key_first_max.
    rewrite Hcf. apply tally_nonempty. by destruct (List.filter _ keys).
  - by rewrite !is_quoted_quoted, is_quoted_str_of_nat.
Qed.

Lemma csv_table_layout_witness :
  exists data dets keys st,
    Parsed Samples.report = Parsed (PDict data) /\
    py_iter (snd (locate data)) = Ok dets /\
    mapM keys_of dets = Ok keys /\
    aggregate dets = Ok st /\
    counts st = tally (map (fun x => fst (fst x)) keys) /\
    write_csv Samples.tables =
      String.append (String.append "check,count,top_impact,top_confidence" newline)
        (concat_text (map (csv_row st) (most_common (counts st)))) /\
    most_common (counts st) ≡ₚ counts st /\
    distinct (map fst (counts st)) /\
    (forall det, det ∈ dets ->
                 exists check cnt, (check, cnt) ∈ counts st /\ in_category check det = true) /\
    StronglySorted desc (most_common (counts st)) /\
    (forall n, List.filter (fun row => (snd row =? n)%nat) (most_common (counts st)) =
               List.filter (fun row => (snd row =? n)%nat) (counts st)) /\
    (forall check cnt,
        (check, cnt) ∈ most_common (counts st) ->
        cnt = length (List.filter (in_category check) dets) /\
        exists top_imp top_conf,
          first_max top_imp
            (tally (map (fun x => snd (fst x))
                        (List.filter (fun x => key_eqb (fst (fst x)) check) keys))) /\
          first_max top_conf
            (tally (map snd (List.filter (fun x => key_eqb (fst (fst x)) check) keys))) /\
          csv_row st (check, cnt) =
          concat_text [quoted (key_str check); ","%string; str_of_nat cnt; ","%string;
                       quoted (key_str top_imp); ","%string;
                       quoted (key_str top_conf); newline] /\
          is_quoted (quoted (key_str check)) = true /\
          is_quoted (str_of_nat cnt) = false /\
          is_quoted (quoted (key_str top_imp)) = true /\
          is_quoted (quoted (key_str top_conf)) = true) /\
    top_key [] = KStr "".
Proof.
  apply (csv_table_layout (Parsed Samples.report)). vm_compute. reflexivity.
Defined.

(** C4 as stated fails on the count: in the table of the sample report the
    second field of each line is a bare number. The table is cut into lines
    and the lines into fields; [is_quoted] is then taken of each field. *)
Lemma csv_count_field_counterexample :
  counts_csv (outputs (run (Parsed Samples.report))) =
  Some (concat_text
          [csv_header;
           quoted "reentrancy"; ","%string; "4"%string; ","%string;
           quoted "High"; ","%string; quoted "Medium"; newline;
           quoted "timestamp"; ","%string; "1"%string; ","%string;
           quoted "Low"; ","%string; quoted "Medium"; newline]) /\
  map (fun line => map is_quoted (split_on "," line))
      (split_on "010" (write_csv Samples.tables)) =
  [[false; false; false; false];
   [true; false; true; true];
   [true; false; true; true];
   [false]].
Proof. vm_compute. split; reflexivity. Qed.

(** ** The Loader *)

(** X14. The rules of the Loader.  A document without [results], or
    with a null [results], gives no findings collection ([None]); when
    [results] is a mapping, the findings collection is what its [detectors]
    field holds ([None] when it has none); when [results] is no mapping and
    is true for [or] (a list that is not empty, say), [results] itself is the
    findings collection; and the run ends with status 0, the message and no
    output file exactly when the resolved value is [None]. *)
Theorem loader_rules (data : dict) :
  (lookup_key (KStr "results") data = None -> locate data = (PDict [], PNone)) /\
  (get data "results" = PNone -> locate data = (PDict [], PNone)) /\
  (forall r, get data "results" = PDict r -> locate data = (PDict r, get r "detectors")) /\
  (is_dict (get data "results") = false -> truthy (get data "results") = true ->
   locate data = (get data "results", get data "results")) /\
  (snd (locate data) = PNone <->
   ended (run (Parsed (PDict data))) = Exit 0 /\
   stdout (run (Parsed (PDict data))) = [NoDetectorsFound] /\
   outputs (run (Parsed (PDict data))) = no_files).
Proof.
  split; [|split; [|split; [|split]]].
  - unfold locate, py_or, get. by intros ->.
  - unfold locate, py_or. by intros ->.
  - unfold locate, py_or. intros r ->. by destruct r.
  - unfold locate, py_or. intros Hd ->. by destruct (get data "results").
  - split.
    + intros Hnone. unfold run. cbn [as_dict].
      destruct (locate data) as [results detectors]. cbn [snd] in Hnone. by subst.
    + intros (_ & Hout & _).
      destruct (snd (locate data)) eqn:Hdet; [done|exfalso..];
        (destruct (py_iter (snd (locate data))) as [dets|e] eqn:Hiter;
         [destruct (aggregate dets) as [st|e] eqn:Hagg|]);
        try (rewrite (run_after_loop _ _ _ (f_equal is_none Hdet) Hiter Hagg) in Hout;
             cbn [stdout] in Hout; by destruct (snd (write_md st)));
        unfold run in Hout; cbn [as_dict] in Hout;
        destruct (locate data) as [results detectors]; cbn [snd] in *;
        subst detectors; cbn [is_none] in Hout; rewrite Hiter in Hout;
        cbn [Py.bind] in Hout; rewrite ?Hagg in Hout; discriminate.
Qed.

Lemma loader_rules_witness :
  locate [(KStr "success", PBool true)] = (PDict [], PNone) /\
  locate [(KStr "results", PNone)] = (PDict [], PNone) /\
  locate Samples.report_entries =
    (PDict [(KStr "detectors", PList Samples.findings)], PList Samples.findings) /\
  locate Samples.list_report_entries =
    (PList Samples.findings, PList Samples.findings) /\
  (ended (run (Parsed (PDict []))) = Exit 0 /\
   stdout (run (Parsed (PDict []))) = [NoDetectorsFound] /\
   outputs (run (Parsed (PDict []))) = no_files).
Proof.
  split; [|split; [|split; [|split]]].
  - by apply (proj1 (loader_rules [(KStr "success", PBool true)])).
  - by apply (proj1 (proj2 (loader_rules [(KStr "results", PNone)]))).
  - by apply (proj1 (proj2 (proj2 (loader_rules Samples.report_entries)))).
  - by apply (proj1 (proj2 (proj2 (proj2 (loader_rules Samples.list_report_entries))))).
  - by apply (proj2 (proj2 (proj2 (proj2 (loader_rules []))))).
Defined.

(** C5. The script breaks the claim on the report [{"results": []}]: the
    empty list is not taken as the findings collection, though line 32 takes
    a [results] that is no mapping as the collection; the [or] of line 30
    has replaced it by the empty mapping, so the Loader resolves [None] and
    the run stops with the message and no file.  The report
    [{"results": {"detectors": []}}], which has no finding either, goes
    through and leaves the three files. *)
Lemma empty_list_of_findings_is_dropped :
  locate [(KStr "results", PList [])] = (PDict [], PNone) /\
  run (Parsed Samples.empty_list_report) =
  {| ended := Exit 0; stdout := [NoDetectorsFound]; outputs := no_files |} /\
  run (Parsed Samples.empty_report) =
  {| ended := Exit 0;
     stdout := [TrimmedWritten; SummaryWritten; CountsWritten];
     outputs :=
       {| trimmed_json := Some Samples.empty_report;
          counts_csv := Some csv_header;
          summary_md := Some [MdTitle; MdTotal 0; MdUnique 0; MdTopHeading;
                              MdBlank; MdExamplesHeading] |} |}.
Proof. vm_compute. repeat split. Qed.

(** ** The loop on the store writes to new objects only *)

Module StoreFacts.
Import Store.

Section Frame.
Context (h0 : store).

Lemma keeps_ret {A : Type} (a : A) (Q : A -> Prop) : Q a -> keeps h0 (ret a) Q.
Proof. intros HQ h Hh. split; [done | by intros ? [= <-]]. Qed.

Lemma keeps_raise {A : Type} (e : exn) (Q : A -> Prop) : keeps h0 (raise e) Q.
Proof. intros h Hh. split; [done | discriminate]. Qed.

Lemma keeps_bind {A B : Type} (m : M A) (k : A -> M B) (Q : A -> Prop) (R : B -> Prop) :
  keeps h0 m Q -> (forall a, Q a -> keeps h0 (k a) R) -> keeps h0 (bind m k) R.
Proof.
  intros Hm Hk h Hh. unfold bind.
  destruct (Hm h Hh) as [Hp Hq]. destruct (m h) as [[a|f] h']; cbn [fst snd] in *.
  - by apply Hk; auto.
  - split; [done | discriminate].
Qed.

Lemma keeps_weaken {A : Type} (m : M A) (Q R : A -> Prop) :
  keeps h0 m Q -> (forall a, Q a -> R a) -> keeps h0 m R.
Proof. intros Hm HQR h Hh. destruct (Hm h Hh). split; auto. Qed.

Lemma keeps_any {A : Type} (m : M A) (Q : A -> Prop) :
  keeps h0 m Q -> keeps h0 m (fun _ => True).
Proof. intros Hm. by eapply keeps_weaken. Qed.

Lemma keeps_alloc (o : obj) : keeps h0 (alloc o) (new_in h0).
Proof.
  intros h [k ->]. split; cbn.
  - exists (k ++ [o]). by rewrite app_assoc.
  - intros a [= <-]. cbn. rewrite length_app. lia.
Qed.

Lemma keeps_deref (l : nat) : keeps h0 (deref l) (fun _ => True).
Proof. intros h Hh. unfold deref. destruct (_ !! l); cbn; split; auto. Qed.

Lemma keeps_update (l : nat) (o : obj) :
  (length h0 <= l)%nat -> keeps h0 (update l o) (fun _ => True).
Proof.
  intros Hl h [k ->]. unfold update.
  destruct ((h0 ++ k) !! l); cbn; split; auto; [|by eexists].
  rewrite insert_app_r_alt by done. by eexists.
Qed.

(** What only reads the store. *)
Lemma keeps_hash (v : val) : keeps h0 (hash v) (fun _ => True).
Proof. destruct v; by (apply keeps_ret || apply keeps_raise). Qed.

Lemma keeps_truthy (v : val) : keeps h0 (truthy v) (fun _ => True).
Proof.
  destruct v; try by apply keeps_ret.
  eapply keeps_bind; [apply keeps_deref | intros; by apply keeps_ret].
Qed.

Lemma keeps_is_dict (v : val) : keeps h0 (is_dict v) (fun _ => True).
Proof.
  destruct v; try by apply keeps_ret.
  eapply keeps_bind; [apply keeps_deref | intros; by apply keeps_ret].
Qed.

Lemma keeps_is_list (v : val) : keeps h0 (is_list v) (fun _ => True).
Proof.
  destruct v; try by apply keeps_ret.
  eapply keeps_bind; [apply keeps_deref | intros; by apply keeps_ret].
Qed.

Lemma keeps_get (v : val) (name : string) : keeps h0 (get v name) (fun _ => True).
Proof.
  destruct v; try by apply keeps_raise.
  eapply keeps_bind; [apply keeps_deref|].
  intros [items|d] _; by (apply keeps_ret || apply keeps_raise).
Qed.

Lemma keeps_contains (v : val) (name : string) : keeps h0 (contains v name) (fun _ => True).
Proof.
  destruct v; try by (apply keeps_ret || apply keeps_raise).
  eapply keeps_bind; [apply keeps_deref|].
  intros [items|d] _; by apply keeps_ret.
Qed.

Lemma keeps_iter (v : val) : keeps h0 (iter v) (fun _ => True).
Proof.
  destruct v; try by (apply keeps_ret || apply keeps_raise).
  eapply keeps_bind; [apply keeps_deref|].
  intros [items|d] _; by apply keeps_ret.
Qed.

Lemma keeps_pair_of_item (x : val) : keeps h0 (pair_of_item x) (fun _ => True).
Proof.
  eapply keeps_bind; [apply keeps_iter|].
  intros [|k [|v [|]]] _; try by apply keeps_raise.
  eapply keeps_bind; [apply keeps_hash | intros; by apply keeps_ret].
Qed.

Lemma keeps_forM {A : Type} (f : A -> M unit) (l : list A) :
  (forall x, keeps h0 (f x) (fun _ => True)) -> keeps h0 (forM f l) (fun _ => True).
Proof.
  intros Hf. induction l as [|x l IH]; cbn [forM]; [by apply keeps_ret|].
  eapply keeps_bind; [apply Hf | by intros].
Qed.

Lemma keeps_foldM {A S : Type} (f : S -> A -> M S) (I : S -> Prop) (l : list A) (s : S) :
  (forall s x, x ∈ l -> I s -> keeps h0 (f s x) I) -> I s -> keeps h0 (foldM f s l) I.
Proof.
  revert s. induction l as [|x l IH]; intros s Hf Hs; cbn [foldM].
  - by apply keeps_ret.
  - eapply keeps_bind; [apply Hf; [left | done]|].
    intros s' Hs'. apply IH; [|done].
    intros s0 y Hy. apply Hf. by right.
Qed.

(** What writes: to the object it is given, which has to be a new one. *)
Lemma keeps_set_item (v : val) (name : string) (x : val) :
  new_in h0 v -> keeps h0 (set_item v name x) (fun _ => True).
Proof.
  destruct v; try by (intros; apply keeps_raise).
  intros Hnew. eapply keeps_bind; [apply keeps_deref|].
  intros [items|d] _; [apply keeps_raise | by apply keeps_update].
Qed.

Lemma keeps_append (v x : val) : new_in h0 v -> keeps h0 (append v x) (fun _ => True).
Proof.
  destruct v; try by (intros; apply keeps_raise).
  intros Hnew. eapply keeps_bind; [apply keeps_deref|].
  intros [items|d] _; [by apply keeps_update | apply keeps_raise].
Qed.

(** What makes objects: they are new. *)
Lemma keeps_dict_copy (v : val) : keeps h0 (dict_copy v) (new_in h0).
Proof.
  eapply keeps_bind; [apply keeps_is_dict|]. intros [|] _.
  - destruct v; try apply keeps_raise.
    eapply keeps_bind; [apply keeps_deref|].
    intros [items|d] _; [apply keeps_raise | apply keeps_alloc].
  - eapply keeps_bind; [apply keeps_iter|]. intros items _.
    eapply keeps_bind; [|intros; apply keeps_alloc].
    apply (keeps_foldM _ (fun _ => True)); [|done].
    intros d x _ _. eapply keeps_bind; [apply keeps_pair_of_item|].
    intros; by apply keeps_ret.
Qed.

Lemma keeps_or_else (a : val) (b : M val) (Q : val -> Prop) :
  keeps h0 b Q -> keeps h0 (or_else a b) (fun _ => True).
Proof.
  intros Hb. eapply keeps_bind; [apply keeps_truthy|].
  intros [|] _; [by apply keeps_ret | by eapply keeps_any].
Qed.

Lemma keeps_summarize_lines (lines : val) :
  keeps h0 (summarize_lines lines) (fun _ => True).
Proof.
  eapply keeps_bind; [apply keeps_is_list|]. intros [|] _; [|by apply keeps_ret].
  eapply keeps_bind; [apply keeps_iter|]. intros items _.
  destruct (length items <=? 10)%nat.
  - eapply keeps_any, keeps_alloc.
  - eapply keeps_bind; [apply keeps_alloc|]. intros first _.
    eapply keeps_bind; [apply keeps_alloc|]. intros last _.
    eapply keeps_any, keeps_alloc.
Qed.

(** The parts of the loop body. *)
Lemma keeps_trim_source_mapping (e_copy : val) :
  new_in h0 e_copy -> keeps h0 (trim_source_mapping e_copy) (fun _ => True).
Proof.
  intros Hnew. unfold trim_source_mapping.
  eapply keeps_bind; [apply keeps_get|]. intros sm _.
  eapply keeps_bind; [apply keeps_is_dict|]. intros [|] _; [|by apply keeps_ret].
  eapply keeps_bind; [apply keeps_get|]. intros lines _.
  destruct (is_none lines); [by apply keeps_ret|].
  eapply keeps_bind; [apply keeps_dict_copy|]. intros sm' Hsm'.
  eapply keeps_bind; [apply keeps_summarize_lines|]. intros summary _.
  eapply keeps_bind; [by apply keeps_set_item|]. intros _ _.
  by apply keeps_set_item.
Qed.

Lemma keeps_trim_parent (e_copy : val) :
  new_in h0 e_copy -> keeps h0 (trim_parent e_copy) (fun _ => True).
Proof.
  intros Hnew. unfold trim_parent.
  eapply keeps_bind; [apply keeps_get|]. intros tsf0 _.
  eapply keeps_bind; [eapply keeps_or_else, keeps_alloc|]. intros tsf _.
  eapply keeps_bind; [apply keeps_is_dict|]. intros [|] _; [|by apply keeps_ret].
  eapply keeps_bind; [apply keeps_get|]. intros parent _.
  eapply keeps_bind; [apply keeps_is_dict|]. intros [|] _; [|by apply keeps_ret].
  eapply keeps_bind; [apply keeps_get|]. intros psm _.
  eapply keeps_bind; [apply keeps_is_dict|]. intros [|] _; [|by apply keeps_ret].
  eapply keeps_bind; [apply keeps_contains|]. intros [|] _; [|by apply keeps_ret].
  eapply keeps_bind; [apply keeps_dict_copy|]. intros psm' Hpsm'.
  eapply keeps_bind; [apply keeps_get|]. intros lines _.
  eapply keeps_bind; [apply keeps_summarize_lines|]. intros summary _.
  eapply keeps_bind; [by apply keeps_set_item|]. intros _ _.
  eapply keeps_bind; [apply keeps_dict_copy|]. intros parent' Hparent'.
  eapply keeps_bind; [by apply keeps_set_item|]. intros _ _.
  eapply keeps_bind; [apply keeps_dict_copy|]. intros tsf' Htsf'.
  eapply keeps_bind; [by apply keeps_set_item|]. intros _ _.
  by apply keeps_set_item.
Qed.

Lemma keeps_trim_element (new_elems e : val) :
  new_in h0 new_elems -> keeps h0 (trim_element new_elems e) (fun _ => True).
Proof.
  intros Hnew. unfold trim_element.
  eapply keeps_bind; [apply keeps_dict_copy|]. intros e_copy He.
  eapply keeps_bind; [by apply keeps_trim_source_mapping|]. intros _ _.
  eapply keeps_bind; [by apply keeps_trim_parent|]. intros _ _.
  by apply keeps_append.
Qed.

Lemma keeps_trim_detector (det : val) : keeps h0 (trim_detector det) (new_in h0).
Proof.
  unfold trim_detector.
  eapply keeps_bind; [apply keeps_dict_copy|]. intros det_copy Hd.
  eapply keeps_bind; [apply keeps_get|]. intros elems0 _.
  eapply keeps_bind; [eapply keeps_or_else, keeps_alloc|]. intros elems _.
  eapply keeps_bind; [apply keeps_alloc|]. intros new_elems Hn.
  eapply keeps_bind; [apply keeps_iter|]. intros items _.
  eapply keeps_bind; [apply keeps_forM; intros; by apply keeps_trim_element|]. intros _ _.
  eapply keeps_bind; [by apply keeps_set_item|]. intros _ _.
  by apply keeps_ret.
Qed.

(** A turn of the loop: the list of the copies stays the same new object,
    and the table of examples takes the finding itself. *)
Lemma keeps_step (st : agg) (det : val) :
  new_in h0 (trimmed_detectors st) ->
  keeps h0 (step st det)
        (fun st' => new_in h0 (trimmed_detectors st') /\
                    exists check, top_examples st' = keep_example check det (top_examples st)).
Proof.
  intros Hnew. unfold step.
  eapply keeps_bind; [apply keeps_get|]. intros c0 _.
  eapply keeps_bind; [by apply (keeps_or_else _ _ (fun _ => True)), keeps_ret|]. intros c _.
  eapply keeps_bind; [apply keeps_hash|]. intros check _.
  eapply keeps_bind; [apply keeps_get|]. intros i0 _.
  eapply keeps_bind; [by apply (keeps_or_else _ _ (fun _ => True)), keeps_ret|]. intros i _.
  eapply keeps_bind; [apply keeps_get|]. intros cf0 _.
  eapply keeps_bind; [by apply (keeps_or_else _ _ (fun _ => True)), keeps_ret|]. intros cf _.
  eapply keeps_bind; [apply keeps_hash|]. intros impact _.
  eapply keeps_bind; [apply keeps_hash|]. intros confidence _.
  eapply keeps_bind; [apply keeps_trim_detector|]. intros det_copy _.
  eapply keeps_bind; [by apply keeps_append|]. intros _ _.
  apply keeps_ret. split; [done | by exists check].
Qed.

Lemma keep_example_elem (check k : hkey) (det ex : val) (exs : list val) table :
  (k, exs) ∈ keep_example check det table -> ex ∈ exs ->
  ex = det \/ exists exs0, (k, exs0) ∈ table /\ ex ∈ exs0.
Proof.
  unfold keep_example. induction table as [|[k1 exs1] table IH]; cbn [alter_key].
  - intros [[= -> ->]|[]%elem_of_nil]%elem_of_cons. cbn.
    intros [->|[]%elem_of_nil]%elem_of_cons. by left.
  - destruct (key_eqb k1 check).
    + intros [[= -> ->]|Hin]%elem_of_cons Hex.
      * cbn [default from_option id] in Hex. destruct (length exs1 <? 3)%nat.
        -- apply elem_of_app in Hex as [Hex|[->|[]%elem_of_nil]%elem_of_cons];
             [right | by left].
           exists exs1. split; [left | done].
        -- right. exists exs1. split; [left | done].
      * right. exists exs. split; [by right | done].
    + intros [[= -> ->]|Hin]%elem_of_cons Hex.
      * right. exists exs1. split; [left | done].
      * destruct (IH Hin Hex) as [->|(exs0 & ? & ?)]; [by left|].
        right. exists exs0. split; [by right | done].
Qed.

Lemma closed_lookup (l : nat) (o : obj) :
  closed h0 = true -> h0 !! l = Some o ->
  Forall (fun v => in_store h0 v = true) (obj_vals o).
Proof.
  unfold closed. rewrite forallb_forall. intros Hc Hl.
  apply Forall_forall. intros v Hv.
  specialize (Hc o). rewrite forallb_forall in Hc.
  apply Hc; [|by apply list_elem_of_In].
  apply list_elem_of_In. by eapply list_elem_of_lookup_2.
Qed.

(** The items of a list of [h0] are values of [h0], whatever was added to
    the store since. *)
Lemma keeps_iter_old (v : val) :
  closed h0 = true -> in_store h0 v = true ->
  keeps h0 (iter v) (Forall (fun x => in_store h0 x = true)).
Proof.
  intros Hc Hv h Hh. split; [by apply keeps_iter|].
  destruct v as [| | |s|l]; cbn; try discriminate.
  - intros a [= <-]. apply Forall_forall. by intros x (c & -> & _)%list_elem_of_fmap.
  - cbn in Hv. apply Nat.ltb_lt in Hv.
    destruct (lookup_lt_is_Some_2 h0 l Hv) as [o Ho].
    unfold bind, deref. rewrite (prefix_lookup_Some _ _ _ _ Ho Hh).
    pose proof (closed_lookup _ _ Hc Ho) as Hvals.
    destruct o as [items|d]; cbn; intros a [= <-]; [exact Hvals|].
    apply Forall_forall. intros x ([k y] & -> & _)%list_elem_of_fmap. by destruct k.
Qed.

(** The loop, lines 37-98. *)
Lemma keeps_aggregate (detectors : val) :
  keeps h0 (aggregate detectors) (fun st => new_in h0 (trimmed_detectors st)).
Proof.
  unfold aggregate.
  eapply keeps_bind; [apply keeps_alloc|]. intros trimmed Ht.
  eapply keeps_bind; [apply keeps_iter|]. intros dets _.
  apply (keeps_foldM _ (fun st => new_in h0 (trimmed_detectors st))); [|done].
  intros st det _ Hst. eapply keeps_weaken; [by apply keeps_step|].
  by intros st' [? _].
Qed.

Lemma keeps_aggregate_examples (detectors : val) :
  closed h0 = true -> in_store h0 detectors = true ->
  keeps h0 (aggregate detectors)
        (fun st => forall check examples ex,
                     (check, examples) ∈ top_examples st -> ex ∈ examples ->
                     in_store h0 ex = true).
Proof.
  intros Hc Hd. unfold aggregate.
  eapply keeps_bind; [apply keeps_alloc|]. intros trimmed Ht.
  eapply keeps_bind; [by apply keeps_iter_old|]. intros dets Hdets.
  eapply keeps_weaken.
  - apply (keeps_foldM _ (fun st =>
             new_in h0 (trimmed_detectors st) /\
             forall check examples ex,
               (check, examples) ∈ top_examples st -> ex ∈ examples ->
               in_store h0 ex = true)).
    + intros st det Hdet [Hnew Hkept].
      eapply keeps_weaken; [by apply keeps_step|].
      intros st' [Hnew' [check ->]]. split; [done|].
      intros k examples ex Hin Hex.
      destruct (keep_example_elem _ _ _ _ _ _ Hin Hex) as [->|(exs0 & ? & ?)].
      * rewrite Forall_forall in Hdets. by apply Hdets.
      * by eapply Hkept.
    + split; [done|]. by intros ??? []%elem_of_nil.
  - by intros st [_ ?].
Qed.

Lemma keeps_build_trimmed (data results : val) (st : agg) :
  keeps h0 (build_trimmed data results st) (fun _ => True).
Proof.
  unfold build_trimmed.
  eapply keeps_bind; [apply keeps_dict_copy|]. intros trimmed Ht.
  eapply keeps_bind; [apply keeps_is_dict|]. intros b _.
  eapply keeps_bind; [instantiate (1 := new_in h0);
                      destruct b; [apply keeps_dict_copy | apply keeps_alloc]|].
  intros trimmed_results Hr.
  eapply keeps_bind; [by apply keeps_set_item|]. intros _ _.
  eapply keeps_bind; [by apply keeps_set_item|]. intros _ _.
  by apply keeps_ret.
Qed.

Lemma keeps_locate (data : val) : keeps h0 (locate data) (fun _ => True).
Proof.
  unfold locate.
  eapply keeps_bind; [apply keeps_get|]. intros r _.
  eapply keeps_bind; [eapply keeps_or_else, keeps_alloc|]. intros results _.
  eapply keeps_bind; [apply keeps_is_dict|]. intros b _.
  eapply keeps_bind; [instantiate (1 := fun _ => True);
                      destruct b; [apply keeps_get | by apply keeps_ret]|].
  intros detectors _. by apply keeps_ret.
Qed.

(** Lines 30-104. *)
Lemma keeps_process (data : val) : keeps h0 (process data) (fun _ => True).
Proof.
  unfold process.
  eapply keeps_bind; [apply keeps_locate|]. intros found _.
  destruct (is_none (snd found)); [by apply keeps_ret|].
  eapply keeps_bind; [apply keeps_aggregate|]. intros st _.
  eapply keeps_bind; [apply keeps_build_trimmed|]. intros trimmed _.
  by apply keeps_ret.
Qed.

End Frame.

(** Reading through a store that has grown at its end gives the same. *)
Lemma all_some_map_impl {A B : Type} (f g : A -> option B) (l : list A) (ys : list B) :
  (forall x y, x ∈ l -> f x = Some y -> g x = Some y) ->
  all_some (map f l) = Some ys -> all_some (map g l) = Some ys.
Proof.
  revert ys. induction l as [|x l IH]; intros ys Hfg; cbn; [done|].
  destruct (f x) as [y|] eqn:Hx; [|discriminate].
  rewrite (Hfg x y); [|left|done].
  destruct (all_some (map f l)) as [ys'|]; [|discriminate].
  rewrite (IH ys'); [done| |done]. intros x' y' Hin. apply Hfg. by right.
Qed.

Lemma view_prefix (fuel : nat) (h h' : store) (v : val) (pv : pyval) :
  h `prefix_of` h' -> view fuel h v = Some pv -> view fuel h' v = Some pv.
Proof.
  intros Hh. revert v pv. induction fuel as [|fuel IH]; intros [| | | |l] pv; cbn; try done.
  destruct (h !! l) as [o|] eqn:Ho; [|discriminate].
  rewrite (prefix_lookup_Some _ _ _ _ Ho Hh).
  destruct o as [items|d].
  - destruct (all_some (map (view fuel h) items)) as [vs|] eqn:Hvs; [|discriminate].
    by rewrite (all_some_map_impl _ (view fuel h') _ _ (fun x y _ => IH x y) Hvs).
  - match goal with
    | |- context [all_some (map ?f d)] =>
        destruct (all_some (map f d)) as [kvs|] eqn:Hkvs; [|discriminate]
    end.
    erewrite all_some_map_impl; [done| |exact Hkvs].
    intros [k x] [k' y] _. cbn.
    destruct (view fuel h x) as [px|] eqn:Hx; [|discriminate].
    by rewrite (IH _ _ Hx).
Qed.

(** C10. The pass changes no object of the store it starts from: the
    document, its findings, their elements, source mappings and [lines]
    lists are after the pass what they were before, so a value read from
    the store before the pass reads the same after it. The examples kept for
    the summary are references to findings of that store, not to copies:
    they still hold their whole [lines] lists. *)
Theorem trimming_never_mutates_input (h : store) (data : val) :
  (forall l o, h !! l = Some o -> snd (process data h) !! l = Some o) /\
  (forall fuel v pv,
      view fuel h v = Some pv -> view fuel (snd (process data h)) v = Some pv) /\
  (forall detectors st check examples ex,
      closed h = true -> in_store h detectors = true ->
      fst (aggregate detectors h) = Done st ->
      (check, examples) ∈ top_examples st -> ex ∈ examples ->
      in_store h ex = true /\
      forall fuel pv,
        view fuel h ex = Some pv ->
        view fuel (snd (aggregate detectors h)) ex = Some pv).
Proof.
  destruct (keeps_process h data h) as [Hprefix _]; [done|].
  split; [|split].
  - intros l o Hl. by eapply prefix_lookup_Some.
  - intros fuel v pv. by apply view_prefix.
  - intros detectors st check examples ex Hc Hd Hst Hin Hex.
    destruct (keeps_aggregate_examples h detectors Hc Hd h) as [Hp Hq]; [done|].
    split; [by eapply Hq|].
    intros fuel pv. by apply view_prefix.
Qed.

Lemma trimming_never_mutates_input_witness :
  in_store Samples.report_store (nth 0 Samples.finding_refs VNone) = true /\
  forall fuel pv,
    view fuel Samples.report_store (nth 0 Samples.finding_refs VNone) = Some pv ->
    view fuel (snd (aggregate Samples.detectors_ref Samples.report_store))
         (nth 0 Samples.finding_refs VNone) = Some pv.
Proof.
  apply (proj2 (proj2 (trimming_never_mutates_input
                         Samples.report_store Samples.report_ref))
           Samples.detectors_ref Samples.store_tables (KStr "reentrancy")
           (default [] (lookup_key (KStr "reentrancy")
                          (top_examples Samples.store_tables))));
    [reflexivity | reflexivity | by vm_compute | | ].
  - vm_compute. left.
  - vm_compute. left.
Defined.

End StoreFacts.

(** ** The script on the store computes what the script on values computes *)

Module Refinement.
Import Store.

Lemma pyval_nested_ind (Q : pyval -> Prop) :
  Q PNone -> (forall b, Q (PBool b)) -> (forall z, Q (PInt z)) ->
  (forall s, Q (PStr s)) ->
  (forall ps, Forall Q ps -> Q (PList ps)) ->
  (forall pd, Forall Q (map snd pd) -> Q (PDict pd)) ->
  forall pv, Q pv.
Proof.
  intros HN HB HI HS HL HD. fix IH 1. intros [|b|z|s|ps|pd].
  - exact HN.
  - apply HB.
  - apply HI.
  - apply HS.
  - apply HL. induction ps as [|p ps IHps]; constructor; [apply IH | exact IHps].
  - apply HD. induction pd as [|[k p] pd IHpd]; constructor; [apply IH | exact IHpd].
Qed.

Lemma Forall2_Forall_impl {A B : Type} (Q : A -> Prop) (R R' : A -> B -> Prop) l k :
  Forall Q l -> Forall2 R l k -> (forall x y, Q x -> R x y -> R' x y) -> Forall2 R' l k.
Proof.
  intros HQ HR Himpl. induction HR; inversion HQ; subst; constructor; auto.
Qed.

(** A value read through [P] in [h] reads the same through [P'] in [h']
    when the objects of [P] are objects of [P'], unchanged. *)
Lemma rep_mono (P P' : nat -> Prop) (h h' : store) (pv : pyval) (v : val) :
  (forall l o, P l -> h !! l = Some o -> P' l /\ h' !! l = Some o) ->
  rep P h pv v -> rep P' h' pv v.
Proof.
  intros Hm. revert v.
  induction pv as [|b|z|s|ps IH|pd IH] using pyval_nested_ind;
    intros v Hr; inversion Hr as [| | | |l ? vs HP Hl Hvs|l ? d HP Hl Hk Hvs];
    subst; try constructor.
  - destruct (Hm _ _ HP Hl). econstructor; eauto.
    eapply Forall2_Forall_impl; eauto.
  - destruct (Hm _ _ HP Hl). econstructor; eauto.
    eapply Forall2_Forall_impl; eauto.
Qed.

Section Agree.
Implicit Types (X : list nat) (h : store).

Lemma agree_refl X h : agree_outside X h h.
Proof. split; auto. Qed.

Lemma agree_trans X h1 h2 h3 :
  agree_outside X h1 h2 -> agree_outside X h2 h3 -> agree_outside X h1 h3.
Proof.
  intros [Hl1 H1] [Hl2 H2]. split; [lia|].
  intros l Hl HX. rewrite H2 by (done || lia). by apply H1.
Qed.

Lemma agree_weaken X X' h h' :
  X ⊆ X' -> agree_outside X h h' -> agree_outside X' h h'.
Proof.
  intros HX [Hl H]. split; [done|]. intros l Hlt Hout. apply H; [done|].
  intros Hin. apply Hout. by apply HX.
Qed.

Lemma agree_alloc X h o : agree_outside X h (h ++ [o]).
Proof.
  split; [rewrite length_app; lia|].
  intros l Hl _. by apply lookup_app_l.
Qed.

Lemma agree_update X h l o : l ∈ X -> agree_outside X h (<[l := o]> h).
Proof.
  intros Hl. split; [by rewrite length_insert|].
  intros l' _ Hout. apply list_lookup_insert_ne. by intros ->.
Qed.

(** What was read outside [X] is read the same after a change inside [X]. *)
Lemma rep_agree X h h' pv v :
  agree_outside X h h' -> rep (outside X) h pv v -> rep (outside X) h' pv v.
Proof.
  intros [_ Hag]. apply rep_mono. intros l o Hout Hl. split; [done|].
  rewrite Hag; [done| |done]. by eapply lookup_lt_Some.
Qed.

Lemma rep_weaken X X' h pv v :
  X' ⊆ X -> rep (outside X) h pv v -> rep (outside X') h pv v.
Proof.
  intros HX. apply rep_mono. intros l o Hout Hl. split; [|done].
  intros Hin. apply Hout. by apply HX.
Qed.

(** A reference that is not in the store yet is not read. *)
Lemma rep_new X h n pv v :
  (length h <= n)%nat -> rep (outside X) h pv v -> rep (outside (n :: X)) h pv v.
Proof.
  intros Hn. apply rep_mono. intros l o Hout Hl. split; [|done].
  apply lookup_lt_Some in Hl. intros [->|Hin]%elem_of_cons; [lia | done].
Qed.

End Agree.

(** *** The built-ins *)

Section BuiltIns.
Context (P : nat -> Prop).
Implicit Types (h : store) (v x : val) (pv : pyval).

Lemma bind_done {A B : Type} (m : M A) (k : A -> M B) h a h1 :
  m h = (Done a, h1) -> bind m k h = k a h1.
Proof. unfold bind. by intros ->. Qed.

Lemma bind_fail {A B : Type} (m : M A) (k : A -> M B) h f h1 :
  m h = (Fail f, h1) -> bind m k h = (Fail f, h1).
Proof. unfold bind. by intros ->. Qed.

Lemma truthy_rep h pv v : rep P h pv v -> truthy v h = (Done (Py.truthy pv), h).
Proof.
  destruct 1 as [| | | |l ps vs _ Hl Hvs|l pd d _ Hl Hk Hvs]; try reflexivity;
    cbn; unfold bind, deref; rewrite Hl.
  - by destruct Hvs.
  - destruct pd, d; try discriminate; reflexivity.
Qed.

Lemma is_dict_rep h pv v : rep P h pv v -> is_dict v h = (Done (Py.is_dict pv), h).
Proof.
  destruct 1 as [| | | |l ps vs _ Hl Hvs|l pd d _ Hl Hk Hvs]; try reflexivity;
    cbn; unfold bind, deref; by rewrite Hl.
Qed.

Lemma is_list_rep h pv v : rep P h pv v -> is_list v h = (Done (Py.is_list pv), h).
Proof.
  destruct 1 as [| | | |l ps vs _ Hl Hvs|l pd d _ Hl Hk Hvs]; try reflexivity;
    cbn; unfold bind, deref; by rewrite Hl.
Qed.

Lemma is_none_rep h pv v : rep P h pv v -> is_none v = Py.is_none pv.
Proof. by destruct 1. Qed.

Lemma hash_rep h pv v :
  rep P h pv v ->
  hash v h = (match py_hash pv with Ok k => Done k | Raise e => Fail (Raised e) end, h).
Proof. by destruct 1. Qed.

Lemma bind_bind_hash {B : Type} h pv v (k : hkey -> M B) :
  rep P h pv v ->
  bind (hash v) k h =
  match py_hash pv with Ok key => k key h | Raise e => (Fail (Raised e), h) end.
Proof. intros Hv. unfold bind. rewrite (hash_rep h pv v Hv). by destruct (py_hash pv). Qed.

(** Reading a key in two lists of entries that hold the same. *)
Lemma lookup_entries h (k : hkey) (pd : dict) (d : list (hkey * val)) :
  entries P h pd d ->
  match lookup_key k pd, lookup_key k d with
  | Some p, Some x => rep P h p x
  | None, None => True
  | _, _ => False
  end.
Proof.
  intros [Hk Hv]. revert d Hk Hv.
  induction pd as [|[k1 p] pd IH]; intros [|[k2 x] d]; try discriminate; [done|].
  cbn. intros [= <- Hk] Hv. inversion Hv; subst.
  destruct (key_eqb k1 k); [done | by apply IH].
Qed.

Lemma entries_set_key h (k : hkey) (p : pyval) x (pd : dict) (d : list (hkey * val)) :
  entries P h pd d -> rep P h p x -> entries P h (set_key k p pd) (set_key k x d).
Proof.
  intros [Hk Hv] Hx. unfold set_key. revert d Hk Hv.
  induction pd as [|[k1 p1] pd IH]; intros [|[k2 x2] d]; try discriminate.
  - intros _ _. split; [done | by constructor].
  - cbn. intros [= <- Hk] Hv. inversion Hv; subst.
    destruct (key_eqb k1 k); unfold entries; cbn.
    + split; [by rewrite Hk | by constructor].
    + destruct (IH d Hk) as [Hk' Hv']; [done|].
      split; [by rewrite Hk' | by constructor].
Qed.

Lemma mem_key_entries h (k : hkey) (pd : dict) (d : list (hkey * val)) :
  entries P h pd d -> mem_key k d = mem_key k pd.
Proof. intros [Hk _]. symmetry. by apply mem_key_keys. Qed.

Lemma get_rep h pd v (name : string) :
  rep P h (PDict pd) v ->
  exists x, get v name h = (Done x, h) /\ rep P h (Py.get pd name) x.
Proof.
  inversion 1 as [| | | | |l ? d _ Hl Hk Hv]; subst.
  cbn. unfold bind, deref. rewrite Hl. cbn.
  pose proof (lookup_entries h (KStr name) pd d (conj Hk Hv)) as Hlook.
  unfold Py.get.
  destruct (lookup_key (KStr name) pd), (lookup_key (KStr name) d); try done;
    eexists; (split; [reflexivity|]); [done | constructor].
Qed.

Lemma get_rep_fail h pv v (name : string) :
  rep P h pv v -> Py.is_dict pv = false ->
  get v name h = (Fail (Raised AttributeError), h).
Proof.
  destruct 1 as [| | | |l ps vs _ Hl Hvs|l pd d _ Hl Hk Hvs]; try reflexivity;
    [|discriminate].
  intros _. cbn. unfold bind, deref. by rewrite Hl.
Qed.

Lemma contains_rep h pd v (name : string) :
  rep P h (PDict pd) v -> contains v name h = (Done (mem_key (KStr name) pd), h).
Proof.
  inversion 1 as [| | | | |l ? d _ Hl Hk Hv]; subst.
  cbn. unfold bind, deref. rewrite Hl. cbn.
  by rewrite (mem_key_entries h _ pd d (conj Hk Hv)).
Qed.

Lemma rep_val_of_key h (k : hkey) : rep P h (Py.val_of_key k) (val_of_key k).
Proof. destruct k; constructor. Qed.

Lemma iter_rep h pv v :
  rep P h pv v ->
  match py_iter pv with
  | Ok ps => exists vs, iter v h = (Done vs, h) /\ Forall2 (rep P h) ps vs
  | Raise e => iter v h = (Fail (Raised e), h)
  end.
Proof.
  destruct 1 as [| | |s|l ps vs _ Hl Hvs|l pd d _ Hl Hk Hvs]; try reflexivity; cbn.
  - eexists. split; [reflexivity|].
    induction (chars s); constructor; [constructor | done].
  - unfold bind, deref. rewrite Hl. by eexists.
  - unfold bind, deref. rewrite Hl. eexists. split; [reflexivity|].
    clear Hl Hvs. revert d Hk.
    induction pd as [|[k1 p] pd IH]; intros [|[k2 x] d]; try discriminate;
      [constructor|].
    cbn. intros [= <- Hk]. constructor; [apply rep_val_of_key | by apply IH].
Qed.

Lemma pair_of_item_rep h px x :
  rep P h px x ->
  match Py.pair_of_item px with
  | Ok kp => exists y, pair_of_item x h = (Done (fst kp, y), h) /\ rep P h (snd kp) y
  | Raise e => pair_of_item x h = (Fail (Raised e), h)
  end.
Proof.
  intros Hx. unfold Py.pair_of_item, pair_of_item.
  pose proof (iter_rep h px x Hx) as Hiter.
  destruct (py_iter px) as [ps|e]; cbn.
  - destruct Hiter as (vs & Hvs & Hreps). rewrite (bind_done _ _ _ _ _ Hvs).
    destruct Hreps as [|p1 v1 ps vs Hp1 Hreps]; [reflexivity|].
    destruct Hreps as [|p2 v2 ps vs Hp2 Hreps]; [reflexivity|].
    destruct Hreps; [|reflexivity].
    pose proof (hash_rep h p1 v1 Hp1) as Hh.
    destruct (py_hash p1) as [k|e]; cbn.
    + rewrite (bind_done _ _ _ _ _ Hh). by eexists.
    + by rewrite (bind_fail _ _ _ _ _ Hh).
  - by rewrite (bind_fail _ _ _ _ _ Hiter).
Qed.

Lemma fold_pairs_rep h (ps : list pyval) (vs : list val) (pd0 : dict) d0 :
  Forall2 (rep P h) ps vs -> entries P h pd0 d0 ->
  match Py.foldM (fun acc item => Py.bind (Py.pair_of_item item)
                               (fun kv => Ok (set_key (fst kv) (snd kv) acc))) pd0 ps with
  | Ok pd =>
      exists d,
        foldM (fun acc item => kv <~ pair_of_item item ;; ret (set_key (fst kv) (snd kv) acc)) d0 vs h
        = (Done d, h) /\ entries P h pd d
  | Raise e =>
      foldM (fun acc item => kv <~ pair_of_item item ;; ret (set_key (fst kv) (snd kv) acc)) d0 vs h
      = (Fail (Raised e), h)
  end.
Proof.
  intros Hvs. revert pd0 d0.
  induction Hvs as [|p x ps vs Hx Hvs IH]; intros pd0 d0 Hd; cbn.
  - by exists d0.
  - pose proof (pair_of_item_rep h p x Hx) as Hpair.
    destruct (Py.pair_of_item p) as [[k q]|e]; cbn in *.
    + destruct Hpair as (y & Hy & Hq).
      rewrite (bind_done _ _ _ _ _ (bind_done _ _ _ _ _ Hy)). cbn.
      apply IH. by apply entries_set_key.
    + by rewrite (bind_fail _ _ _ _ _ (bind_fail _ _ _ _ _ Hpair)).
Qed.

(** [dict(v)]: the copy is the new object at the end of the store, with
    the entries of the Python copy. *)
Lemma dict_copy_rep h pv v :
  rep P h pv v ->
  match py_dict pv with
  | Ok pd =>
      exists d, dict_copy v h = (Done (VRef (length h)), h ++ [ODict d]) /\
                entries P h pd d
  | Raise e => dict_copy v h = (Fail (Raised e), h)
  end.
Proof.
  intros Hv. unfold dict_copy.
  rewrite (bind_done _ _ _ _ _ (is_dict_rep h pv v Hv)).
  destruct (Py.is_dict pv) eqn:Hd.
  - destruct pv; try discriminate.
    inversion Hv as [| | | | |l ? d _ Hl Hk Hvs]; subst. cbn.
    exists d. split; [|done]. unfold bind, deref. by rewrite Hl.
  - assert (py_dict pv =
            Py.bind (py_iter pv) (fun items =>
              Py.foldM (fun acc item => Py.bind (Py.pair_of_item item)
                                     (fun kv => Ok (set_key (fst kv) (snd kv) acc))) [] items))
      as -> by (by destruct pv).
    pose proof (iter_rep h pv v Hv) as Hiter.
    destruct (py_iter pv) as [ps|e]; cbn.
    + destruct Hiter as (vs & Hvs & Hreps). rewrite (bind_done _ _ _ _ _ Hvs).
      assert (entries P h [] []) as Hnil by (split; [done | constructor]).
      pose proof (fold_pairs_rep h ps vs [] [] Hreps Hnil) as Hfold.
      destruct (Py.foldM _ [] ps) as [pd|e].
      * destruct Hfold as (d & Hd' & Hent).
        rewrite (bind_done _ _ _ _ _ Hd'). by exists d.
      * by rewrite (bind_fail _ _ _ _ _ Hfold).
    + by rewrite (bind_fail _ _ _ _ _ Hiter).
Qed.

Lemma set_item_eq h (l : nat) d (name : string) x :
  h !! l = Some (ODict d) ->
  set_item (VRef l) name x h = (Done tt, <[l := ODict (set_key (KStr name) x d)]> h).
Proof. intros Hl. unfold set_item, bind, deref. rewrite Hl. unfold update. by rewrite Hl. Qed.

Lemma append_eq h (l : nat) items x :
  h !! l = Some (OList items) ->
  append (VRef l) x h = (Done tt, <[l := OList (items ++ [x])]> h).
Proof. intros Hl. unfold append, bind, deref. rewrite Hl. unfold update. by rewrite Hl. Qed.

End BuiltIns.

Section Summaries.
Context (X : list nat).
Implicit Types (h : store).

Lemma rep_dict_new h (pd : dict) d :
  (forall x, x ∈ X -> (x < length h)%nat) ->
  entries (outside X) h pd d ->
  rep (outside X) (h ++ [ODict d]) (PDict pd) (VRef (length h)).
Proof.
  intros HX [Hk Hv]. econstructor; [| |exact Hk|].
  - intros Hin. apply HX in Hin. lia.
  - by apply list_lookup_middle.
  - eapply Forall2_impl; [exact Hv|]. intros p x. apply rep_agree, agree_alloc.
Qed.

Lemma rep_list_new h (ps : list pyval) vs :
  (forall x, x ∈ X -> (x < length h)%nat) ->
  Forall2 (rep (outside X) h) ps vs ->
  rep (outside X) (h ++ [OList vs]) (PList ps) (VRef (length h)).
Proof.
  intros HX Hv. econstructor.
  - intros Hin. apply HX in Hin. lia.
  - by apply list_lookup_middle.
  - eapply Forall2_impl; [exact Hv|]. intros p x. apply rep_agree, agree_alloc.
Qed.

(** [summarize_lines]: new objects only, that hold the summary. *)
Lemma summarize_lines_rep h pl l :
  (forall x, x ∈ X -> (x < length h)%nat) ->
  rep (outside X) h pl l ->
  exists h' s,
    summarize_lines l h = (Done s, h') /\
    agree_outside [] h h' /\
    rep (outside X) h' (Script.summarize_lines pl) s.
Proof.
  intros HX Hl. unfold summarize_lines.
  rewrite (bind_done _ _ _ _ _ (is_list_rep _ h pl l Hl)).
  destruct pl as [| | | |ps|pd]; cbn [Py.is_list Script.summarize_lines];
    try (exists h, l; split; [reflexivity | split; [apply agree_refl | done]]).
  pose proof (iter_rep _ h _ _ Hl) as (vs & Hvs & Hreps). cbn in Hvs.
  rewrite (bind_done _ _ _ _ _ Hvs).
  rewrite <- (Forall2_length _ _ _ Hreps).
  destruct (length ps <=? 10)%nat.
  - eexists _, _. split; [reflexivity|]. split; [apply agree_alloc|].
    apply rep_dict_new; [done|]. split; [done|].
    repeat constructor. exact Hl.
  - unfold bind, alloc. cbn. eexists _, _. split; [reflexivity|].
    split.
    { eapply agree_trans; [apply agree_alloc|].
      eapply agree_trans; [apply agree_alloc | apply agree_alloc]. }
    set (h1 := h ++ [OList (Py.slice_to 5 vs)]).
    set (h2 := h1 ++ [OList (Py.slice_from_end 5 vs)]).
    assert (forall x, x ∈ X -> (x < length h1)%nat) as HX1.
    { intros x Hx. unfold h1. rewrite length_app. apply HX in Hx. lia. }
    assert (forall x, x ∈ X -> (x < length h2)%nat) as HX2.
    { intros x Hx. unfold h2. rewrite length_app. apply HX1 in Hx. lia. }
    apply rep_dict_new; [done|]. split; [done|].
    assert (rep (outside X) h1 (PList (Py.slice_to 5 ps)) (VRef (length h))) as Hfirst.
    { apply rep_list_new; [done|]. by apply Forall2_take. }
    assert (rep (outside X) h2 (PList (Py.slice_from_end 5 ps)) (VRef (length h1)))
      as Hlast.
    { apply rep_list_new; [done|]. unfold Py.slice_from_end.
      rewrite (Forall2_length _ _ _ Hreps). apply Forall2_drop.
      eapply Forall2_impl; [exact Hreps|]. intros p x. apply rep_agree, agree_alloc. }
    repeat constructor; [|exact Hlast].
    eapply rep_agree; [apply agree_alloc | exact Hfirst].
Qed.

End Summaries.

(** *** The body of the loops *)

Section Bodies.
Context (X : list nat).
Implicit Types (h : store) (L : nat).

Lemma entries_agree (Y : list nat) h h' (pd : dict) d :
  agree_outside Y h h' -> entries (outside Y) h pd d -> entries (outside Y) h' pd d.
Proof.
  intros Hag [Hk Hv]. split; [done|].
  eapply Forall2_impl; [exact Hv|]. intros p x. by apply rep_agree.
Qed.

Lemma entries_new (Y : list nat) h n (pd : dict) d :
  (length h <= n)%nat -> entries (outside Y) h pd d -> entries (outside (n :: Y)) h pd d.
Proof.
  intros Hn [Hk Hv]. split; [done|].
  eapply Forall2_impl; [exact Hv|]. intros p x. by apply rep_new.
Qed.

Lemma get_entries (P : nat -> Prop) h L d (pd : dict) (name : string) :
  h !! L = Some (ODict d) -> entries P h pd d ->
  exists x, get (VRef L) name h = (Done x, h) /\ rep P h (Py.get pd name) x.
Proof.
  intros Hl Hent. cbn. unfold bind, deref. rewrite Hl. cbn.
  pose proof (lookup_entries P h (KStr name) pd d Hent) as Hlook.
  unfold Py.get.
  destruct (lookup_key (KStr name) pd), (lookup_key (KStr name) d); try done;
    eexists; (split; [reflexivity|]); [done | constructor].
Qed.

(** A new dict, once the field [name] is set, holds the Python dict with
    that field set. *)
Lemma seal_dict h n (pd : dict) d (name : string) (py : pyval) y :
  n ∉ X ->
  h !! n = Some (ODict d) ->
  entries (outside (n :: X)) h pd d ->
  rep (outside (n :: X)) h py y ->
  set_item (VRef n) name y h = (Done tt, <[n := ODict (set_key (KStr name) y d)]> h) /\
  rep (outside X) (<[n := ODict (set_key (KStr name) y d)]> h)
      (PDict (set_key (KStr name) py pd)) (VRef n).
Proof.
  intros Hn Hl Hent Hy. split; [by apply set_item_eq|].
  assert (agree_outside (n :: X) h (<[n := ODict (set_key (KStr name) y d)]> h)) as Hag.
  { apply agree_update. left. }
  assert (X ⊆ n :: X) as Hsub by (intros ??; by right).
  destruct (entries_set_key _ h (KStr name) py y pd d Hent Hy) as [Hk Hv].
  econstructor; [exact Hn | | exact Hk |].
  - apply list_lookup_insert_eq. by eapply lookup_lt_Some.
  - eapply Forall2_impl; [exact Hv|]. intros p x Hp.
    eapply rep_weaken; [exact Hsub|]. by eapply rep_agree.
Qed.

Lemma bounded_alloc h (o : obj) :
  (forall x, x ∈ X -> (x < length h)%nat) ->
  forall x, x ∈ length h :: X -> (x < length (h ++ [o]))%nat.
Proof.
  intros HX x [->|Hx]%elem_of_cons; rewrite length_app; cbn; [lia|].
  apply HX in Hx. lia.
Qed.

Lemma bounded_agree (Y : list nat) h h' :
  agree_outside [] h h' ->
  (forall x, x ∈ Y -> (x < length h)%nat) ->
  forall x, x ∈ Y -> (x < length h')%nat.
Proof. intros [Hl _] HY x Hx. apply HY in Hx. lia. Qed.

(** The summary of [lines] set in a new dict: the step that lines 80 and
    90 share. *)
Lemma summarize_into {B : Type} (k : M B) h n (pd : dict) d (plines : pyval) lines :
  (forall x, x ∈ X -> (x < length h)%nat) ->
  n ∉ X ->
  h !! n = Some (ODict d) ->
  entries (outside (n :: X)) h pd d ->
  rep (outside (n :: X)) h plines lines ->
  exists h',
    (summary <~ summarize_lines lines ;; set_item (VRef n) "lines" summary ;;; k) h = k h' /\
    agree_outside [n] h h' /\
    rep (outside X) h'
        (PDict (set_key (KStr "lines") (Script.summarize_lines plines) pd)) (VRef n).
Proof.
  intros HX Hn Hl Hent Hlines.
  pose proof (lookup_lt_Some _ _ _ Hl) as Hlt.
  destruct (summarize_lines_rep (n :: X) h plines lines) as (h2 & s & Hsum & Hag2 & Hs);
    [|done|].
  { intros x [->|Hx]%elem_of_cons; auto. }
  rewrite (bind_done _ _ _ _ _ Hsum).
  assert (h2 !! n = Some (ODict d)) as Hn2.
  { destruct Hag2 as [_ Hag2]. rewrite Hag2; [done..|]. apply not_elem_of_nil. }
  destruct (seal_dict h2 n pd d "lines" (Script.summarize_lines plines) s)
    as [Hset Hrep]; [done..| |done|].
  { eapply entries_agree; [|exact Hent].
    eapply agree_weaken; [|exact Hag2]. apply list_subseteq_nil. }
  rewrite (bind_done _ _ _ _ _ Hset).
  eexists. split; [reflexivity|]. split; [|exact Hrep].
  eapply agree_trans; [eapply agree_weaken; [|exact Hag2]; apply list_subseteq_nil|].
  apply agree_update. left.
Qed.

(** Lines 75-81 on the copy of an element at [L]. *)
Lemma trim_source_mapping_refines h L (pd : dict) d :
  (forall x, x ∈ X -> (x < length h)%nat) ->
  L ∈ X ->
  h !! L = Some (ODict d) ->
  entries (outside X) h pd d ->
  exists h' d',
    trim_source_mapping (VRef L) h = (Done tt, h') /\
    agree_outside [L] h h' /\
    h' !! L = Some (ODict d') /\
    entries (outside X) h' (Script.trim_source_mapping pd) d'.
Proof.
  intros HX HL Hl Hent. unfold trim_source_mapping, Script.trim_source_mapping.
  destruct (get_entries _ h L d pd "source_mapping" Hl Hent) as (sm & Hget & Hsm).
  rewrite (bind_done _ _ _ _ _ Hget).
  rewrite (bind_done _ _ _ _ _ (is_dict_rep _ h _ _ Hsm)).
  destruct (Py.get pd "source_mapping") as [| | | | |smd] eqn:Hpsm; cbn [Py.is_dict];
    try (exists h, d; split; [reflexivity|]; split; [apply agree_refl | done]).
  destruct (get_rep _ h smd sm "lines" Hsm) as (lines & Hgl & Hlines).
  rewrite (bind_done _ _ _ _ _ Hgl).
  rewrite (is_none_rep _ h _ _ Hlines).
  destruct (Py.is_none (Py.get smd "lines")) eqn:Hnone.
  { exists h, d. split; [reflexivity|]. split; [apply agree_refl | done]. }
  pose proof (dict_copy_rep _ h _ _ Hsm) as (sd & Hcopy & Hsd). cbn in Hcopy.
  rewrite (bind_done _ _ _ _ _ Hcopy).
  set (n := length h) in *. set (h1 := h ++ [ODict sd]) in *.
  assert (agree_outside (n :: X) h h1) as Hag1 by apply agree_alloc.
  assert (n ∉ X) as Hn by (intros Hin; apply HX in Hin; unfold n in Hin; lia).
  assert ((L < n)%nat) as HLn by (by apply HX).
  destruct (summarize_into (set_item (VRef L) "source_mapping" (VRef n))
              h1 n smd sd (Py.get smd "lines") lines)
    as (h2 & Hrun & Hag2 & Hrep); [| done | | | |].
  { intros x Hx. unfold h1. rewrite length_app. apply HX in Hx. lia. }
  { by apply list_lookup_middle. }
  { eapply entries_agree; [exact Hag1|]. by apply entries_new. }
  { eapply rep_agree; [exact Hag1|]. by apply rep_new. }
  rewrite Hrun. clear Hrun.
  assert (agree_outside [L] h h2) as Hag.
  { split.
    - destruct Hag2 as [Hlen _]. unfold h1 in Hlen. rewrite length_app in Hlen. lia.
    - intros l Hlt Hout. destruct Hag2 as [_ Hag2]. rewrite Hag2.
      + by apply lookup_app_l.
      + unfold h1. rewrite length_app. lia.
      + intros ->%list_elem_of_singleton. unfold n in Hlt. lia. }
  assert (h2 !! L = Some (ODict d)) as HL2.
  { destruct Hag2 as [_ Hag2]. rewrite Hag2.
    - unfold h1. by rewrite lookup_app_l.
    - unfold h1. rewrite length_app. lia.
    - intros ->%list_elem_of_singleton. lia. }
  rewrite (set_item_eq h2 L d _ _ HL2).
  eexists _, _. split; [reflexivity|]. split; [|split].
  - eapply agree_trans; [exact Hag|]. apply agree_update. left.
  - apply list_lookup_insert_eq. by eapply lookup_lt_Some.
  - assert (agree_outside X h2 (<[L := ODict (set_key (KStr "source_mapping") (VRef n) d)]> h2))
      as HagL by (by apply agree_update).
    apply entries_set_key.
    + eapply entries_agree; [exact HagL|].
      eapply entries_agree; [|exact Hent].
      eapply agree_weaken; [|exact Hag]. by intros ? ->%list_elem_of_singleton.
    + by eapply rep_agree.
Qed.

Lemma agree_nil_weaken (Y : list nat) h h' : agree_outside [] h h' -> agree_outside Y h h'.
Proof. apply agree_weaken, list_subseteq_nil. Qed.

Lemma rep_carry h h' (pv : pyval) v :
  agree_outside [] h h' -> rep (outside X) h pv v -> rep (outside X) h' pv v.
Proof. intros Hag. by apply rep_agree, agree_nil_weaken. Qed.

(** A write to an object that was made since [h] leaves [h] as it is. *)
Lemma agree_update_new h h' n (o : obj) :
  agree_outside [] h h' -> (length h <= n)%nat -> agree_outside [] h (<[n := o]> h').
Proof.
  intros [Hlen Hag] Hn. split; [by rewrite length_insert|].
  intros l Hl Hout. rewrite list_lookup_insert_ne by lia. by apply Hag.
Qed.

Lemma or_else_rep h (pa : pyval) a (b : M val) :
  rep (outside X) h pa a ->
  or_else a b h = if Py.truthy pa then (Done a, h) else b h.
Proof.
  intros Ha. unfold or_else. rewrite (bind_done _ _ _ _ _ (truthy_rep _ h _ _ Ha)).
  by destruct (Py.truthy pa).
Qed.

(** [dict(src)] with a field set: lines 91-94. *)
Lemma copy_then_set {B : Type} (k : val -> M B) h (pd : dict) src
    (name : string) (py : pyval) y :
  (forall x, x ∈ X -> (x < length h)%nat) ->
  rep (outside X) h (PDict pd) src ->
  rep (outside X) h py y ->
  exists h',
    (c <~ dict_copy src ;; set_item c name y ;;; k c) h = k (VRef (length h)) h' /\
    agree_outside [] h h' /\
    (forall x, x ∈ X -> (x < length h')%nat) /\
    rep (outside X) h' (PDict (set_key (KStr name) py pd)) (VRef (length h)).
Proof.
  intros HX Hsrc Hy.
  pose proof (dict_copy_rep _ h _ _ Hsrc) as (d & Hcopy & Hd). cbn in Hcopy.
  rewrite (bind_done _ _ _ _ _ Hcopy).
  set (n := length h) in *. set (h1 := h ++ [ODict d]) in *.
  assert (agree_outside (n :: X) h h1) as Hag1 by apply agree_alloc.
  assert (n ∉ X) as Hn by (intros Hin; apply HX in Hin; unfold n in Hin; lia).
  destruct (seal_dict h1 n pd d name py y) as [Hset Hrep]; [done| | | |].
  { by apply list_lookup_middle. }
  { eapply entries_agree; [exact Hag1|]. by apply entries_new. }
  { eapply rep_agree; [exact Hag1|]. by apply rep_new. }
  rewrite (bind_done _ _ _ _ _ Hset).
  eexists. split; [reflexivity|]. split; [|split; [|exact Hrep]].
  - apply agree_update_new; [apply agree_alloc | done].
  - intros x Hx. rewrite length_insert. unfold h1. rewrite length_app.
    apply HX in Hx. lia.
Qed.

(** [dict(psm)] with its [lines] summarized: lines 89-90. *)
Lemma copy_then_summarize {B : Type} (k : val -> M B) h (pd : dict) src :
  (forall x, x ∈ X -> (x < length h)%nat) ->
  rep (outside X) h (PDict pd) src ->
  exists h',
    (c <~ dict_copy src ;;
     lines <~ get c "lines" ;;
     summary <~ summarize_lines lines ;;
     set_item c "lines" summary ;;;
     k c) h = k (VRef (length h)) h' /\
    agree_outside [] h h' /\
    (forall x, x ∈ X -> (x < length h')%nat) /\
    rep (outside X) h'
        (PDict (set_key (KStr "lines") (Script.summarize_lines (Py.get pd "lines")) pd))
        (VRef (length h)).
Proof.
  intros HX Hsrc.
  pose proof (dict_copy_rep _ h _ _ Hsrc) as (d & Hcopy & Hd). cbn in Hcopy.
  rewrite (bind_done _ _ _ _ _ Hcopy).
  set (n := length h) in *. set (h1 := h ++ [ODict d]) in *.
  assert (agree_outside (n :: X) h h1) as Hag1 by apply agree_alloc.
  assert (n ∉ X) as Hn by (intros Hin; apply HX in Hin; unfold n in Hin; lia).
  assert (h1 !! n = Some (ODict d)) as Hn1 by (by apply list_lookup_middle).
  assert (entries (outside (n :: X)) h1 pd d) as Hd1.
  { eapply entries_agree; [exact Hag1|]. by apply entries_new. }
  destruct (get_entries _ h1 n d pd "lines" Hn1 Hd1) as (lines & Hget & Hlines).
  rewrite (bind_done _ _ _ _ _ Hget).
  destruct (summarize_into (k (VRef n)) h1 n pd d (Py.get pd "lines") lines)
    as (h2 & Hrun & Hag2 & Hrep); [|done..|].
  { intros x Hx. unfold h1. rewrite length_app. apply HX in Hx. lia. }
  rewrite Hrun. exists h2. split; [reflexivity|].
  destruct Hag2 as [Hlen2 Hag2]. unfold h1 in Hlen2. rewrite length_app in Hlen2.
  cbn in Hlen2. split; [|split; [|exact Hrep]].
  - split; [lia|]. intros l Hl _. rewrite Hag2.
    + by apply lookup_app_l.
    + unfold h1. rewrite length_app. lia.
    + intros ->%list_elem_of_singleton. unfold n in Hl. lia.
  - intros x Hx. apply HX in Hx. lia.
Qed.

(** Lines 83-95 on the copy of an element at [L]. *)
Lemma trim_parent_refines h L (pd : dict) d :
  (forall x, x ∈ X -> (x < length h)%nat) ->
  L ∈ X ->
  h !! L = Some (ODict d) ->
  entries (outside X) h pd d ->
  exists h' d',
    trim_parent (VRef L) h = (Done tt, h') /\
    agree_outside [L] h h' /\
    h' !! L = Some (ODict d') /\
    entries (outside X) h' (Script.trim_parent pd) d'.
Proof.
  intros HX HL Hl Hent. unfold trim_parent, Script.trim_parent.
  destruct (get_entries _ h L d pd "type_specific_fields" Hl Hent) as (tsf0 & Hget & Htsf0).
  rewrite (bind_done _ _ _ _ _ Hget). clear Hget.
  assert (exists h1 tsf,
             or_else tsf0 (alloc (ODict [])) h = (Done tsf, h1) /\
             agree_outside [] h h1 /\
             rep (outside X) h1
                 (py_or (Py.get pd "type_specific_fields") (PDict [])) tsf)
    as (h1 & tsf & Hor & Hag1 & Htsf).
  { rewrite (or_else_rep h _ _ _ Htsf0). unfold py_or.
    destruct (Py.truthy (Py.get pd "type_specific_fields")).
    - exists h, tsf0. split; [done|]. split; [apply agree_refl | done].
    - eexists _, _. split; [reflexivity|]. split; [apply agree_alloc|].
      apply rep_dict_new; [done|]. split; [done | constructor]. }
  rewrite (bind_done _ _ _ _ _ Hor). clear Hor.
  assert (forall x, x ∈ X -> (x < length h1)%nat) as HX1 by (by eapply bounded_agree).
  assert (h1 !! L = Some (ODict d)) as Hl1.
  { destruct Hag1 as [_ Hag1]. rewrite Hag1; [done| |apply not_elem_of_nil].
    by eapply lookup_lt_Some. }
  assert (entries (outside X) h1 pd d) as Hent1.
  { eapply entries_agree; [|exact Hent]. by apply agree_nil_weaken. }
  assert (exists d', ret tt h1 = (Done tt, h1) /\ agree_outside [L] h h1 /\
                     h1 !! L = Some (ODict d') /\ entries (outside X) h1 pd d')
    as Hsame.
  { exists d. split; [done|]. split; [by apply agree_nil_weaken | done]. }
  rewrite (bind_done _ _ _ _ _ (is_dict_rep _ h1 _ _ Htsf)).
  destruct (py_or (Py.get pd "type_specific_fields") (PDict [])) as [| | | | |tsfd];
    cbn [Py.is_dict]; try (by exists h1).
  destruct (get_rep _ h1 tsfd tsf "parent" Htsf) as (parent & Hgp & Hparent).
  rewrite (bind_done _ _ _ _ _ Hgp). clear Hgp.
  rewrite (bind_done _ _ _ _ _ (is_dict_rep _ h1 _ _ Hparent)).
  destruct (Py.get tsfd "parent") as [| | | | |pard];
    cbn [Py.is_dict]; try (by exists h1).
  destruct (get_rep _ h1 pard parent "source_mapping" Hparent) as (psm & Hgs & Hpsm).
  rewrite (bind_done _ _ _ _ _ Hgs). clear Hgs.
  rewrite (bind_done _ _ _ _ _ (is_dict_rep _ h1 _ _ Hpsm)).
  destruct (Py.get pard "source_mapping") as [| | | | |psmd];
    cbn [Py.is_dict]; try (by exists h1).
  rewrite (bind_done _ _ _ _ _ (contains_rep _ h1 _ _ "lines" Hpsm)).
  destruct (mem_key (KStr "lines") psmd); [|by exists h1].
  clear Hsame.
  destruct (copy_then_summarize
              (fun psm' =>
                 parent' <~ dict_copy parent ;;
                 set_item parent' "source_mapping" psm' ;;;
                 tsf' <~ dict_copy tsf ;;
                 set_item tsf' "parent" parent' ;;;
                 set_item (VRef L) "type_specific_fields" tsf')
              h1 psmd psm HX1 Hpsm)
    as (h2 & Hrun2 & Hag2 & HX2 & Hpsm').
  rewrite Hrun2. clear Hrun2.
  destruct (copy_then_set
              (fun parent' =>
                 tsf' <~ dict_copy tsf ;;
                 set_item tsf' "parent" parent' ;;;
                 set_item (VRef L) "type_specific_fields" tsf')
              h2 pard parent "source_mapping" _ _ HX2
              (rep_carry _ _ _ _ Hag2 Hparent) Hpsm')
    as (h3 & Hrun3 & Hag3 & HX3 & Hparent').
  rewrite Hrun3. clear Hrun3.
  destruct (copy_then_set
              (fun tsf' => set_item (VRef L) "type_specific_fields" tsf')
              h3 tsfd tsf "parent" _ _ HX3
              (rep_carry _ _ _ _ Hag3 (rep_carry _ _ _ _ Hag2 Htsf)) Hparent')
    as (h4 & Hrun4 & Hag4 & HX4 & Htsf').
  rewrite Hrun4. clear Hrun4.
  assert (agree_outside [] h h4) as Hag.
  { eapply agree_trans; [exact Hag1|]. eapply agree_trans; [exact Hag2|].
    eapply agree_trans; [exact Hag3 | exact Hag4]. }
  assert (h4 !! L = Some (ODict d)) as Hl4.
  { destruct Hag as [_ Hag]. rewrite Hag; [done| |apply not_elem_of_nil].
    by eapply lookup_lt_Some. }
  rewrite (set_item_eq h4 L d _ _ Hl4).
  eexists _, _. split; [reflexivity|]. split; [|split].
  - eapply agree_trans; [apply agree_nil_weaken; exact Hag|].
    apply agree_update. left.
  - apply list_lookup_insert_eq. by eapply lookup_lt_Some.
  - assert (agree_outside X h4
              (<[L := ODict (set_key (KStr "type_specific_fields") (VRef (length h3)) d)]> h4))
      as HagL by (by apply agree_update).
    apply entries_set_key.
    + eapply entries_agree; [exact HagL|].
      eapply entries_agree; [|exact Hent]. by apply agree_nil_weaken.
    + by eapply rep_agree.
Qed.

End Bodies.

Lemma entries_weaken (X X' : list nat) (h : store) (pd : dict) d :
  X' ⊆ X -> entries (outside X) h pd d -> entries (outside X') h pd d.
Proof.
  intros HX [Hk Hv]. split; [done|].
  eapply Forall2_impl; [exact Hv|]. intros p x. by apply rep_weaken.
Qed.

Lemma rep_dict_at (X : list nat) (h : store) (l : nat) (pd : dict) d :
  l ∉ X -> h !! l = Some (ODict d) -> entries (outside X) h pd d ->
  rep (outside X) h (PDict pd) (VRef l).
Proof. intros Hl Hd [Hk Hv]. by econstructor. Qed.

Section Elements.
Context (X : list nat).
Implicit Types (h : store).

(** One turn of [for e in elems], lines 74-96, with [new_elems] at [Ln]. *)
Lemma trim_element_refines h Ln items (pitems : list pyval) (pe : pyval) e :
  (forall x, x ∈ X -> (x < length h)%nat) ->
  Ln ∈ X ->
  h !! Ln = Some (OList items) ->
  Forall2 (rep (outside X) h) pitems items ->
  rep (outside X) h pe e ->
  match Script.trim_element pe with
  | Ok pe' =>
      exists h' c,
        trim_element (VRef Ln) e h = (Done tt, h') /\
        agree_outside [Ln] h h' /\
        h' !! Ln = Some (OList (items ++ [c])) /\
        Forall2 (rep (outside X) h') (pitems ++ [pe']) (items ++ [c])
  | Raise ex => exists h', trim_element (VRef Ln) e h = (Fail (Raised ex), h')
  end.
Proof.
  intros HX HLn Hl Hitems He. unfold Script.trim_element, trim_element.
  pose proof (dict_copy_rep _ h _ _ He) as Hcopy.
  destruct (py_dict pe) as [pd|ex]; cbn [Py.bind];
    [|exists h; by rewrite (bind_fail _ _ _ _ _ Hcopy)].
  destruct Hcopy as (d & Hcopy & Hd). rewrite (bind_done _ _ _ _ _ Hcopy). clear Hcopy.
  set (L := length h) in *. set (h1 := h ++ [ODict d]) in *.
  assert (L ∉ X) as HL by (intros Hin; apply HX in Hin; unfold L in Hin; lia).
  assert (agree_outside (L :: X) h h1) as Hag1 by apply agree_alloc.
  destruct (trim_source_mapping_refines (L :: X) h1 L pd d)
    as (h2 & d2 & Hrun2 & Hag2 & Hl2 & Hd2).
  { by apply bounded_alloc. }
  { left. }
  { by apply list_lookup_middle. }
  { eapply entries_agree; [exact Hag1|]. by apply entries_new. }
  rewrite (bind_done _ _ _ _ _ Hrun2). clear Hrun2.
  destruct (trim_parent_refines (L :: X) h2 L (Script.trim_source_mapping pd) d2)
    as (h3 & d3 & Hrun3 & Hag3 & Hl3 & Hd3); [|left|done..|].
  { intros x Hx. destruct Hag2 as [Hlen _].
    pose proof (bounded_alloc X h (ODict d) HX x Hx). fold h1 in H. lia. }
  rewrite (bind_done _ _ _ _ _ Hrun3). clear Hrun3.
  assert (agree_outside [L] h1 h3) as Hag13 by (by eapply agree_trans).
  assert ((Ln < L)%nat) as HLnL by (by apply HX).
  assert (forall l, (l < L)%nat -> h3 !! l = h !! l) as Hold.
  { intros l Hlt. destruct Hag13 as [_ Hag13]. rewrite Hag13.
    - unfold h1. by rewrite lookup_app_l.
    - unfold h1. rewrite length_app. lia.
    - intros ->%list_elem_of_singleton. lia. }
  assert (h3 !! Ln = Some (OList items)) as HLn3 by (by rewrite Hold).
  rewrite (append_eq h3 Ln items _ HLn3).
  set (h4 := <[Ln := OList (items ++ [VRef L])]> h3).
  assert (agree_outside [Ln] h h4) as Hag.
  { split.
    - unfold h4. rewrite length_insert. destruct Hag13 as [Hlen _].
      unfold h1 in Hlen. rewrite length_app in Hlen. lia.
    - intros l Hlt Hout. unfold h4. rewrite list_lookup_insert_ne.
      + by apply Hold.
      + intros ->. apply Hout. left. }
  exists h4, (VRef L). split; [reflexivity|]. split; [exact Hag|]. split.
  { apply list_lookup_insert_eq. by eapply lookup_lt_Some. }
  apply Forall2_app.
  - eapply Forall2_impl; [exact Hitems|]. intros p x.
    apply rep_agree. eapply agree_weaken; [|exact Hag].
    by intros ? ->%list_elem_of_singleton.
  - constructor; [|constructor].
    apply rep_dict_at with d3; [done| |].
    + unfold h4. rewrite list_lookup_insert_ne by lia. exact Hl3.
    + eapply entries_weaken; [|eapply entries_agree; [|exact Hd3]].
      * intros ??. by right.
      * apply agree_update. by right.
Qed.

(** The loop [for e in elems], lines 73-96. *)
Lemma trim_elements_refines h Ln items (pitems pes : list pyval) es :
  (forall x, x ∈ X -> (x < length h)%nat) ->
  Ln ∈ X ->
  h !! Ln = Some (OList items) ->
  Forall2 (rep (outside X) h) pitems items ->
  Forall2 (rep (outside X) h) pes es ->
  match Py.mapM Script.trim_element pes with
  | Ok pes' =>
      exists h' cs,
        forM (trim_element (VRef Ln)) es h = (Done tt, h') /\
        agree_outside [Ln] h h' /\
        h' !! Ln = Some (OList (items ++ cs)) /\
        Forall2 (rep (outside X) h') (pitems ++ pes') (items ++ cs)
  | Raise ex => exists h', forM (trim_element (VRef Ln)) es h = (Fail (Raised ex), h')
  end.
Proof.
  intros HX HLn Hl Hitems Hes. revert h items pitems es HX Hl Hitems Hes.
  induction pes as [|pe pes IH]; intros h items pitems es0 HX Hl Hitems Hes;
    inversion Hes as [|? e ? es He Hes']; subst; cbn.
  - exists h, []. rewrite !app_nil_r. split; [done|]. split; [apply agree_refl | done].
  - pose proof (trim_element_refines h Ln items pitems pe e HX HLn Hl Hitems He) as Hone.
    destruct (Script.trim_element pe) as [pe'|ex]; cbn [Py.bind].
    + destruct Hone as (h1 & c & Hrun & Hag & Hl1 & Hitems1).
      rewrite (bind_done _ _ _ _ _ Hrun).
      assert (agree_outside X h h1) as HagX.
      { eapply agree_weaken; [|exact Hag]. by intros ? ->%list_elem_of_singleton. }
      assert (Forall2 (rep (outside X) h1) pes es) as Hes1.
      { eapply Forall2_impl; [exact Hes'|]. intros p x. by apply rep_agree. }
      assert (forall x, x ∈ X -> (x < length h1)%nat) as HX1.
      { intros x Hx. apply HX in Hx. destruct Hag as [Hlen _]. lia. }
      specialize (IH h1 (items ++ [c]) (pitems ++ [pe']) es HX1 Hl1 Hitems1 Hes1).
      destruct (Py.mapM Script.trim_element pes) as [pes'|ex]; cbn [Py.bind].
      * destruct IH as (h2 & cs & Hrun2 & Hag2 & Hl2 & Hitems2).
        exists h2, (c :: cs). split; [exact Hrun2|]. split; [by eapply agree_trans|].
        rewrite <- app_assoc in Hl2.
        rewrite <- (app_assoc pitems), <- (app_assoc items) in Hitems2.
        split; [exact Hl2 | exact Hitems2].
      * destruct IH as (h2 & Hrun2). by exists h2.
    + destruct Hone as (h1 & Hrun). exists h1. by rewrite (bind_fail _ _ _ _ _ Hrun).
Qed.

End Elements.

(** Objects made since [h] are no part of [h]. *)
Lemma agree_fresh (Y : list nat) (h h' : store) :
  agree_outside Y h h' -> (forall y, y ∈ Y -> (length h <= y)%nat) -> agree_outside [] h h'.
Proof.
  intros [Hlen Hag] HY. split; [done|]. intros l Hl _. apply Hag; [done|].
  intros Hin. apply HY in Hin. lia.
Qed.

Section Findings.
Context (X : list nat).
Implicit Types (h : store).

(** Lines 70-97: the copy of the finding, at the end of the store the
    call started with. *)
Lemma trim_detector_refines h (pd : dict) det :
  (forall x, x ∈ X -> (x < length h)%nat) ->
  rep (outside X) h (PDict pd) det ->
  match Script.trim_detector pd with
  | Ok pt =>
      exists h',
        trim_detector det h = (Done (VRef (length h)), h') /\
        agree_outside [] h h' /\
        rep (outside X) h' pt (VRef (length h))
  | Raise ex => exists h', trim_detector det h = (Fail (Raised ex), h')
  end.
Proof.
  intros HX Hdet. unfold Script.trim_detector, trim_detector.
  pose proof (dict_copy_rep _ h _ _ Hdet) as (d & Hcopy & Hd). cbn in Hcopy.
  rewrite (bind_done _ _ _ _ _ Hcopy). clear Hcopy.
  set (Ld := length h) in *. set (h1 := h ++ [ODict d]) in *.
  assert (Ld ∉ X) as HLd by (intros Hin; apply HX in Hin; unfold Ld in Hin; lia).
  assert (h1 !! Ld = Some (ODict d)) as Hl1 by (by apply list_lookup_middle).
  assert (length h1 = S Ld) as Hlen1 by (unfold h1; rewrite length_app; cbn; lia).
  assert (entries (outside (Ld :: X)) h1 pd d) as Hd1.
  { eapply entries_agree; [apply agree_alloc|]. by apply entries_new. }
  destruct (get_entries (outside (Ld :: X)) h1 Ld d pd "elements" Hl1 Hd1)
    as (x & Hget & Hx).
  rewrite (bind_done _ _ _ _ _ Hget). clear Hget.
  assert (exists h2 elems,
            or_else x (alloc (OList [])) h1 = (Done elems, h2) /\
            agree_outside [] h1 h2 /\
            rep (outside (Ld :: X)) h2
                (py_or (Py.get pd "elements") (PList [])) elems)
    as (h2 & elems & Helems & Hag2 & Hrep2).
  { rewrite (or_else_rep (Ld :: X) h1 _ x _ Hx). unfold py_or.
    destruct (Py.truthy (Py.get pd "elements")).
    - exists h1, x. split; [done|]. split; [apply agree_refl | done].
    - exists (h1 ++ [OList []]), (VRef (length h1)).
      split; [done|]. split; [apply agree_alloc|].
      apply rep_list with []; [| |constructor].
      + intros [Heq|Hin]%elem_of_cons; [lia|]. apply HX in Hin. fold Ld in Hin. lia.
      + by apply list_lookup_middle. }
  rewrite (bind_done _ _ _ _ _ Helems). clear Helems.
  rewrite (bind_done (alloc (OList [])) _ h2 (VRef (length h2)) (h2 ++ [OList []]) eq_refl).
  set (Ln := length h2) in *. set (h3 := h2 ++ [OList []]) in *.
  assert ((S Ld <= Ln)%nat) as HLn by (destruct Hag2 as [Hlen _]; unfold Ln; lia).
  set (X' := Ln :: Ld :: X).
  assert (forall x, x ∈ X' -> (x < length h3)%nat) as HX3.
  { unfold h3. rewrite length_app. cbn. fold Ln.
    intros y [->|[->|Hy]%elem_of_cons]%elem_of_cons; [lia..|].
    apply HX in Hy. fold Ld in Hy. lia. }
  assert (rep (outside X') h3 (py_or (Py.get pd "elements") (PList [])) elems) as Hrep3.
  { eapply rep_agree; [apply agree_alloc|]. by apply rep_new. }
  pose proof (iter_rep _ h3 _ _ Hrep3) as Hiter.
  destruct (py_iter (py_or (Py.get pd "elements") (PList []))) as [ps|ex]; cbn [Py.bind];
    [|exists h3; by rewrite (bind_fail _ _ _ _ _ Hiter)].
  destruct Hiter as (vs & Hiter & Hvs). rewrite (bind_done _ _ _ _ _ Hiter). clear Hiter.
  assert (h3 !! Ln = Some (OList [])) as Hl3 by (by apply list_lookup_middle).
  pose proof (trim_elements_refines X' h3 Ln [] [] ps vs HX3) as Hloop.
  destruct (Py.mapM Script.trim_element ps) as [pes'|ex]; cbn [Py.bind].
  2:{ destruct Hloop as (h4 & Hrun); [left|done|constructor|done|].
      exists h4. by rewrite (bind_fail _ _ _ _ _ Hrun). }
  destruct Hloop as (h4 & cs & Hrun & Hag4 & Hl4 & Hcs); [left|done|constructor|done|].
  cbn [app] in Hl4, Hcs.
  rewrite (bind_done _ _ _ _ _ Hrun). clear Hrun.
  assert (h4 !! Ld = Some (ODict d)) as HLd4.
  { destruct Hag4 as [_ Hag4]. rewrite Hag4.
    - unfold h3. rewrite lookup_app_l by (fold Ln; lia).
      destruct Hag2 as [_ Hag2]. rewrite Hag2; [done|lia|apply not_elem_of_nil].
    - unfold h3. rewrite length_app. fold Ln. lia.
    - intros ->%list_elem_of_singleton. lia. }
  rewrite (bind_done _ _ _ _ _ (set_item_eq h4 Ld d "elements" (VRef Ln) HLd4)).
  set (h5 := <[Ld := _]> h4).
  assert (agree_outside [] h h5) as Hag.
  { apply (agree_fresh [Ln; Ld]).
    - eapply agree_trans; [apply agree_alloc|]. fold h1.
      eapply agree_trans; [apply agree_nil_weaken, Hag2|].
      eapply agree_trans; [apply agree_alloc|]. fold h3.
      eapply agree_trans; [eapply agree_weaken; [|exact Hag4]|].
      + intros ? ->%list_elem_of_singleton. left.
      + apply agree_update. right. left.
    - intros y [->|[->|[]%elem_of_nil]%elem_of_cons]%elem_of_cons; fold Ld; lia. }
  exists h5. split; [reflexivity|]. split; [exact Hag|].
  assert ((Ld < length h4)%nat) as Hlt4 by (by eapply lookup_lt_Some).
  apply rep_dict_at with (set_key (KStr "elements") (VRef Ln) d); [done| |].
  { unfold h5. by apply list_lookup_insert_eq. }
  apply entries_set_key.
  - eapply entries_agree; [apply agree_nil_weaken, Hag | done].
  - apply rep_list with cs.
    + intros Hin. apply HX in Hin. fold Ld in Hin. lia.
    + unfold h5. rewrite list_lookup_insert_ne by lia. exact Hl4.
    + eapply Forall2_impl; [exact Hcs|]. intros p y Hp.
      eapply (rep_weaken X'); [intros ??; by do 2 right|].
      eapply rep_agree; [|exact Hp]. apply agree_update. right. left.
Qed.

End Findings.

Section Tables.
Context (X : list nat) (Lt : nat) (HLt : Lt ∈ X).
Implicit Types (h : store).

Lemma or_else_ret_rep h (pa pb : pyval) a b :
  rep (outside X) h pa a -> rep (outside X) h pb b ->
  exists y, or_else a (ret b) h = (Done y, h) /\ rep (outside X) h (py_or pa pb) y.
Proof.
  intros Ha Hb. rewrite (or_else_rep X h pa a _ Ha). unfold py_or.
  destruct (Py.truthy pa); eexists; (split; [reflexivity | done]).
Qed.

Lemma keep_example_rep h (check : hkey) (pdet : pyval) det pt t :
  rep (outside X) h pdet det ->
  examples_rep (outside X) h pt t ->
  examples_rep (outside X) h (Script.keep_example check pdet pt) (keep_example check det t).
Proof.
  intros Hdet Ht. unfold examples_rep, Script.keep_example, keep_example.
  induction Ht as [|[k pe] [k' e] pt t [Hk He] Ht IH]; cbn [alter_key fst snd] in *.
  - constructor; [|constructor]. split; [done|]. cbn. by repeat constructor.
  - subst k'. destruct (key_eqb k check).
    + constructor; [|done]. split; [done|]. cbn [fst snd default from_option id].
      rewrite <- (Forall2_length _ _ _ He).
      destruct (length pe <? 3)%nat; [|done].
      apply Forall2_app; [done | by repeat constructor].
    + constructor; [done | exact IH].
Qed.

Lemma examples_agree h h' pt t :
  agree_outside X h h' ->
  examples_rep (outside X) h pt t -> examples_rep (outside X) h' pt t.
Proof.
  intros Hag Ht. eapply Forall2_impl; [exact Ht|].
  intros pe e [Hk He]. split; [done|].
  eapply Forall2_impl; [exact He|]. intros p x. by apply rep_agree.
Qed.

(** One turn of [for det in detectors], lines 58-98. *)
Lemma step_refines h (pst : Script.agg) st (pdet : pyval) det :
  (forall x, x ∈ X -> (x < length h)%nat) ->
  agg_rep (outside X) h Lt pst st ->
  rep (outside X) h pdet det ->
  match Script.step pst pdet with
  | Ok pst' =>
      exists h' st',
        step st det h = (Done st', h') /\
        agree_outside [Lt] h h' /\
        agg_rep (outside X) h' Lt pst' st'
  | Raise ex => exists h', step st det h = (Fail (Raised ex), h')
  end.
Proof.
  intros HX (Hc & Hi & Hf & Hex & Htr & ts & Hts & Htrimmed) Hdet.
  unfold Script.step, step.
  destruct (Py.is_dict pdet) eqn:Hdict.
  2:{ pose proof (get_rep_fail _ h _ _ "check" Hdet Hdict) as Hget.
      destruct pdet; try discriminate; cbn [as_dict Py.bind];
        exists h; by rewrite (bind_fail _ _ _ _ _ Hget). }
  destruct pdet as [| | | | |pd]; try discriminate. cbn [as_dict Py.bind].
  destruct (get_rep _ h pd det "check" Hdet) as (c0 & Hget & Hc0).
  rewrite (bind_done _ _ _ _ _ Hget). clear Hget.
  destruct (or_else_ret_rep h _ (PStr "unknown") c0 (VStr "unknown") Hc0)
    as (c & Hor & Hcr); [constructor|].
  rewrite (bind_done _ _ _ _ _ Hor). clear Hor.
  rewrite (bind_bind_hash _ h _ c _ Hcr). fold (check_of pd).
  destruct (py_hash (check_of pd)) as [check|ex]; cbn [Py.bind]; [|by exists h].
  destruct (get_rep _ h pd det "impact" Hdet) as (i0 & Hget & Hi0).
  rewrite (bind_done _ _ _ _ _ Hget). clear Hget.
  destruct (or_else_ret_rep h _ (PStr "") i0 (VStr "") Hi0)
    as (i & Hor & Hir); [constructor|].
  rewrite (bind_done _ _ _ _ _ Hor). clear Hor.
  destruct (get_rep _ h pd det "confidence" Hdet) as (f0 & Hget & Hf0).
  rewrite (bind_done _ _ _ _ _ Hget). clear Hget.
  destruct (or_else_ret_rep h _ (PStr "") f0 (VStr "") Hf0)
    as (f & Hor & Hfr); [constructor|].
  rewrite (bind_done _ _ _ _ _ Hor). clear Hor.
  rewrite (bind_bind_hash _ h _ i _ Hir). fold (impact_of pd).
  destruct (py_hash (impact_of pd)) as [impact|ex]; cbn [Py.bind]; [|by exists h].
  rewrite (bind_bind_hash _ h _ f _ Hfr). fold (confidence_of pd).
  destruct (py_hash (confidence_of pd)) as [confidence|ex]; cbn [Py.bind]; [|by exists h].
  pose proof (trim_detector_refines X h pd det HX Hdet) as Htrim.
  destruct (Script.trim_detector pd) as [pt|ex]; cbn [Py.bind].
  2:{ destruct Htrim as (h1 & Hrun). exists h1. by rewrite (bind_fail _ _ _ _ _ Hrun). }
  destruct Htrim as (h1 & Hrun & Hag1 & Hpt).
  rewrite (bind_done _ _ _ _ _ Hrun). clear Hrun.
  assert ((Lt < length h)%nat) as HLtlt by (by apply HX).
  assert (h1 !! Lt = Some (OList ts)) as Hts1.
  { destruct Hag1 as [_ Hag1]. rewrite Hag1; [done..|apply not_elem_of_nil]. }
  rewrite Htr. rewrite (bind_done _ _ _ _ _ (append_eq h1 Lt ts _ Hts1)).
  set (h2 := <[Lt := _]> h1).
  assert (agree_outside [Lt] h1 h2) as Hag2 by (apply agree_update; left).
  assert (agree_outside [Lt] h h2) as Hag.
  { eapply agree_trans; [apply agree_nil_weaken, Hag1 | exact Hag2]. }
  assert ([Lt] ⊆ X) as Hsub by (by intros ? ->%list_elem_of_singleton).
  assert (agree_outside X h h2) as HagX by (by eapply agree_weaken).
  eexists h2, _. split; [reflexivity|]. split; [exact Hag|].
  unfold agg_rep; cbn. rewrite Hc, Hi, Hf.
  split; [done|]. split; [done|]. split; [done|]. split; [|split; [done|]].
  - apply keep_example_rep; [by eapply rep_agree | by eapply examples_agree].
  - exists (ts ++ [VRef (length h)]). split.
    + unfold h2. apply list_lookup_insert_eq. by eapply lookup_lt_Some.
    + apply Forall2_app.
      * eapply Forall2_impl; [exact Htrimmed|]. intros p x. by apply rep_agree.
      * constructor; [|constructor]. eapply rep_agree; [|exact Hpt].
        by eapply agree_weaken.
Qed.

(** The loop, lines 57-98, from any turn on. *)
Lemma loop_refines h (pst : Script.agg) st (pdets : list pyval) dets :
  (forall x, x ∈ X -> (x < length h)%nat) ->
  agg_rep (outside X) h Lt pst st ->
  Forall2 (rep (outside X) h) pdets dets ->
  match Py.foldM Script.step pst pdets with
  | Ok pst' =>
      exists h' st',
        foldM step st dets h = (Done st', h') /\
        agree_outside [Lt] h h' /\
        agg_rep (outside X) h' Lt pst' st'
  | Raise ex => exists h', foldM step st dets h = (Fail (Raised ex), h')
  end.
Proof.
  intros HX Hst Hdets. revert h pst st dets HX Hst Hdets.
  induction pdets as [|pdet pdets IH]; intros h pst st dets0 HX Hst Hdets;
    inversion Hdets as [|? det ? dets Hdet Hdets']; subst; cbn [Py.foldM foldM].
  - exists h, st. split; [done|]. split; [apply agree_refl | done].
  - pose proof (step_refines h pst st pdet det HX Hst Hdet) as Hone.
    destruct (Script.step pst pdet) as [pst1|ex]; cbn [Py.bind].
    2:{ destruct Hone as (h1 & Hrun). exists h1. by rewrite (bind_fail _ _ _ _ _ Hrun). }
    destruct Hone as (h1 & st1 & Hrun & Hag & Hst1).
    rewrite (bind_done _ _ _ _ _ Hrun).
    assert (agree_outside X h h1) as HagX.
    { eapply agree_weaken; [|exact Hag]. by intros ? ->%list_elem_of_singleton. }
    assert (Forall2 (rep (outside X) h1) pdets dets) as Hdets1.
    { eapply Forall2_impl; [exact Hdets'|]. intros p x. by apply rep_agree. }
    assert (forall x, x ∈ X -> (x < length h1)%nat) as HX1.
    { intros x Hx. apply HX in Hx. destruct Hag as [Hlen _]. lia. }
    specialize (IH h1 pst1 st1 dets HX1 Hst1 Hdets1).
    destruct (Py.foldM Script.step pst1 pdets) as [pst2|ex].
    + destruct IH as (h2 & st2 & Hrun2 & Hag2 & Hst2).
      exists h2, st2. split; [exact Hrun2|]. split; [by eapply agree_trans | done].
    + destruct IH as (h2 & Hrun2). by exists h2.
Qed.

End Tables.

Lemma agg_rep_agree (X : list nat) (Lt : nat) (h h' : store) pst st :
  Lt ∉ X -> agree_outside X h h' ->
  agg_rep (outside X) h Lt pst st -> agg_rep (outside X) h' Lt pst st.
Proof.
  intros HLt Hag (Hc & Hi & Hf & Hex & Htr & ts & Hts & Htrimmed).
  split; [done|]. split; [done|]. split; [done|]. split; [|split; [done|]].
  - by eapply examples_agree.
  - exists ts. split.
    + destruct Hag as [_ Hag]. rewrite Hag; [done| |done]. by eapply lookup_lt_Some.
    + eapply Forall2_impl; [exact Htrimmed|]. intros p x. by apply rep_agree.
Qed.

Lemma agg_rep_weaken (X X' : list nat) (Lt : nat) (h : store) pst st :
  X' ⊆ X -> agg_rep (outside X) h Lt pst st -> agg_rep (outside X') h Lt pst st.
Proof.
  intros HX (Hc & Hi & Hf & Hex & Htr & ts & Hts & Htrimmed).
  split; [done|]. split; [done|]. split; [done|]. split; [|split; [done|]].
  - eapply Forall2_impl; [exact Hex|]. intros pe e [Hk He]. split; [done|].
    eapply Forall2_impl; [exact He|]. intros p x. by apply rep_weaken.
  - exists ts. split; [done|].
    eapply Forall2_impl; [exact Htrimmed|]. intros p x. by apply rep_weaken.
Qed.

(** Lines 37-98: the tables start empty, then the loop over what
    [detectors] yields. *)
Lemma aggregate_refines (h : store) (pv : pyval) detectors :
  rep (outside []) h pv detectors ->
  match Py.bind (py_iter pv) Script.aggregate with
  | Ok pst =>
      exists h' st,
        aggregate detectors h = (Done st, h') /\
        agree_outside [] h h' /\
        agg_rep (outside []) h' (length h) pst st
  | Raise ex => exists h', aggregate detectors h = (Fail (Raised ex), h')
  end.
Proof.
  intros Hdet. unfold aggregate, Script.aggregate.
  rewrite (bind_done (alloc (OList [])) _ h (VRef (length h)) (h ++ [OList []]) eq_refl).
  set (Lt := length h). set (h1 := h ++ [OList []]).
  assert (rep (outside [Lt]) h1 pv detectors) as Hdet1.
  { eapply rep_agree; [apply agree_alloc|]. by apply rep_new. }
  pose proof (iter_rep _ h1 _ _ Hdet1) as Hiter.
  destruct (py_iter pv) as [pdets|ex]; cbn [Py.bind];
    [|exists h1; by rewrite (bind_fail _ _ _ _ _ Hiter)].
  destruct Hiter as (dets & Hiter & Hdets). rewrite (bind_done _ _ _ _ _ Hiter).
  pose proof (loop_refines [Lt] Lt ltac:(left) h1 Script.agg_init
                {| counts := []; impact_counts := []; confidence_counts := [];
                   top_examples := []; trimmed_detectors := VRef Lt |} pdets dets) as Hloop.
  destruct (Py.foldM Script.step Script.agg_init pdets) as [pst|ex].
  - destruct Hloop as (h2 & st & Hrun & Hag & Hst); [| |done|].
    { intros x ->%list_elem_of_singleton. unfold h1, Lt. rewrite length_app. cbn. lia. }
    { repeat (split; [done || constructor|]). exists []. split; [|constructor].
      by apply list_lookup_middle. }
    exists h2, st. split; [exact Hrun|]. split.
    + apply (agree_fresh [Lt]).
      * eapply agree_trans; [apply agree_alloc | exact Hag].
      * intros y ->%list_elem_of_singleton. done.
    + eapply agg_rep_weaken; [|exact Hst]. apply list_subseteq_nil.
  - destruct Hloop as (h2 & Hrun); [| |done|].
    { intros x ->%list_elem_of_singleton. unfold h1, Lt. rewrite length_app. cbn. lia. }
    { repeat (split; [done || constructor|]). exists []. split; [|constructor].
      by apply list_lookup_middle. }
    by exists h2.
Qed.

(** The Loader, lines 30-32. *)
Lemma locate_refines (h : store) (pdata : dict) data :
  rep (outside []) h (PDict pdata) data ->
  exists h' results detectors,
    locate data h = (Done (results, detectors), h') /\
    agree_outside [] h h' /\
    rep (outside []) h' (fst (Script.locate pdata)) results /\
    rep (outside []) h' (snd (Script.locate pdata)) detectors.
Proof.
  intros Hdata. unfold locate, Script.locate. cbn [fst snd].
  destruct (get_rep _ h pdata data "results" Hdata) as (r0 & Hget & Hr0).
  rewrite (bind_done _ _ _ _ _ Hget). clear Hget.
  assert (exists h1 r,
            or_else r0 (alloc (ODict [])) h = (Done r, h1) /\
            agree_outside [] h h1 /\
            rep (outside []) h1 (py_or (Py.get pdata "results") (PDict [])) r)
    as (h1 & r & Hor & Hag & Hr).
  { rewrite (or_else_rep [] h _ r0 _ Hr0). unfold py_or.
    destruct (Py.truthy (Py.get pdata "results")).
    - exists h, r0. split; [done|]. split; [apply agree_refl | done].
    - exists (h ++ [ODict []]), (VRef (length h)).
      split; [done|]. split; [apply agree_alloc|].
      apply rep_dict with []; [apply not_elem_of_nil| |done|constructor].
      by apply list_lookup_middle. }
  rewrite (bind_done _ _ _ _ _ Hor). clear Hor.
  rewrite (bind_done _ _ _ _ _ (is_dict_rep _ h1 _ r Hr)).
  destruct (py_or (Py.get pdata "results") (PDict [])) as [| | | | |pr] eqn:Hres;
    cbn [Py.is_dict];
    try (exists h1, r, r; split; [reflexivity|]; split; [exact Hag|]; by split).
  destruct (get_rep _ h1 pr r "detectors" Hr) as (dv & Hget & Hdv).
  rewrite (bind_done _ _ _ _ _ Hget).
  exists h1, r, dv. split; [reflexivity|]. split; [exact Hag|]. by split.
Qed.

(** Lines 101-104: the object handed to [json.dump]. *)
Lemma build_trimmed_refines (h : store) (pdata : dict) data (presults : pyval) results
    (ptrimmed : list pyval) st :
  rep (outside []) h (PDict pdata) data ->
  rep (outside []) h presults results ->
  rep (outside []) h (PList ptrimmed) (trimmed_detectors st) ->
  exists h' t,
    build_trimmed data results st h = (Done t, h') /\
    agree_outside [] h h' /\
    rep (outside []) h' (Script.build_trimmed pdata presults ptrimmed) t.
Proof.
  intros Hdata Hres Htr. unfold build_trimmed, Script.build_trimmed.
  pose proof (dict_copy_rep _ h _ _ Hdata) as (d & Hcopy & Hd). cbn in Hcopy.
  rewrite (bind_done _ _ _ _ _ Hcopy). clear Hcopy.
  set (Ld := length h) in *. set (h1 := h ++ [ODict d]) in *.
  assert (length h1 = S Ld) as Hlen1 by (unfold h1; rewrite length_app; cbn; lia).
  assert (rep (outside [Ld]) h1 presults results) as Hres1.
  { eapply rep_agree; [apply agree_alloc|]. by apply rep_new. }
  rewrite (bind_done _ _ _ _ _ (is_dict_rep _ h1 _ _ Hres1)).
  set (pr := match presults with PDict r => r | _ => [] end).
  assert (exists dr,
            (if Py.is_dict presults then dict_copy results else alloc (ODict [])) h1 =
              (Done (VRef (length h1)), h1 ++ [ODict dr]) /\
            entries (outside [Ld]) h1 pr dr) as (dr & Hnew & Hdr).
  { destruct (Py.is_dict presults) eqn:Hdict.
    - destruct presults as [| | | | |r]; try discriminate.
      pose proof (dict_copy_rep _ h1 _ _ Hres1) as (dr & Hcopy & Hdr). by exists dr.
    - exists []. split; [done|]. replace pr with (@nil (hkey * pyval)) by (by destruct presults).
      split; [done | constructor]. }
  rewrite (bind_done _ _ _ _ _ Hnew). clear Hnew.
  set (Lr := length h1) in *. set (h2 := h1 ++ [ODict dr]).
  assert (h2 !! Lr = Some (ODict dr)) as HLr2 by (by apply list_lookup_middle).
  rewrite (bind_done _ _ _ _ _ (set_item_eq h2 Lr dr "detectors" _ HLr2)).
  set (h3 := <[Lr := _]> h2).
  assert (length h2 = S Lr) as Hlen2 by (unfold h2; rewrite length_app; cbn; lia).
  assert (h3 !! Ld = Some (ODict d)) as HLd3.
  { unfold h3. rewrite list_lookup_insert_ne by lia. unfold h2.
    rewrite lookup_app_l by lia. by apply list_lookup_middle. }
  rewrite (bind_done _ _ _ _ _ (set_item_eq h3 Ld d "results" _ HLd3)).
  set (h4 := <[Ld := _]> h3).
  assert (agree_outside [Lr; Ld] h1 h4) as Hag14.
  { eapply agree_trans; [apply agree_alloc|]. fold h2.
    eapply agree_trans; [apply agree_update; left|]. fold h3.
    apply agree_update. right. left. }
  assert (agree_outside [Lr; Ld] h h4) as Hag04.
  { eapply agree_trans; [apply agree_alloc | exact Hag14]. }
  assert (agree_outside [] h h4) as Hag.
  { apply (agree_fresh [Lr; Ld]); [done|].
    intros y [->|[->|[]%elem_of_nil]%elem_of_cons]%elem_of_cons; fold Ld; lia. }
  assert (forall pv v, rep (outside []) h pv v -> rep (outside []) h4 pv v) as Hcarry.
  { intros pv v. by apply rep_agree. }
  exists h4, (VRef Ld). split; [reflexivity|]. split; [exact Hag|].
  assert ((Ld < length h3)%nat) as Hlt3 by (by eapply lookup_lt_Some).
  apply rep_dict_at with (set_key (KStr "results") (VRef Lr) d);
    [apply not_elem_of_nil| |].
  { unfold h4. by apply list_lookup_insert_eq. }
  apply entries_set_key.
  { eapply entries_agree; [exact Hag | done]. }
  apply rep_dict_at with (set_key (KStr "detectors") (trimmed_detectors st) dr);
    [apply not_elem_of_nil| |].
  { unfold h4. rewrite list_lookup_insert_ne by lia.
    unfold h3. apply list_lookup_insert_eq. lia. }
  apply entries_set_key; [|by apply Hcarry].
  eapply (entries_weaken [Lr; Ld]); [apply list_subseteq_nil|].
  eapply entries_agree; [exact Hag14|].
  eapply entries_new in Hdr; [exact Hdr|]. unfold Lr. lia.
Qed.

(** Lines 30-104: what the script computes on references is what it
    computes by value. *)
Theorem process_refines (h : store) (pdoc : pyval) doc :
  rep (outside []) h pdoc doc ->
  match as_dict pdoc with
  | Raise ex => exists h', process doc h = (Fail (Raised ex), h')
  | Ok pdata =>
      let '(presults, pdetectors) := Script.locate pdata in
      if Py.is_none pdetectors then
        exists h', process doc h = (Done None, h') /\ agree_outside [] h h'
      else
        match Py.bind (py_iter pdetectors) Script.aggregate with
        | Raise ex => exists h', process doc h = (Fail (Raised ex), h')
        | Ok pst =>
            exists h' st t Lt,
              process doc h = (Done (Some (st, t)), h') /\
              agree_outside [] h h' /\
              agg_rep (outside []) h' Lt pst st /\
              rep (outside []) h'
                  (Script.build_trimmed pdata presults (Script.trimmed_detectors pst)) t
        end
  end.
Proof.
  intros Hdoc. unfold process.
  destruct (Py.is_dict pdoc) eqn:Hdict.
  2:{ pose proof (get_rep_fail _ h _ _ "results" Hdoc Hdict) as Hget.
      assert (locate doc h = (Fail (Raised AttributeError), h)) as Hloc.
      { unfold locate. by rewrite (bind_fail _ _ _ _ _ Hget). }
      destruct pdoc; try discriminate; cbn [as_dict];
        exists h; by rewrite (bind_fail _ _ _ _ _ Hloc). }
  destruct pdoc as [| | | | |pdata]; try discriminate. cbn [as_dict].
  destruct (locate_refines h pdata doc Hdoc) as (h1 & results & detectors & Hloc & Hag1 & Hr & Hd).
  rewrite (bind_done _ _ _ _ _ Hloc). clear Hloc. cbn [fst snd].
  destruct (Script.locate pdata) as [presults pdetectors]. cbn [fst snd] in Hr, Hd.
  rewrite (is_none_rep _ h1 _ _ Hd).
  destruct (Py.is_none pdetectors); [by exists h1|].
  pose proof (aggregate_refines h1 pdetectors detectors Hd) as Hagg.
  destruct (Py.bind (py_iter pdetectors) Script.aggregate) as [pst|ex].
  2:{ destruct Hagg as (h2 & Hrun). exists h2. by rewrite (bind_fail _ _ _ _ _ Hrun). }
  destruct Hagg as (h2 & st & Hrun & Hag2 & Hst).
  rewrite (bind_done _ _ _ _ _ Hrun). clear Hrun.
  assert (agree_outside [] h h2) as Hag02 by (by eapply agree_trans).
  destruct (build_trimmed_refines h2 pdata doc presults results
              (Script.trimmed_detectors pst) st) as (h3 & t & Hrun & Hag3 & Ht).
  { eapply rep_agree; [exact Hag02 | exact Hdoc]. }
  { eapply rep_agree; [exact Hag2 | exact Hr]. }
  { destruct Hst as (_ & _ & _ & _ & -> & ts & Hts & Htrimmed).
    by apply rep_list with ts; [apply not_elem_of_nil|..]. }
  rewrite (bind_done _ _ _ _ _ Hrun).
  exists h3, st, t, (length h1). split; [reflexivity|].
  split; [by eapply agree_trans|]. split; [|exact Ht].
  eapply agg_rep_agree; [apply not_elem_of_nil | exact Hag3 | exact Hst].
Qed.

(** *** The store [json.load] builds *)

Lemma load_list (ps : list pyval) (h : store) :
  load (PList ps) h =
  let '(vs, h') := load_items ps h in (VRef (length h'), h' ++ [OList vs]).
Proof.
  cbn [load].
  assert (forall l h0,
            (fix load_items (l : list pyval) (h : store) {struct l} : list val * store :=
               match l with
               | [] => ([], h)
               | x :: r =>
                   let '(v, h1) := load x h in
                   let '(vs, h2) := load_items r h1 in (v :: vs, h2)
               end) l h0 = load_items l h0) as ->; [|done].
  induction l as [|x r IH]; intros h0; [done|]. cbn [load_items].
  destruct (load x h0) as [v h1]. by rewrite IH.
Qed.

Lemma load_dict (pd : dict) (h : store) :
  load (PDict pd) h =
  let '(kvs, h') := load_entries pd h in (VRef (length h'), h' ++ [ODict kvs]).
Proof.
  cbn [load].
  assert (forall l h0,
            (fix load_entries (l : list (hkey * pyval)) (h : store) {struct l}
               : list (hkey * val) * store :=
               match l with
               | [] => ([], h)
               | (k, x) :: r =>
                   let '(v, h1) := load x h in
                   let '(kvs, h2) := load_entries r h1 in ((k, v) :: kvs, h2)
               end) l h0 = load_entries l h0) as ->; [|done].
  induction l as [|[k x] r IH]; intros h0; [done|]. cbn [load_entries].
  destruct (load x h0) as [v h1]. by rewrite IH.
Qed.

(** [load] adds objects to the store, and its value holds the document. *)
Lemma load_rep (pv : pyval) :
  forall h, agree_outside [] h (snd (load pv h)) /\
            rep (outside []) (snd (load pv h)) pv (fst (load pv h)).
Proof.
  induction pv as [|b|z|s|ps IH|pd IH] using pyval_nested_ind; intros h;
    try (split; [apply agree_refl | constructor]).
  - rewrite load_list.
    assert (agree_outside [] h (snd (load_items ps h)) /\
            Forall2 (rep (outside []) (snd (load_items ps h))) ps (fst (load_items ps h)))
      as [Hag Hvs].
    { revert h. induction IH as [|p ps Hp _ IHps]; intros h; cbn [load_items].
      - split; [apply agree_refl | constructor].
      - destruct (Hp h) as [Hag1 Hv]. destruct (load p h) as [v h1]. cbn [fst snd] in *.
        destruct (IHps h1) as [Hag2 Hvs]. destruct (load_items ps h1) as [vs h2].
        cbn [fst snd] in *. split; [by eapply agree_trans|].
        constructor; [|done]. by eapply rep_agree. }
    destruct (load_items ps h) as [vs h']. cbn [fst snd] in *. split.
    + eapply agree_trans; [exact Hag | apply agree_alloc].
    + apply rep_list with vs; [apply not_elem_of_nil| |].
      * by apply list_lookup_middle.
      * eapply Forall2_impl; [exact Hvs|]. intros p x. apply rep_agree, agree_alloc.
  - rewrite load_dict.
    assert (agree_outside [] h (snd (load_entries pd h)) /\
            entries (outside []) (snd (load_entries pd h)) pd (fst (load_entries pd h)))
      as [Hag Hd].
    { revert h. induction pd as [|[k p] pd IHpd]; intros h; cbn [load_entries].
      - split; [apply agree_refl|]. split; [done | constructor].
      - inversion IH as [|? ? Hp IH']; subst.
        destruct (Hp h) as [Hag1 Hv]. destruct (load p h) as [v h1]. cbn [fst snd] in *.
        destruct (IHpd IH' h1) as [Hag2 [Hk Hvs]]. destruct (load_entries pd h1) as [kvs h2].
        cbn [fst snd] in *. split; [by eapply agree_trans|].
        split; cbn; [by rewrite Hk|]. constructor; [|done]. by eapply rep_agree. }
    destruct (load_entries pd h) as [kvs h']. cbn [fst snd] in *. split.
    + eapply agree_trans; [exact Hag | apply agree_alloc].
    + apply rep_dict_at with kvs; [apply not_elem_of_nil| |].
      * by apply list_lookup_middle.
      * eapply entries_agree; [apply agree_alloc | done].
Qed.

(** *** Reading the result back *)

Lemma all_some_views (Q : pyval -> Prop) (R : pyval -> val -> Prop) (h : store)
    (ps : list pyval) (vs : list val) :
  (forall p v, Q p -> R p v ->
               exists n, forall fuel, (n <= fuel)%nat -> view fuel h v = Some p) ->
  Forall Q ps -> Forall2 R ps vs ->
  exists n, forall fuel, (n <= fuel)%nat ->
                         all_some (map (view fuel h) vs) = Some ps.
Proof.
  intros Hone HQ HR. induction HR as [|p v ps vs Hp _ IH].
  - exists O. by intros.
  - inversion HQ as [|? ? Hq HQ']; subst.
    destruct (Hone p v Hq Hp) as [n1 H1]. destruct (IH HQ') as [n2 H2].
    exists (n1 `max` n2)%nat. intros fuel Hfuel. cbn.
    rewrite H1 by lia. by rewrite H2 by lia.
Qed.

Lemma all_some_entries (h : store) (fuel : nat) (pd : dict) (d : list (hkey * val)) :
  map fst pd = map fst d ->
  all_some (map (view fuel h) (map snd d)) = Some (map snd pd) ->
  all_some (map (fun kv => match view fuel h (snd kv) with
                           | Some x => Some (fst kv, x)
                           | None => None
                           end) d) = Some pd.
Proof.
  revert d. induction pd as [|[k p] pd IH]; intros [|[k' v] d]; try discriminate.
  - done.
  - cbn. intros [= <- Hk]. destruct (view fuel h v) as [x|]; [|done].
    destruct (all_some (map (view fuel h) (map snd d))) as [xs|] eqn:Hxs; [|done].
    intros [= -> ->]. by rewrite (IH d Hk Hxs).
Qed.

(** A value that holds [pv] reads as [pv], with fuel enough. *)
Lemma view_rep (P : nat -> Prop) (h : store) (pv : pyval) :
  forall v, rep P h pv v ->
            exists n, forall fuel, (n <= fuel)%nat -> view fuel h v = Some pv.
Proof.
  induction pv as [|b|z|s|ps IH|pd IH] using pyval_nested_ind; intros v Hv;
    inversion Hv as [| | | |l ? vs _ Hl Hvs|l ? d _ Hl Hk Hvs]; subst;
    try (exists 1%nat; intros [|fuel] ?; [lia | done]).
  - destruct (all_some_views _ (rep P h) h ps vs (fun p v Hq => Hq v) IH Hvs) as [n Hn].
    exists (S n). intros [|fuel] Hfuel; [lia|]. cbn. rewrite Hl.
    by rewrite Hn by lia.
  - destruct (all_some_views _ (rep P h) h (map snd pd) (map snd d)
                (fun p v Hq => Hq v) IH Hvs) as [n Hn].
    exists (S n). intros [|fuel] Hfuel; [lia|]. cbn. rewrite Hl.
    by rewrite (all_some_entries h fuel pd d Hk (Hn fuel ltac:(lia))).
Qed.

Lemma agree_prefix (h h' : store) : agree_outside [] h h' -> h `prefix_of` h'.
Proof.
  intros [Hlen Hag]. exists (drop (length h) h').
  rewrite <- (take_drop (length h) h') at 1. f_equal.
  apply list_eq. intros i. destruct (decide (i < length h)%nat) as [Hi|Hi].
  - rewrite lookup_take_lt by done. apply Hag; [done | apply not_elem_of_nil].
  - rewrite lookup_take_ge by lia. symmetry. apply lookup_ge_None_2. lia.
Qed.

Lemma run_wrote_report (pdoc report : pyval) :
  Script.trimmed_json (Script.outputs (Script.run (Script.Parsed pdoc))) = Some report ->
  exists data dets pst,
    pdoc = PDict data /\
    Py.is_none (snd (Script.locate data)) = false /\
    py_iter (snd (Script.locate data)) = Ok dets /\
    Script.aggregate dets = Ok pst /\
    report = Script.build_trimmed data (fst (Script.locate data))
                                  (Script.trimmed_detectors pst).
Proof.
  intros Hout.
  destruct (run_wrote (Script.Parsed pdoc)) as (data & dets & pst & Hin & Hnone & Hiter & Hagg).
  { intros Hno. by rewrite Hno in Hout. }
  injection Hin as ->. exists data, dets, pst.
  rewrite (run_after_loop data dets pst Hnone Hiter Hagg) in Hout. cbn in Hout.
  by injection Hout as <-.
Qed.

(** The trimmed report of the run by value is what the run on references
    leaves in the store, for the document [json.load] builds. *)
Theorem store_run_writes_report (pdoc report : pyval) :
  Script.trimmed_json (Script.outputs (Script.run (Script.Parsed pdoc))) = Some report ->
  exists st t h' fuel,
    process (fst (load pdoc [])) (snd (load pdoc [])) = (Done (Some (st, t)), h') /\
    snd (load pdoc []) `prefix_of` h' /\
    view fuel h' t = Some report.
Proof.
  intros Hout.
  destruct (run_wrote_report pdoc report Hout) as (data & dets & pst & -> & Hnone & Hiter & Hagg & ->).
  destruct (load_rep (PDict data) []) as [_ Hdoc].
  pose proof (process_refines _ _ _ Hdoc) as Href. cbn [as_dict] in Href.
  destruct (Script.locate data) as [presults pdetectors]. cbn [fst snd] in *.
  rewrite Hnone, Hiter in Href. cbn [Py.bind] in Href. rewrite Hagg in Href.
  destruct Href as (h' & st & t & Lt & Hrun & Hag & _ & Ht).
  destruct (view_rep _ h' _ t Ht) as [n Hn].
  exists st, t, h', n. split; [exact Hrun|]. split; [|by apply Hn].
  by apply agree_prefix.
Qed.

(** X11. For every document, as [json.load] builds it in an empty store,
    the run on the store and the run on values end alike: the same
    exception when the document is no mapping or the loop raises, nothing to
    do when the Loader resolves [None], and else the same counting tables,
    examples that hold the examples kept by value, and an object to dump
    that reads as the trimmed report built by value.  The store run never
    follows a reference to no object, and it leaves the objects of the
    document as they are. *)
Theorem store_run_agrees_with_value_run (pdoc : pyval) :
  match as_dict pdoc with
  | Raise ex => fst (process (fst (load pdoc [])) (snd (load pdoc []))) = Fail (Raised ex)
  | Ok pdata =>
      if Py.is_none (snd (Script.locate pdata)) then
        fst (process (fst (load pdoc [])) (snd (load pdoc []))) = Done None
      else
        match Py.bind (py_iter (snd (Script.locate pdata))) Script.aggregate with
        | Raise ex =>
            fst (process (fst (load pdoc [])) (snd (load pdoc []))) = Fail (Raised ex)
        | Ok pst =>
            exists st t h' fuel,
              process (fst (load pdoc [])) (snd (load pdoc [])) = (Done (Some (st, t)), h') /\
              snd (load pdoc []) `prefix_of` h' /\
              counts st = Script.counts pst /\
              impact_counts st = Script.impact_counts pst /\
              confidence_counts st = Script.confidence_counts pst /\
              examples_rep (outside []) h' (Script.top_examples pst) (top_examples st) /\
              view fuel h' t =
                Some (Script.build_trimmed pdata (fst (Script.locate pdata))
                                           (Script.trimmed_detectors pst))
        end
  end.
Proof.
  destruct (load_rep pdoc []) as [_ Hdoc].
  pose proof (process_refines _ _ _ Hdoc) as Href.
  destruct (as_dict pdoc) as [pdata|ex]; [|destruct Href as [h' ->]; done].
  destruct (Script.locate pdata) as [presults pdetectors]. cbn [fst snd] in *.
  destruct (Py.is_none pdetectors); [destruct Href as (h' & -> & _); done|].
  destruct (Py.bind (py_iter pdetectors) Script.aggregate) as [pst|ex];
    [|destruct Href as [h' ->]; done].
  destruct Href as (h' & st & t & Lt & Hrun & Hag & Hst & Ht).
  destruct (view_rep _ h' _ t Ht) as [n Hn].
  destruct Hst as (Hc & Hi & Hf & Hex & _).
  exists st, t, h', n. split; [exact Hrun|]. split; [by apply agree_prefix|].
  do 4 (split; [done|]). by apply Hn.
Qed.

End Refinement.

(** * More of the script

    What the theorems above leave out: the head of the summary and its
    counts, the failure of the summary writer, the failure of the loop,
    the fields that trimming keeps, a second run on the trimmed report,
    the report with no finding, and the references that a shallow copy
    shares. *)

Import Readers.

(** ** The counts the summary prints *)

Section PrintedCounts.

Lemma printed_counts_app (a b : list md_line) :
  printed_counts (a ++ b) = printed_counts a ++ printed_counts b.
Proof.
  induction a as [|l a IH]; [done|]. destruct l; cbn; by rewrite ?IH.
Qed.

Lemma printed_counts_top (rows : list (hkey * nat)) :
  printed_counts (map (fun row => MdTop (fst row) (snd row)) rows) = rows.
Proof. induction rows as [|[k n] rows IH]; [done|]. cbn. by rewrite IH. Qed.

Lemma printed_counts_example (ex : pyval) : printed_counts (fst (write_example ex)) = [].
Proof.
  unfold write_example. destruct (as_dict ex) as [d|]; [|done].
  destruct (py_or _ _) as [| | |s| |]; try done.
  cbn. by destruct (String.eqb _ _).
Qed.

Lemma printed_counts_examples (exs : list pyval) :
  printed_counts (fst (for_each write_example exs)) = [].
Proof.
  induction exs as [|ex exs IH]; [done|]. cbn [for_each].
  pose proof (printed_counts_example ex) as Hex.
  destruct (write_example ex) as [l [e|]]; cbn [then_write fst] in *; [done|].
  by rewrite printed_counts_app, Hex, IH.
Qed.

Lemma printed_counts_sections (st : agg) (entries : list (hkey * list pyval)) :
  printed_counts (fst (for_each (write_section st) entries))
    `prefix_of` map (fun e => (fst e, count_of (fst e) (counts st))) entries.
Proof.
  induction entries as [|[k exs] entries IH]; [done|]. cbn [for_each map fst].
  unfold write_section at 1. cbn [fst snd].
  pose proof (printed_counts_examples exs) as Hexs.
  destruct (for_each write_example exs) as [body [e|]]; cbn [then_write fst snd app] in *.
  - simpl. rewrite Hexs. apply prefix_cons, prefix_nil.
  - destruct (for_each (write_section st) entries) as [rest err]. cbn [fst snd] in *.
    simpl. rewrite !printed_counts_app, Hexs. simpl. by apply prefix_cons.
Qed.

End PrintedCounts.

(** X1. The summary starts with the title, the number of findings, the
    number of detectors, which is the number of rows of the CSV table, and the
    list of the top detectors: the first 30 rows of [most_common], the order
    of the CSV table, each with its count.  Every count the summary prints,
    in the top list or in a section heading, is the number of findings of
    that detector, and is not zero; this holds for a summary cut short as
    well. *)
Theorem summary_counts_are_category_sizes (input : input_file) (md : list md_line) :
  summary_md (outputs (run input)) = Some md ->
  exists data dets st rest,
    input = Parsed (PDict data) /\
    py_iter (snd (locate data)) = Ok dets /\
    aggregate dets = Ok st /\
    md = [MdTitle; MdTotal (length dets); MdUnique (length (most_common (counts st)));
          MdTopHeading]
           ++ map (fun row => MdTop (fst row) (snd row)) (take 30 (most_common (counts st)))
           ++ [MdBlank; MdExamplesHeading] ++ rest /\
    (forall check cnt,
        (check, cnt) ∈ printed_counts md ->
        cnt = length (List.filter (in_category check) dets) /\ (0 < cnt)%nat).
Proof.
  intros Hmd.
  destruct (run_wrote input) as (data & dets & st & -> & Hnone & Hiter & Hagg).
  { intros Hno. by rewrite Hno in Hmd. }
  assert (md = fst (write_md st)) as ->.
  { rewrite (run_after_loop _ _ _ Hnone Hiter Hagg) in Hmd. by injection Hmd. }
  clear Hmd.
  assert (total (counts st) = length dets) as Htotal.
  { destruct (aggregate_counts _ _ Hagg) as (keys & Hkeys & -> & _).
    rewrite total_tally, length_map.
    apply mapM_Forall2 in Hkeys. symmetry. by eapply Forall2_length. }
  exists data, dets, st, (fst (for_each (write_section st) (take 30 (top_examples st)))).
  split; [reflexivity|]. split; [exact Hiter|]. split; [exact Hagg|].
  assert (fst (write_md st) =
          [MdTitle; MdTotal (length dets); MdUnique (length (most_common (counts st)));
           MdTopHeading]
            ++ map (fun row => MdTop (fst row) (snd row)) (take 30 (most_common (counts st)))
            ++ [MdBlank; MdExamplesHeading]
            ++ fst (for_each (write_section st) (take 30 (top_examples st)))) as ->.
  { unfold write_md, then_write, most_common_n. cbn [fst].
    rewrite Htotal, most_common_length. by rewrite <- !app_assoc. }
  split; [done|]. intros check cnt Hin.
  assert (forall k c, (k, c) ∈ counts st ->
                      c = length (List.filter (in_category k) dets) /\ (0 < c)%nat) as Hrow.
  { intros k c. by apply aggregate_row_count. }
  rewrite !printed_counts_app, printed_counts_top in Hin. simpl in Hin.
  apply elem_of_app in Hin as [Hin|Hin].
  - apply Hrow. rewrite <- (most_common_perm (counts st)).
    eapply elem_of_sublist; [exact Hin | apply sublist_take].
  - pose proof (printed_counts_sections st (take 30 (top_examples st))) as [tl Hpre].
    assert ((check, cnt) ∈ map (fun e => (fst e, count_of (fst e) (counts st)))
                               (take 30 (top_examples st))) as Hin'.
    { rewrite Hpre. apply elem_of_app. by left. }
    apply list_elem_of_fmap in Hin' as ([k exs] & [= -> ->] & Hk). cbn [fst].
    assert (k ∈ map fst (counts st)) as Hkey.
    { rewrite <- (aggregate_example_keys _ _ Hagg).
      apply list_elem_of_fmap. exists (k, exs). split; [done|].
      eapply elem_of_sublist; [exact Hk | apply sublist_take]. }
    apply list_elem_of_fmap in Hkey as ([k' c] & Hkk & Hc). cbn in Hkk. subst k'.
    unfold count_of.
    rewrite (lookup_key_entry k c (counts st) (aggregate_distinct _ _ Hagg) Hc).
    by apply Hrow.
Qed.

Lemma summary_counts_are_category_sizes_witness :
  exists data dets st rest,
    Parsed Samples.report = Parsed (PDict data) /\
    py_iter (snd (locate data)) = Ok dets /\
    aggregate dets = Ok st /\
    default [] (summary_md (outputs (run (Parsed Samples.report)))) =
      [MdTitle; MdTotal (length dets); MdUnique (length (most_common (counts st)));
       MdTopHeading]
        ++ map (fun row => MdTop (fst row) (snd row)) (take 30 (most_common (counts st)))
        ++ [MdBlank; MdExamplesHeading] ++ rest /\
    (forall check cnt,
        (check, cnt) ∈ printed_counts (default [] (summary_md (outputs (run (Parsed Samples.report))))) ->
        cnt = length (List.filter (in_category check) dets) /\ (0 < cnt)%nat).
Proof.
  apply (summary_counts_are_category_sizes (Parsed Samples.report)).
  vm_compute. reflexivity.
Defined.

(** ** When the summary writer dies *)

Section WriterFailure.

(** A loop of the writer stops at the first item whose block raises; what
    was written before stays. *)
Lemma for_each_ok {A : Type} (f : A -> written) (l : list A) :
  snd (for_each f l) = None <-> Forall (fun x => snd (f x) = None) l.
Proof.
  induction l as [|x l IH]; cbn [for_each]; [split; [constructor | done]|].
  rewrite Forall_cons. destruct (f x) as [w [e|]]; cbn [then_write snd].
  - split; [done | by intros [? _]].
  - rewrite IH. tauto.
Qed.

Lemma for_each_stops {A : Type} (f : A -> written) (l : list A) (e : exn) :
  snd (for_each f l) = Some e ->
  exists before x after,
    l = before ++ x :: after /\
    Forall (fun y => snd (f y) = None) before /\
    snd (f x) = Some e /\
    fst (for_each f l) = fst (for_each f before) ++ fst (f x).
Proof.
  induction l as [|x l IH]; cbn [for_each]; [done|].
  destruct (f x) as [w [e'|]] eqn:Hx; cbn [then_write fst snd].
  - intros [= ->]. exists [], x, l. rewrite Hx. by repeat split.
  - intros (before & y & after & -> & Hb & Hy & Hw)%IH.
    exists (x :: before), y, after. split; [done|]. split.
    + constructor; [by rewrite Hx | done].
    + split; [done|]. cbn [for_each]. rewrite Hx. cbn [then_write fst].
      by rewrite Hw, app_assoc.
Qed.

(** Lines 133-140 for an example that is a dict: [desc.strip()] raises on
    a [desc] that is not text; the Impact line is written before it. *)
Lemma write_example_dict (d : dict) :
  if is_str (description_of d) then snd (write_example (PDict d)) = None
  else write_example (PDict d) =
       ([MdExample (get_default d "impact" (PStr "")) (get_default d "confidence" (PStr ""))],
        Some AttributeError).
Proof.
  unfold write_example, description_of. cbn [as_dict].
  destruct (py_or _ _) as [| | |s| |]; cbn [is_str then_write fst snd app]; try done.
  by destruct (String.eqb _ _).
Qed.

Lemma write_section_status (st : agg) (entry : hkey * list pyval) :
  snd (write_section st entry) = snd (for_each write_example (snd entry)).
Proof.
  unfold write_section. cbn [then_write].
  by destruct (for_each write_example (snd entry)) as [w [e|]].
Qed.

Lemma write_md_status (st : agg) :
  snd (write_md st) = snd (for_each (write_section st) (take 30 (top_examples st))).
Proof. reflexivity. Qed.

(** The examples the loop keeps are findings it accepted: dicts. *)
Lemma in_category_dict (k : hkey) (det : pyval) :
  in_category k det = true -> exists d, det = PDict d.
Proof.
  unfold in_category, keys_of. destruct det; try done. by eexists.
Qed.

Lemma aggregate_examples_dicts (dets : list pyval) (st : agg) check exs ex :
  aggregate dets = Ok st -> (check, exs) ∈ top_examples st -> ex ∈ exs ->
  exists d, ex = PDict d.
Proof.
  intros Hagg Hin Hex.
  rewrite (aggregate_example_entries _ _ _ _ Hagg Hin) in Hex.
  assert (ex ∈ List.filter (in_category check) dets) as Hex'.
  { eapply elem_of_sublist; [exact Hex | apply sublist_take]. }
  clear Hex. rename Hex' into Hex.
  apply list_elem_of_In, List.filter_In in Hex as [_ Hcat].
  by eapply in_category_dict.
Qed.

End WriterFailure.

Lemma write_example_ok (ex : pyval) :
  snd (write_example ex) = None <-> has_text ex = true.
Proof.
  destruct ex as [| | | | |d]; try done.
  pose proof (write_example_dict d) as H. cbn [has_text].
  destruct (is_str (description_of d)); [done|]. by rewrite H.
Qed.

Lemma write_section_failed (st : agg) (entry : hkey * list pyval) (e : exn) :
  snd (for_each write_example (snd entry)) = Some e ->
  fst (write_section st entry) =
  MdCheck (fst entry) (count_of (fst entry) (counts st))
    :: fst (for_each write_example (snd entry)).
Proof.
  unfold write_section. destruct (for_each write_example (snd entry)) as [w [e'|]]; [|done].
  by intros _.
Qed.

(** X2. Once the summary is opened, the trimmed report and the CSV table
    are written.  A run that ends with status 0 has printed only examples
    with a text for [desc]: the [description], else the [markdown], else the
    empty string.  An example to print (one of the first 30 detectors) whose
    [desc] is no text, a number or a list say, makes the run end with
    status 1 and without the closing messages.  And when the run dies of
    [AttributeError], an example printed has a [desc] that is no text, and
    the last line of the summary is the Impact line of that example. *)
Theorem summary_stops_at_description_without_text (input : input_file) (md : list md_line) :
  summary_md (outputs (run input)) = Some md ->
  exists data dets st t csv,
    input = Parsed (PDict data) /\
    py_iter (snd (locate data)) = Ok dets /\
    aggregate dets = Ok st /\
    outputs (run input) =
      {| trimmed_json := Some t; counts_csv := Some csv; summary_md := Some md |} /\
    (ended (run input) = Exit 0 ->
     forall check exs ex,
       (check, exs) ∈ take 30 (top_examples st) -> ex ∈ exs -> has_text ex = true) /\
    (forall check exs ex,
        (check, exs) ∈ take 30 (top_examples st) -> ex ∈ exs -> has_text ex = false ->
        exit_status (ended (run input)) = 1 /\ stdout (run input) = []) /\
    (ended (run input) = Uncaught AttributeError ->
     exists check exs d,
       (check, exs) ∈ take 30 (top_examples st) /\
       PDict d ∈ exs /\
       is_str (description_of d) = false /\
       last md = Some (MdExample (get_default d "impact" (PStr ""))
                                 (get_default d "confidence" (PStr "")))).
Proof.
  intros Hmd.
  destruct (run_wrote input) as (data & dets & st & -> & Hnone & Hiter & Hagg).
  { intros Hno. by rewrite Hno in Hmd. }
  pose proof (run_after_loop _ _ _ Hnone Hiter Hagg) as Hrun.
  assert (md = fst (write_md st)) as ->.
  { rewrite Hrun in Hmd. by injection Hmd. }
  clear Hmd. rewrite Hrun. cbn [ended outputs stdout].
  exists data, dets, st. eexists _, _.
  split; [reflexivity|]. split; [exact Hiter|]. split; [exact Hagg|].
  split; [reflexivity|].
  assert (forall check exs ex,
             (check, exs) ∈ take 30 (top_examples st) -> ex ∈ exs ->
             exists d, ex = PDict d) as Hdicts.
  { intros check exs ex Hin Hex. eapply aggregate_examples_dicts; [exact Hagg| |exact Hex].
    eapply elem_of_sublist; [exact Hin | apply sublist_take]. }
  assert (snd (write_md st) = None ->
          forall check exs ex,
            (check, exs) ∈ take 30 (top_examples st) -> ex ∈ exs -> has_text ex = true) as Hok.
  { rewrite write_md_status. intros Hst check exs ex Hin Hex.
    apply for_each_ok in Hst. rewrite Forall_forall in Hst.
    specialize (Hst _ Hin). rewrite write_section_status in Hst. cbn [snd] in Hst.
    apply for_each_ok in Hst. rewrite Forall_forall in Hst.
    by apply write_example_ok, Hst. }
  split; [|split].
  - destruct (snd (write_md st)) eqn:E; [discriminate | intros _; by apply Hok].
  - intros check exs ex Hin Hex Hbad.
    destruct (snd (write_md st)) as [e|] eqn:E; [done|].
    by rewrite (Hok eq_refl _ _ _ Hin Hex) in Hbad.
  - rewrite write_md_status.
    destruct (snd (for_each (write_section st) (take 30 (top_examples st)))) as [e|] eqn:Hst;
      [|discriminate].
    intros [= ->].
    apply for_each_stops in Hst as (before & [check exs] & after & Hl & _ & Hx & Hw).
    rewrite write_section_status in Hx. cbn [snd] in Hx.
    pose proof (write_section_failed st (check, exs) _ Hx) as Hsec. cbn [fst snd] in Hsec.
    apply for_each_stops in Hx as (before' & ex & after' & Hl' & _ & Hex & Hw').
    assert ((check, exs) ∈ take 30 (top_examples st)) as Hin.
    { rewrite Hl. apply elem_of_app. right. left. }
    assert (ex ∈ exs) as Hexin.
    { rewrite Hl'. apply elem_of_app. right. left. }
    destruct (Hdicts _ _ _ Hin Hexin) as [d ->].
    pose proof (write_example_dict d) as Hd.
    destruct (is_str (description_of d)) eqn:Hs; [by rewrite Hd in Hex|].
    rewrite Hd in Hw'. cbn [fst snd] in Hw'.
    exists check, exs, d. do 3 (split; [done|]).
    unfold write_md. cbn [then_write fst]. rewrite Hw, Hsec, Hw'.
    rewrite !app_comm_cons, !app_assoc. apply last_snoc.
Qed.

Lemma summary_stops_at_description_without_text_witness :
  exists data dets st t csv,
    Parsed Cases.numbered_report = Parsed (PDict data) /\
    py_iter (snd (locate data)) = Ok dets /\
    aggregate dets = Ok st /\
    outputs (run (Parsed Cases.numbered_report)) =
      {| trimmed_json := Some t; counts_csv := Some csv;
         summary_md := Some (default [] (summary_md (outputs (run (Parsed Cases.numbered_report))))) |} /\
    (ended (run (Parsed Cases.numbered_report)) = Exit 0 ->
     forall check exs ex,
       (check, exs) ∈ take 30 (top_examples st) -> ex ∈ exs -> has_text ex = true) /\
    (forall check exs ex,
        (check, exs) ∈ take 30 (top_examples st) -> ex ∈ exs -> has_text ex = false ->
        exit_status (ended (run (Parsed Cases.numbered_report))) = 1 /\
        stdout (run (Parsed Cases.numbered_report)) = []) /\
    (ended (run (Parsed Cases.numbered_report)) = Uncaught AttributeError ->
     exists check exs d,
       (check, exs) ∈ take 30 (top_examples st) /\
       PDict d ∈ exs /\
       is_str (description_of d) = false /\
       last (default [] (summary_md (outputs (run (Parsed Cases.numbered_report))))) =
       Some (MdExample (get_default d "impact" (PStr ""))
                       (get_default d "confidence" (PStr "")))).
Proof.
  apply (summary_stops_at_description_without_text (Parsed Cases.numbered_report)).
  vm_compute. reflexivity.
Defined.

(** ** When the loop dies *)

Section AllOrNothing.

Lemma foldM_app {A S : Type} (f : S -> A -> result S) (s : S) (l1 l2 : list A) :
  foldM f s (l1 ++ l2) = (s' <- foldM f s l1 ;; foldM f s' l2).
Proof.
  revert s. induction l1 as [|x l1 IH]; intros s; cbn [app foldM Py.bind]; [done|].
  destruct (f s x); cbn [Py.bind]; [apply IH | done].
Qed.

(** Whether a turn goes through, and the exception it raises, do not
    depend on the tables. *)
Lemma step_accepted (st : agg) (det : pyval) :
  accepted det = true -> exists st', step st det = Ok st'.
Proof.
  unfold accepted, keys_of, trim_finding, step.
  destruct (as_dict det) as [d|]; cbn [Py.bind]; [|done].
  destruct (py_hash (check_of d)); cbn [Py.bind]; [|done].
  destruct (py_hash (impact_of d)); cbn [Py.bind]; [|done].
  destruct (py_hash (confidence_of d)); cbn [Py.bind]; [|done].
  destruct (trim_detector d); cbn [Py.bind]; [|done]. by eexists.
Qed.

Lemma step_raise (st st' : agg) (det : pyval) (e : exn) :
  step st det = Raise e -> step st' det = Raise e.
Proof.
  unfold step.
  destruct (as_dict det) as [d|]; cbn [Py.bind]; [|done].
  destruct (py_hash (check_of d)); cbn [Py.bind]; [|done].
  destruct (py_hash (impact_of d)); cbn [Py.bind]; [|done].
  destruct (py_hash (confidence_of d)); cbn [Py.bind]; [|done].
  destruct (trim_detector d); cbn [Py.bind]; done.
Qed.

Lemma foldM_accepted (st : agg) (dets : list pyval) :
  Forall (fun det => accepted det = true) dets -> exists st', foldM step st dets = Ok st'.
Proof.
  intros H. revert st. induction H as [|det dets Hdet _ IH]; intros st; cbn [foldM].
  - by eexists.
  - destruct (step_accepted st det Hdet) as [st1 ->]. cbn [Py.bind]. apply IH.
Qed.

End AllOrNothing.

(** X3. The loop is all or nothing.  Files are written exactly when
    every finding is accepted; when a finding is not, the run dies of the
    exception of the first such finding, with nothing printed and no file,
    whatever the findings before it were.  A finding that is not a mapping
    raises [AttributeError]; a [check] that is a list or a mapping (and not
    empty) raises [TypeError]. *)
Theorem one_bad_finding_stops_the_run (data : dict) (dets : list pyval) :
  is_none (snd (locate data)) = false ->
  py_iter (snd (locate data)) = Ok dets ->
  (Forall (fun det => accepted det = true) dets <->
   outputs (run (Parsed (PDict data))) <> no_files) /\
  (forall before det after e,
      dets = before ++ det :: after ->
      Forall (fun x => accepted x = true) before ->
      step agg_init det = Raise e ->
      run (Parsed (PDict data)) = crash e) /\
  (forall det, is_dict det = false -> step agg_init det = Raise AttributeError) /\
  (forall d, plain (check_of d) = false -> step agg_init (PDict d) = Raise TypeError).
Proof.
  intros Hnone Hiter.
  assert (forall e, aggregate dets = Raise e -> run (Parsed (PDict data)) = crash e) as Hcrash.
  { intros e Hagg. unfold run. cbn [as_dict].
    destruct (locate data) as [results detectors]. cbn [fst snd] in *.
    rewrite Hnone, Hiter. cbn [Py.bind]. by rewrite Hagg. }
  split; [|split; [|split]].
  - split.
    + intros Hall. destruct (foldM_accepted agg_init dets Hall) as [st Hagg].
      by rewrite (run_after_loop _ _ _ Hnone Hiter Hagg).
    + intros Hout. destruct (aggregate dets) as [st|e] eqn:Hagg.
      * clear Hout Hiter Hcrash. revert dets st Hagg.
        apply (aggregate_ind (fun dets _ => Forall (fun det => accepted det = true) dets));
          [constructor|].
        intros dets st det st' _ IH Hstep. apply Forall_app. split; [done|].
        constructor; [|constructor].
        apply step_Ok in Hstep as (c & i & cf & t & Hk & Ht & _).
        unfold accepted. by rewrite Hk, Ht.
      * by rewrite (Hcrash e eq_refl) in Hout.
  - intros before det after e -> Hbefore Hstep. apply Hcrash.
    unfold aggregate. rewrite foldM_app.
    destruct (foldM_accepted agg_init before Hbefore) as [st ->]. cbn [Py.bind foldM].
    by rewrite (step_raise _ st _ _ Hstep).
  - by intros [| | | | |d].
  - intros d Hd. unfold step. cbn [as_dict Py.bind].
    by destruct (check_of d).
Qed.

Lemma one_bad_finding_stops_the_run_witness :
  (Forall (fun det => accepted det = true)
          [Samples.finding "reentrancy" "High" 12; PStr "stray";
           Samples.finding "timestamp" "Low" 3] <->
   outputs (run (Parsed (PDict Cases.stray_report_entries))) <> no_files) /\
  (forall before det after e,
      [Samples.finding "reentrancy" "High" 12; PStr "stray";
       Samples.finding "timestamp" "Low" 3] = before ++ det :: after ->
      Forall (fun x => accepted x = true) before ->
      step agg_init det = Raise e ->
      run (Parsed (PDict Cases.stray_report_entries)) = crash e) /\
  (forall det, is_dict det = false -> step agg_init det = Raise AttributeError) /\
  (forall d, plain (check_of d) = false -> step agg_init (PDict d) = Raise TypeError).
Proof.
  apply (one_bad_finding_stops_the_run Cases.stray_report_entries); reflexivity.
Defined.

Section Defaults.

Lemma py_hash_plain (v : pyval) : plain v = true -> exists k, py_hash v = Ok k.
Proof. destruct v; try done; by eexists. Qed.

Lemma py_or_plain (a b : pyval) : plain a = true -> plain b = true -> plain (py_or a b) = true.
Proof. unfold py_or. by destruct (truthy a). Qed.

Lemma mapM_trim_dicts (es : list pyval) :
  Forall (fun e => is_dict e = true) es ->
  exists new_elems, mapM trim_element es = Ok new_elems /\ length new_elems = length es.
Proof.
  induction 1 as [|e es He _ (new_elems & Hnew & Hlen)]; [by exists []|].
  destruct e as [| | | | |d]; try done. cbn [mapM]. unfold trim_element at 1.
  cbn [py_dict Py.bind]. rewrite Hnew. cbn [Py.bind]. eexists. split; [done|].
  cbn. by rewrite Hlen.
Qed.

End Defaults.

(** X4. Missing or null fields never stop the loop.  A finding whose
    [check], [impact] and [confidence] are missing, null, or anything but a
    list or a mapping, and whose [elements] are missing, null, empty or a list
    of mappings, is accepted; a falsy [check] counts as ["unknown"], a falsy
    [impact] or [confidence] as the empty string; the trimmed copy is the
    finding with [elements] set to a list of as many elements. *)
Theorem missing_fields_are_defaulted (d : dict) (es : list pyval) :
  plain (get d "check") = true ->
  plain (get d "impact") = true ->
  plain (get d "confidence") = true ->
  py_or (get d "elements") (PList []) = PList es ->
  Forall (fun e => is_dict e = true) es ->
  accepted (PDict d) = true /\
  exists c i f new_elems,
    keys_of (PDict d) = Ok (c, i, f) /\
    (truthy (get d "check") = false -> c = KStr "unknown") /\
    (truthy (get d "impact") = false -> i = KStr "") /\
    (truthy (get d "confidence") = false -> f = KStr "") /\
    trim_finding (PDict d) = Ok (PDict (set_key (KStr "elements") (PList new_elems) d)) /\
    length new_elems = length es.
Proof.
  intros Hc Hi Hf Hes Hdicts.
  destruct (py_hash_plain (check_of d)) as [c Hhc]; [by apply py_or_plain|].
  destruct (py_hash_plain (impact_of d)) as [i Hhi]; [by apply py_or_plain|].
  destruct (py_hash_plain (confidence_of d)) as [f Hhf]; [by apply py_or_plain|].
  destruct (mapM_trim_dicts es Hdicts) as (new_elems & Hnew & Hlen).
  assert (keys_of (PDict d) = Ok (c, i, f)) as Hkeys.
  { unfold keys_of. cbn [as_dict Py.bind]. by rewrite Hhc, Hhi, Hhf. }
  assert (trim_finding (PDict d) =
          Ok (PDict (set_key (KStr "elements") (PList new_elems) d))) as Htrim.
  { unfold trim_finding, trim_detector. cbn [as_dict Py.bind]. rewrite Hes.
    cbn [py_iter Py.bind]. by rewrite Hnew. }
  split; [unfold accepted; by rewrite Hkeys, Htrim|].
  exists c, i, f, new_elems. split; [done|].
  split; [|split; [|split; [|by split]]]; intros Hfalsy.
  - unfold check_of, py_or in Hhc. rewrite Hfalsy in Hhc. by injection Hhc.
  - unfold impact_of, py_or in Hhi. rewrite Hfalsy in Hhi. by injection Hhi.
  - unfold confidence_of, py_or in Hhf. rewrite Hfalsy in Hhf. by injection Hhf.
Qed.

Lemma missing_fields_are_defaulted_witness :
  accepted (PDict [(KStr "impact", PNone); (KStr "description", PStr "x")]) = true /\
  exists c i f new_elems,
    keys_of (PDict [(KStr "impact", PNone); (KStr "description", PStr "x")]) = Ok (c, i, f) /\
    (truthy (get [(KStr "impact", PNone); (KStr "description", PStr "x")] "check") = false ->
     c = KStr "unknown") /\
    (truthy (get [(KStr "impact", PNone); (KStr "description", PStr "x")] "impact") = false ->
     i = KStr "") /\
    (truthy (get [(KStr "impact", PNone); (KStr "description", PStr "x")] "confidence") = false ->
     f = KStr "") /\
    trim_finding (PDict [(KStr "impact", PNone); (KStr "description", PStr "x")]) =
      Ok (PDict (set_key (KStr "elements") (PList new_elems)
                         [(KStr "impact", PNone); (KStr "description", PStr "x")])) /\
    length new_elems = length (@nil pyval).
Proof.
  apply (missing_fields_are_defaulted [(KStr "impact", PNone); (KStr "description", PStr "x")] []);
    (reflexivity || constructor).
Defined.

(** ** What trimming keeps *)

Section Fields.

Lemma get_mem_key (d : dict) (name : string) :
  is_none (get d name) = false -> mem_key (KStr name) d = true.
Proof. unfold get, mem_key. by destruct (lookup_key (KStr name) d). Qed.

Lemma get_lookup (d : dict) (name : string) (v : pyval) :
  get d name = v -> is_none v = false -> lookup_key (KStr name) d = Some v.
Proof. unfold get. destruct (lookup_key (KStr name) d); [by intros -> | by intros <-]. Qed.

Lemma get_set_key_other (d : dict) (k : hkey) (name : string) (v : pyval) :
  key_eqb k (KStr name) = false -> get (set_key k v d) name = get d name.
Proof. intros Hk. unfold get, set_key. by rewrite lookup_alter_other. Qed.

(** [d[name] = v] on a dict that has the key: the keys stay as they are and
    the other values too. *)
Lemma same_except_set (rest : list string) (d : dict) (name : string) (v : pyval) :
  mem_key (KStr name) d = true ->
  same_except rest (get d name) v ->
  same_except (name :: rest) (PDict d) (PDict (set_key (KStr name) v d)).
Proof.
  intros Hmem Hrest. right. exists d, (set_key (KStr name) v d).
  split; [done|]. split; [done|]. split; [|split].
  - unfold set_key. by rewrite alter_key_keys, Hmem.
  - intros k Hk. unfold set_key. apply lookup_alter_other. by rewrite key_eqb_sym.
  - by rewrite get_set_key.
Qed.

(** Lines 75-81 change nothing but [source_mapping.lines]. *)
Lemma trim_source_mapping_same (d : dict) :
  same_except ["source_mapping"; "lines"]%string (PDict d) (PDict (trim_source_mapping d)).
Proof.
  unfold trim_source_mapping.
  destruct (get d "source_mapping") as [| | | | |sm] eqn:Hsm; try by left.
  destruct (is_none (get sm "lines")) eqn:Hl; [by left|].
  apply same_except_set; [apply get_mem_key; by rewrite Hsm|].
  rewrite Hsm. apply same_except_set; [by apply get_mem_key | done].
Qed.

(** Lines 83-95 change nothing but
    [type_specific_fields.parent.source_mapping.lines]. *)
Lemma trim_parent_same (d : dict) :
  same_except ["type_specific_fields"; "parent"; "source_mapping"; "lines"]%string
              (PDict d) (PDict (trim_parent d)).
Proof.
  unfold trim_parent, py_or.
  destruct (truthy (get d "type_specific_fields")) eqn:Htruthy; [|by left].
  destruct (get d "type_specific_fields") as [| | | | |tsf] eqn:Htsf; try by left.
  destruct (get tsf "parent") as [| | | | |parent] eqn:Hparent; try by left.
  destruct (get parent "source_mapping") as [| | | | |psm] eqn:Hpsm; try by left.
  destruct (mem_key (KStr "lines") psm) eqn:Hmem; [|by left].
  apply same_except_set; [apply get_mem_key; by rewrite Htsf|]. rewrite Htsf.
  apply same_except_set; [apply get_mem_key; by rewrite Hparent|]. rewrite Hparent.
  apply same_except_set; [apply get_mem_key; by rewrite Hpsm|]. rewrite Hpsm.
  by apply same_except_set.
Qed.

(** What [same_except] says of the keys and of the other fields. *)
Lemma same_except_keys (name : string) (rest : list string) (d d' : dict) :
  same_except (name :: rest) (PDict d) (PDict d') ->
  map fst d' = map fst d /\
  forall k, key_eqb k (KStr name) = false -> lookup_key k d' = lookup_key k d.
Proof.
  intros [[= ->]|(d0 & d0' & [= <-] & [= <-] & Hk & Hv & _)]; by split.
Qed.

End Fields.

(** X5. The trimmed copy of an element that is a mapping (or a sequence
    of pairs, as [dict()] takes it) has the keys of the element in the same
    order, and the same value under every key but [source_mapping] and
    [type_specific_fields]; lines 75-81 change nothing outside
    [source_mapping.lines], and lines 83-95 nothing outside
    [type_specific_fields.parent.source_mapping.lines]: on the way down each
    dict keeps its keys, their order and its other values. *)
Theorem trimming_an_element_touches_lines_only (e : pyval) (d : dict) :
  py_dict e = Ok d ->
  exists mid d',
    trim_element e = Ok (PDict d') /\
    same_except ["source_mapping"; "lines"]%string (PDict d) (PDict mid) /\
    same_except ["type_specific_fields"; "parent"; "source_mapping"; "lines"]%string
                (PDict mid) (PDict d') /\
    map fst d' = map fst d /\
    (forall k, key_eqb k (KStr "source_mapping") = false ->
               key_eqb k (KStr "type_specific_fields") = false ->
               lookup_key k d' = lookup_key k d).
Proof.
  intros He. exists (trim_source_mapping d), (trim_parent (trim_source_mapping d)).
  unfold trim_element. rewrite He. cbn [Py.bind].
  pose proof (trim_source_mapping_same d) as H1.
  pose proof (trim_parent_same (trim_source_mapping d)) as H2.
  do 3 (split; [done|]).
  destruct (same_except_keys _ _ _ _ H1) as [Hk1 Hv1].
  destruct (same_except_keys _ _ _ _ H2) as [Hk2 Hv2].
  split; [by rewrite Hk2|]. intros k Hsm Htsf. by rewrite Hv2, Hv1.
Qed.

Lemma trimming_an_element_touches_lines_only_witness :
  exists mid d',
    trim_element (PDict Cases.nested_element) = Ok (PDict d') /\
    same_except ["source_mapping"; "lines"]%string (PDict Cases.nested_element) (PDict mid) /\
    same_except ["type_specific_fields"; "parent"; "source_mapping"; "lines"]%string
                (PDict mid) (PDict d') /\
    map fst d' = map fst Cases.nested_element /\
    (forall k, key_eqb k (KStr "source_mapping") = false ->
               key_eqb k (KStr "type_specific_fields") = false ->
               lookup_key k d' = lookup_key k Cases.nested_element).
Proof.
  apply (trimming_an_element_touches_lines_only (PDict Cases.nested_element)). reflexivity.
Defined.

Section Lines.

Lemma summarize_lines_not_list (v : pyval) : is_list (summarize_lines v) = false.
Proof. destruct v as [| | | |l|]; try done. cbn. by destruct (length l <=? 10)%nat. Qed.

Lemma summarize_lines_twice (v : pyval) :
  summarize_lines (summarize_lines v) = summarize_lines v.
Proof. destruct v as [| | | |l|]; try done. cbn. by destruct (length l <=? 10)%nat. Qed.

Lemma summarize_lines_none (v : pyval) :
  is_none (summarize_lines v) = is_none v.
Proof. destruct v as [| | | |l|]; try done. cbn. by destruct (length l <=? 10)%nat. Qed.

Lemma own_lines_trim_source_mapping (d : dict) :
  own_lines (trim_source_mapping d) = summarize_lines (own_lines d).
Proof.
  unfold own_lines, trim_source_mapping.
  destruct (get d "source_mapping") as [| | | | |sm] eqn:Hsm; rewrite ?Hsm; try done.
  destruct (is_none (get sm "lines")) eqn:Hl.
  - rewrite Hsm. by destruct (get sm "lines").
  - by rewrite !get_set_key.
Qed.

Lemma parent_lines_trim_source_mapping (d : dict) :
  parent_lines (trim_source_mapping d) = parent_lines d.
Proof.
  unfold parent_lines, trim_source_mapping.
  destruct (get d "source_mapping") as [| | | | |sm]; try done.
  destruct (is_none (get sm "lines")); [done|].
  by rewrite get_set_key_other.
Qed.

Lemma own_lines_trim_parent (d : dict) : own_lines (trim_parent d) = own_lines d.
Proof.
  unfold own_lines, trim_parent.
  destruct (py_or _ _) as [| | | | |tsf]; try done.
  destruct (get tsf "parent") as [| | | | |parent]; try done.
  destruct (get parent "source_mapping") as [| | | | |psm]; try done.
  destruct (mem_key (KStr "lines") psm); [|done].
  by rewrite get_set_key_other.
Qed.

Lemma parent_lines_trim_parent (d : dict) :
  parent_lines (trim_parent d) = summarize_lines (parent_lines d).
Proof.
  unfold parent_lines, trim_parent, py_or.
  destruct (truthy (get d "type_specific_fields")) eqn:Htruthy.
  - destruct (get d "type_specific_fields") as [| | | | |tsf] eqn:Htsf; rewrite ?Htsf; try done.
    destruct (get tsf "parent") as [| | | | |parent] eqn:Hparent;
      rewrite ?Htsf, ?Hparent; try done.
    destruct (get parent "source_mapping") as [| | | | |psm] eqn:Hpsm;
      rewrite ?Htsf, ?Hparent, ?Hpsm; try done.
    destruct (mem_key (KStr "lines") psm) eqn:Hmem.
    + by rewrite !get_set_key.
    + rewrite Htsf, Hparent, Hpsm. unfold mem_key in Hmem. unfold get.
      by destruct (lookup_key (KStr "lines") psm).
  - cbn. destruct (get d "type_specific_fields") as [| | | | |tsf] eqn:Htsf; try done.
    destruct tsf; [done | discriminate].
Qed.

End Lines.

(** X6. In the trimmed copy of an element, what stands at
    [source_mapping.lines] and at
    [type_specific_fields.parent.source_mapping.lines] is [summarize_lines]
    of what stood there; so no list is left at either place. *)
Theorem no_list_of_lines_is_left (e : pyval) (d : dict) :
  py_dict e = Ok d ->
  exists d',
    trim_element e = Ok (PDict d') /\
    own_lines d' = summarize_lines (own_lines d) /\
    parent_lines d' = summarize_lines (parent_lines d) /\
    is_list (own_lines d') = false /\
    is_list (parent_lines d') = false.
Proof.
  intros He. exists (trim_parent (trim_source_mapping d)).
  unfold trim_element. rewrite He. cbn [Py.bind]. split; [done|].
  assert (own_lines (trim_parent (trim_source_mapping d)) = summarize_lines (own_lines d)) as Ho.
  { by rewrite own_lines_trim_parent, own_lines_trim_source_mapping. }
  assert (parent_lines (trim_parent (trim_source_mapping d)) =
          summarize_lines (parent_lines d)) as Hp.
  { by rewrite parent_lines_trim_parent, parent_lines_trim_source_mapping. }
  rewrite Ho, Hp. by rewrite !summarize_lines_not_list.
Qed.

Lemma no_list_of_lines_is_left_witness :
  exists d',
    trim_element (PDict Cases.nested_element) = Ok (PDict d') /\
    own_lines d' = summarize_lines (own_lines Cases.nested_element) /\
    parent_lines d' = summarize_lines (parent_lines Cases.nested_element) /\
    is_list (own_lines d') = false /\
    is_list (parent_lines d') = false.
Proof.
  apply (no_list_of_lines_is_left (PDict Cases.nested_element)). reflexivity.
Defined.

(** X7. The trimmed copy of a finding is a mapping with an [elements]
    list, even when the finding has none (the key then goes last): it holds
    the trimmed copy of each element, in order, and is empty when [elements]
    is missing, null or empty.  Every other field has the value it has in the
    finding. *)
Theorem trimmed_finding_fields (det t : pyval) :
  trim_finding det = Ok t ->
  exists d d' elems new_elems,
    det = PDict d /\ t = PDict d' /\
    py_iter (py_or (get d "elements") (PList [])) = Ok elems /\
    get d' "elements" = PList new_elems /\
    Forall2 (fun e n => trim_element e = Ok n) elems new_elems /\
    (truthy (get d "elements") = false -> new_elems = []) /\
    (forall k, key_eqb k (KStr "elements") = false -> lookup_key k d' = lookup_key k d) /\
    map fst d' = (if mem_key (KStr "elements") d then map fst d
                  else map fst d ++ [KStr "elements"]).
Proof.
  unfold trim_finding, trim_detector.
  destruct det as [| | | | |d]; try done. cbn [as_dict Py.bind].
  destruct (py_iter (py_or (get d "elements") (PList []))) as [elems|] eqn:Hiter;
    cbn [Py.bind]; [|done].
  destruct (mapM trim_element elems) as [new_elems|] eqn:Hmap; cbn [Py.bind]; [|done].
  intros [= <-]. exists d, (set_key (KStr "elements") (PList new_elems) d), elems, new_elems.
  split; [done|]. split; [done|]. split; [done|]. split; [apply get_set_key|].
  split; [by apply mapM_Forall2|]. split; [|split].
  - intros Hfalsy. unfold py_or in Hiter. rewrite Hfalsy in Hiter.
    injection Hiter as <-. by injection Hmap as <-.
  - intros k Hk. unfold set_key. apply lookup_alter_other. by rewrite key_eqb_sym.
  - unfold set_key. apply alter_key_keys.
Qed.

Lemma trimmed_finding_fields_witness :
  exists d d' elems new_elems,
    Cases.numbered = PDict d /\
    PDict (Cases.numbered_entries ++ [(KStr "elements", PList [])]) = PDict d' /\
    py_iter (py_or (get d "elements") (PList [])) = Ok elems /\
    get d' "elements" = PList new_elems /\
    Forall2 (fun e n => trim_element e = Ok n) elems new_elems /\
    (truthy (get d "elements") = false -> new_elems = []) /\
    (forall k, key_eqb k (KStr "elements") = false -> lookup_key k d' = lookup_key k d) /\
    map fst d' = (if mem_key (KStr "elements") d then map fst d
                  else map fst d ++ [KStr "elements"]).
Proof.
  apply (trimmed_finding_fields Cases.numbered). reflexivity.
Defined.

(** ** A second run *)

Section Again.

Lemma truthy_set_key (k : hkey) (v : pyval) (d : dict) :
  truthy (PDict (set_key k v d)) = true.
Proof. destruct d as [|[k0 v0] d]; [done|]. cbn. by destruct (key_eqb k0 k). Qed.

Lemma lookup_set_key (k : hkey) (v : pyval) (d : dict) :
  lookup_key k (set_key k v d) = Some v.
Proof. unfold set_key. by rewrite lookup_alter_same. Qed.

Lemma lookup_set_key_other (k k' : hkey) (v : pyval) (d : dict) :
  key_eqb k k' = false -> lookup_key k' (set_key k v d) = lookup_key k' d.
Proof. intros Hk. unfold set_key. by apply lookup_alter_other. Qed.

Lemma set_key_twice (k : hkey) (v : pyval) (d : dict) :
  set_key k v (set_key k v d) = set_key k v d.
Proof. apply set_key_same, lookup_set_key. Qed.

Lemma mem_set_key (k : hkey) (v : pyval) (d : dict) : mem_key k (set_key k v d) = true.
Proof. unfold mem_key. by rewrite lookup_set_key. Qed.

(** An element whose own [lines] are summarized is left as it is by lines
    75-81, whatever else is set in it under another key. *)
Lemma trim_source_mapping_twice (d : dict) :
  trim_source_mapping (trim_source_mapping d) = trim_source_mapping d.
Proof.
  unfold trim_source_mapping at 2 3.
  destruct (get d "source_mapping") as [| | | | |sm] eqn:Hsm;
    try (unfold trim_source_mapping; by rewrite Hsm).
  destruct (is_none (get sm "lines")) eqn:Hl;
    [unfold trim_source_mapping; by rewrite Hsm, Hl|].
  unfold trim_source_mapping. rewrite get_set_key, get_set_key.
  rewrite summarize_lines_none, Hl, summarize_lines_twice.
  by rewrite set_key_twice, set_key_twice.
Qed.

Lemma trim_source_mapping_set_other (d : dict) (k : hkey) (v : pyval) :
  key_eqb k (KStr "source_mapping") = false ->
  trim_source_mapping d = d ->
  trim_source_mapping (set_key k v d) = set_key k v d.
Proof.
  intros Hk. unfold trim_source_mapping. rewrite (get_set_key_other _ _ _ _ Hk).
  destruct (get d "source_mapping") as [| | | | |sm]; try done.
  destruct (is_none (get sm "lines")); [done|].
  intros Hfix. apply set_key_same.
  rewrite lookup_set_key_other by done.
  rewrite <- Hfix at 1. apply lookup_set_key.
Qed.

Lemma trim_source_mapping_trim_parent (d : dict) :
  trim_source_mapping d = d -> trim_source_mapping (trim_parent d) = trim_parent d.
Proof.
  intros Hfix. unfold trim_parent.
  destruct (py_or _ _) as [| | | | |tsf]; try done.
  destruct (get tsf "parent") as [| | | | |parent]; try done.
  destruct (get parent "source_mapping") as [| | | | |psm]; try done.
  destruct (mem_key (KStr "lines") psm); [|done].
  by apply trim_source_mapping_set_other.
Qed.

Lemma trim_parent_twice (d : dict) : trim_parent (trim_parent d) = trim_parent d.
Proof.
  unfold trim_parent at 2 3. unfold py_or.
  destruct (truthy (get d "type_specific_fields")) eqn:Htruthy.
  2:{ cbn. unfold trim_parent, py_or. by rewrite Htruthy. }
  destruct (get d "type_specific_fields") as [| | | | |tsf] eqn:Htsf;
    try (unfold trim_parent, py_or; by rewrite Htsf, Htruthy).
  destruct (get tsf "parent") as [| | | | |parent] eqn:Hparent;
    try (unfold trim_parent, py_or; by rewrite Htsf, Htruthy, Hparent).
  destruct (get parent "source_mapping") as [| | | | |psm] eqn:Hpsm;
    try (unfold trim_parent, py_or; by rewrite Htsf, Htruthy, Hparent, Hpsm).
  destruct (mem_key (KStr "lines") psm) eqn:Hmem;
    [|unfold trim_parent, py_or; by rewrite Htsf, Htruthy, Hparent, Hpsm, Hmem].
  unfold trim_parent, py_or. rewrite get_set_key, truthy_set_key.
  rewrite !get_set_key, mem_set_key, summarize_lines_twice.
  by rewrite !set_key_twice.
Qed.

Lemma trim_element_twice (e t : pyval) : trim_element e = Ok t -> trim_element t = Ok t.
Proof.
  unfold trim_element. destruct (py_dict e) as [d|]; cbn [Py.bind]; [|done].
  intros [= <-]. cbn [py_dict Py.bind].
  rewrite trim_source_mapping_trim_parent by apply trim_source_mapping_twice.
  by rewrite trim_parent_twice.
Qed.

Lemma mapM_fixed {A : Type} (f : A -> result A) (l k : list A) :
  (forall x y, f x = Ok y -> f y = Ok y) -> mapM f l = Ok k -> mapM f k = Ok k.
Proof.
  intros Hf H%mapM_Forall2. apply mapM_Forall2.
  induction H as [|x y l k Hxy _ IH]; constructor; [by eapply Hf | done].
Qed.

Lemma py_or_list (l : list pyval) : py_iter (py_or (PList l) (PList [])) = Ok l.
Proof. by destruct l. Qed.

Lemma trim_finding_twice (det t : pyval) : trim_finding det = Ok t -> trim_finding t = Ok t.
Proof.
  unfold trim_finding, trim_detector.
  destruct det as [| | | | |d]; try done. cbn [as_dict Py.bind].
  destruct (py_iter (py_or (get d "elements") (PList []))) as [elems|]; cbn [Py.bind]; [|done].
  destruct (mapM trim_element elems) as [new_elems|] eqn:Hmap; cbn [Py.bind]; [|done].
  intros [= <-]. cbn [as_dict Py.bind]. rewrite get_set_key, py_or_list. cbn [Py.bind].
  rewrite (mapM_fixed _ _ _ trim_element_twice Hmap). cbn [Py.bind].
  by rewrite set_key_twice.
Qed.

End Again.

Section SecondRun.

Lemma trim_finding_get (det t : pyval) (d d' : dict) (name : string) :
  trim_finding det = Ok t -> det = PDict d -> t = PDict d' ->
  key_eqb (KStr "elements") (KStr name) = false ->
  lookup_key (KStr name) d' = lookup_key (KStr name) d.
Proof.
  unfold trim_finding, trim_detector. intros H -> ->. cbn [as_dict Py.bind] in H.
  destruct (py_iter _) as [elems|]; cbn [Py.bind] in H; [|done].
  destruct (mapM trim_element elems) as [new_elems|]; cbn [Py.bind] in H; [|done].
  injection H as <-. intros Hk. by apply lookup_set_key_other.
Qed.

Lemma trim_finding_dicts (det t : pyval) :
  trim_finding det = Ok t -> exists d d', det = PDict d /\ t = PDict d'.
Proof.
  unfold trim_finding, trim_detector. destruct det as [| | | | |d]; try done.
  cbn [as_dict Py.bind].
  destruct (py_iter _) as [elems|]; cbn [Py.bind]; [|done].
  destruct (mapM trim_element elems) as [new_elems|]; cbn [Py.bind]; [|done].
  intros [= <-]. by eexists _, _.
Qed.

(** Trimming leaves what the counters and the summary read of a finding. *)
Lemma keys_of_trimmed (det t : pyval) : trim_finding det = Ok t -> keys_of t = keys_of det.
Proof.
  intros Ht. destruct (trim_finding_dicts _ _ Ht) as (d & d' & -> & ->).
  unfold keys_of, check_of, impact_of, confidence_of, get. cbn [as_dict Py.bind].
  by rewrite !(trim_finding_get _ _ d d' _ Ht eq_refl eq_refl).
Qed.

Lemma write_example_trimmed (det t : pyval) :
  trim_finding det = Ok t -> write_example t = write_example det.
Proof.
  intros Ht. destruct (trim_finding_dicts _ _ Ht) as (d & d' & -> & ->).
  unfold write_example, get_default, get. cbn [as_dict].
  by rewrite !(trim_finding_get _ _ d d' _ Ht eq_refl eq_refl).
Qed.

Lemma keep_example_again (check : hkey) (det t : pyval) ex ex' :
  trim_finding det = Ok t ->
  Forall2 (fun a b => fst b = fst a /\
                      Forall2 (fun x t => trim_finding x = Ok t) (snd a) (snd b)) ex ex' ->
  Forall2 (fun a b => fst b = fst a /\
                      Forall2 (fun x t => trim_finding x = Ok t) (snd a) (snd b))
          (keep_example check det ex) (keep_example check t ex').
Proof.
  intros Ht H. unfold keep_example.
  induction H as [|[k exs] [k' exs'] ex ex' [Hk Hexs] Htl IH]; cbn [alter_key fst snd] in *.
  - constructor; [|constructor]. split; [done|]. cbn. by repeat constructor.
  - subst k'. destruct (key_eqb k check).
    + constructor; [|done]. split; [done|]. cbn [fst snd default from_option id].
      rewrite <- (Forall2_length _ _ _ Hexs).
      destruct (length exs <? 3)%nat; [|done].
      apply Forall2_app; [done | by repeat constructor].
    + constructor; [done | exact IH].
Qed.

Lemma step_again (st st' st1 : agg) (det t : pyval) :
  trim_finding det = Ok t -> tables_again st st' -> step st det = Ok st1 ->
  exists st1', step st' t = Ok st1' /\ tables_again st1 st1'.
Proof.
  intros Ht (Hc & Hi & Hf & Htr & Hex) Hstep.
  apply step_Ok in Hstep as (c & i & cf & t0 & Hk & Ht0 & ->).
  rewrite Ht in Ht0. injection Ht0 as <-.
  eexists. split.
  - apply step_Ok. exists c, i, cf, t. split; [by rewrite (keys_of_trimmed det t Ht)|].
    split; [by apply (trim_finding_twice det) | reflexivity].
  - unfold tables_again. cbn. rewrite Hc, Hi, Hf, Htr. do 4 (split; [done|]).
    by apply keep_example_again.
Qed.

Lemma foldM_again (dets ts : list pyval) (st st' st1 : agg) :
  Forall2 (fun x t => trim_finding x = Ok t) dets ts ->
  tables_again st st' -> foldM step st dets = Ok st1 ->
  exists st1', foldM step st' ts = Ok st1' /\ tables_again st1 st1'.
Proof.
  intros H. revert st st'. induction H as [|det t dets ts Ht _ IH]; intros st st' Hst;
    cbn [foldM].
  - intros [= <-]. by exists st'.
  - destruct (step st det) as [st2|] eqn:Hstep; cbn [Py.bind]; [|done].
    destruct (step_again _ _ _ _ _ Ht Hst Hstep) as (st2' & -> & Hst2). cbn [Py.bind].
    by apply IH.
Qed.

Lemma for_each_ext {A B : Type} (f : A -> written) (g : B -> written) (l : list A) (k : list B) :
  Forall2 (fun a b => g b = f a) l k -> for_each g k = for_each f l.
Proof. induction 1 as [|a b l k Hab _ IH]; cbn [for_each]; [done | by rewrite Hab, IH]. Qed.

Lemma write_md_again (st st' : agg) : tables_again st st' -> write_md st' = write_md st.
Proof.
  intros (Hc & _ & _ & _ & Hex). unfold write_md. rewrite Hc. f_equal.
  apply for_each_ext. apply Forall2_take.
  eapply Forall2_impl; [exact Hex|]. intros [k exs] [k' exs'] [Hk Hexs]. cbn in Hk, Hexs.
  subst k'. unfold write_section. cbn [fst snd]. rewrite Hc. do 2 f_equal.
  apply for_each_ext. eapply Forall2_impl; [exact Hexs|].
  intros x t. apply write_example_trimmed.
Qed.

Lemma write_csv_again (st st' : agg) : tables_again st st' -> write_csv st' = write_csv st.
Proof.
  intros (Hc & Hi & Hf & _). unfold write_csv. rewrite Hc. do 2 f_equal.
  unfold csv_row. by rewrite Hi, Hf.
Qed.

End SecondRun.

(** X8. Trimming a trimmed finding gives the same finding; and trimming
    changes nothing of what the counters read of a finding ([check],
    [impact], [confidence]) or of what the summary prints of it. *)
Theorem trimming_twice_changes_nothing (det t : pyval) :
  trim_finding det = Ok t ->
  trim_finding t = Ok t /\
  keys_of t = keys_of det /\
  write_example t = write_example det.
Proof.
  intros Ht. split; [by apply (trim_finding_twice det)|].
  split; [by apply keys_of_trimmed | by apply write_example_trimmed].
Qed.

Lemma trimming_twice_changes_nothing_witness :
  trim_finding Cases.trimmed_nested_finding = Ok Cases.trimmed_nested_finding /\
  keys_of Cases.trimmed_nested_finding = keys_of Cases.nested_finding /\
  write_example Cases.trimmed_nested_finding = write_example Cases.nested_finding.
Proof.
  apply (trimming_twice_changes_nothing Cases.nested_finding). vm_compute. reflexivity.
Defined.

(** X9. The trimmed report is a fixed point of the script: run on the
    trimmed report it wrote, the script ends with the same status and the
    same messages, and writes the same three files, the trimmed report being
    its own input. *)
Theorem rerun_on_trimmed_report (input : input_file) (report : pyval) :
  trimmed_json (outputs (run input)) = Some report ->
  run (Parsed report) = run input /\
  trimmed_json (outputs (run (Parsed report))) = Some report.
Proof.
  intros Hreport.
  destruct (run_wrote input) as (data & dets & st & -> & Hnone & Hiter & Hagg).
  { intros Hno. by rewrite Hno in Hreport. }
  pose proof (run_after_loop _ _ _ Hnone Hiter Hagg) as Hrun.
  assert (report = build_trimmed data (fst (locate data)) (trimmed_detectors st)) as ->.
  { rewrite Hrun in Hreport. by injection Hreport. }
  assert (forall r, run (Parsed (build_trimmed data (fst (locate data)) (trimmed_detectors st))) = r ->
                    r = run (Parsed (PDict data)) ->
                    run (Parsed (build_trimmed data (fst (locate data)) (trimmed_detectors st)))
                    = run (Parsed (PDict data)) /\
                    trimmed_json (outputs (run (Parsed (build_trimmed data (fst (locate data))
                                                          (trimmed_detectors st))))) =
                    Some (build_trimmed data (fst (locate data)) (trimmed_detectors st)))
    as Hgoal.
  { intros r Hr Heq. split; [by rewrite Hr|]. rewrite Hr, Heq, Hrun. reflexivity. }
  eapply Hgoal; [reflexivity|]. clear Hgoal Hreport.
  pose proof (aggregate_trimmed _ _ Hagg) as Hts%mapM_Forall2.
  destruct (foldM_again dets (trimmed_detectors st) agg_init agg_init st Hts)
    as (st' & Hagg' & Hst'); [by repeat split | exact Hagg |].
  unfold build_trimmed.
  set (tr := set_key (KStr "detectors") (PList (trimmed_detectors st)) _).
  set (entries' := set_key (KStr "results") (PDict tr) data).
  assert (locate entries' = (PDict tr, PList (trimmed_detectors st))) as Hloc.
  { unfold locate, entries'. rewrite get_set_key. unfold py_or.
    assert (truthy (PDict tr) = true) as -> by apply truthy_set_key.
    cbv zeta. f_equal. apply get_set_key. }
  rewrite (run_after_loop entries' (trimmed_detectors st) st');
    [|by rewrite Hloc..|exact Hagg'].
  rewrite Hrun, Hloc. cbn [fst snd].
  rewrite (write_md_again _ _ Hst'), (write_csv_again _ _ Hst').
  destruct Hst' as (_ & _ & _ & -> & _).
  do 3 f_equal. unfold build_trimmed, entries', tr. by rewrite !set_key_twice.
Qed.

Lemma rerun_on_trimmed_report_witness :
  run (Parsed (build_trimmed Samples.report_entries
                 (PDict [(KStr "detectors", PList Samples.findings)])
                 (trimmed_detectors Samples.tables))) = run (Parsed Samples.report) /\
  trimmed_json (outputs (run (Parsed (build_trimmed Samples.report_entries
                 (PDict [(KStr "detectors", PList Samples.findings)])
                 (trimmed_detectors Samples.tables))))) =
  Some (build_trimmed Samples.report_entries
                 (PDict [(KStr "detectors", PList Samples.findings)])
                 (trimmed_detectors Samples.tables)).
Proof.
  apply (rerun_on_trimmed_report (Parsed Samples.report)). vm_compute. reflexivity.
Defined.

(** ** No finding *)

(** X10. A findings collection that yields nothing (an empty list, and
    also an empty mapping or an empty string) is no failure: the run ends
    with status 0, the CSV table is the header line alone, the summary has
    its six fixed lines with zero findings and zero detectors, and the
    trimmed report is built from no finding; for the empty list, it is the
    input document itself. *)
Theorem report_without_findings (data : dict) :
  is_none (snd (locate data)) = false ->
  py_iter (snd (locate data)) = Ok [] ->
  run (Parsed (PDict data)) =
  {| ended := Exit 0;
     stdout := [TrimmedWritten; SummaryWritten; CountsWritten];
     outputs :=
       {| trimmed_json := Some (build_trimmed data (fst (locate data)) []);
          counts_csv := Some csv_header;
          summary_md := Some [MdTitle; MdTotal 0; MdUnique 0; MdTopHeading;
                              MdBlank; MdExamplesHeading] |} |} /\
  (snd (locate data) = PList [] ->
   build_trimmed data (fst (locate data)) [] = PDict data).
Proof.
  intros Hnone Hiter. split.
  - by rewrite (run_after_loop data [] agg_init Hnone Hiter eq_refl).
  - unfold locate, build_trimmed, py_or. cbn [fst snd].
    destruct (truthy (get data "results")) eqn:Htruthy; [|done].
    destruct (get data "results") as [| | | |l|r] eqn:Hres; try done.
    + intros [= ->]. done.
    + intros Hdet. f_equal.
      rewrite (set_key_same (KStr "detectors") (PList []) r).
      * apply set_key_same. apply get_lookup; [done | done].
      * by apply get_lookup.
Qed.

Lemma report_without_findings_witness :
  run (Parsed Samples.empty_report) =
  {| ended := Exit 0;
     stdout := [TrimmedWritten; SummaryWritten; CountsWritten];
     outputs :=
       {| trimmed_json := Some (build_trimmed [(KStr "results", PDict [(KStr "detectors", PList [])])]
                                  (fst (locate [(KStr "results", PDict [(KStr "detectors", PList [])])])) []);
          counts_csv := Some csv_header;
          summary_md := Some [MdTitle; MdTotal 0; MdUnique 0; MdTopHeading;
                              MdBlank; MdExamplesHeading] |} |} /\
  (snd (locate [(KStr "results", PDict [(KStr "detectors", PList [])])]) = PList [] ->
   build_trimmed [(KStr "results", PDict [(KStr "detectors", PList [])])]
     (fst (locate [(KStr "results", PDict [(KStr "detectors", PList [])])])) [] =
   PDict [(KStr "results", PDict [(KStr "detectors", PList [])])]).
Proof.
  apply (report_without_findings [(KStr "results", PDict [(KStr "detectors", PList [])])]);
    reflexivity.
Defined.

(** ** What a shallow copy shares *)

Module SharingFacts.
Import Store.
Import Sharing.

Section Inversion.
Implicit Types (h : store) (v x : val).

Lemma bind_inv {A B : Type} (m : M A) (k : A -> M B) h (b : B) h' :
  bind m k h = (Done b, h') -> exists a h1, m h = (Done a, h1) /\ k a h1 = (Done b, h').
Proof. unfold bind. destruct (m h) as [[a|f] h1]; [by exists a, h1 | done]. Qed.

Lemma bind_eq {A B : Type} (m : M A) (k : A -> M B) h (a : A) h1 :
  m h = (Done a, h1) -> bind m k h = k a h1.
Proof. unfold bind. by intros ->. Qed.

Lemma ret_inv {A : Type} (a b : A) h h' : ret a h = (Done b, h') -> b = a /\ h' = h.
Proof. by intros [= <- <-]. Qed.

Lemma deref_inv (l : nat) h (o : obj) h' :
  deref l h = (Done o, h') -> h' = h /\ h !! l = Some o.
Proof. unfold deref. destruct (h !! l); [by intros [= <- <-] | done]. Qed.

Lemma get_inv v (name : string) h x h' :
  get v name h = (Done x, h') ->
  h' = h /\
  exists l d, v = VRef l /\ h !! l = Some (ODict d) /\
              x = default VNone (lookup_key (KStr name) d).
Proof.
  destruct v as [| | | |l]; try done. cbn [get].
  intros (o & h1 & [-> Hl]%deref_inv & H)%bind_inv.
  destruct o as [items|d]; [done|]. apply ret_inv in H as [-> ->].
  split; [done|]. by exists l, d.
Qed.

Lemma is_dict_inv v h (b : bool) h' :
  is_dict v h = (Done b, h') ->
  h' = h /\ (b = true -> exists l d, v = VRef l /\ h !! l = Some (ODict d)).
Proof.
  destruct v as [| | | |l]; try (by intros [= <- <-]). cbn [is_dict].
  intros (o & h1 & [-> Hl]%deref_inv & [-> ->]%ret_inv)%bind_inv.
  split; [done|]. destruct o as [items|d]; [done|]. intros _. by exists l, d.
Qed.

Lemma truthy_inv v h (b : bool) h' : truthy v h = (Done b, h') -> h' = h.
Proof.
  destruct v as [| | | |l]; try (by intros [= <- <-]). cbn [truthy].
  by intros (o & h1 & [-> Hl]%deref_inv & [-> ->]%ret_inv)%bind_inv.
Qed.

Lemma contains_inv v (name : string) h (b : bool) h' :
  contains v name h = (Done b, h') -> h' = h.
Proof.
  destruct v as [| | | |l]; try done; try (by intros [= <- <-]). cbn [contains].
  intros (o & h1 & [-> Hl]%deref_inv & H)%bind_inv.
  destruct o; by apply ret_inv in H as [_ ->].
Qed.

Lemma dict_copy_eq (l : nat) h d :
  h !! l = Some (ODict d) ->
  dict_copy (VRef l) h = (Done (VRef (length h)), h ++ [ODict d]).
Proof.
  intros Hl. unfold dict_copy, is_dict, bind, deref, ret, alloc. rewrite Hl. by rewrite Hl.
Qed.

Lemma set_item_at (l : nat) h d (name : string) x :
  h !! l = Some (ODict d) ->
  set_item (VRef l) name x h = (Done tt, <[l := ODict (set_key (KStr name) x d)]> h).
Proof. intros Hl. unfold set_item, bind, deref. rewrite Hl. unfold update. by rewrite Hl. Qed.

Lemma append_inv v x h h' :
  append v x h = (Done tt, h') ->
  exists l items, v = VRef l /\ h !! l = Some (OList items) /\
                  h' = <[l := OList (items ++ [x])]> h.
Proof.
  destruct v as [| | | |l]; try done. cbn [append].
  intros (o & h1 & [-> Hl]%deref_inv & H)%bind_inv.
  destruct o as [items|d]; [|done]. exists l, items. split; [done|]. split; [done|].
  unfold update in H. rewrite Hl in H. by injection H as <-.
Qed.

(** [summarize_lines] only adds objects. *)
Lemma summarize_lines_inv (lines : val) h s h' :
  summarize_lines lines h = (Done s, h') -> h `prefix_of` h'.
Proof.
  intros H. destruct (StoreFacts.keeps_summarize_lines h lines h) as [Hp _]; [done|].
  by rewrite H in Hp.
Qed.

End Inversion.

Section Copies.
Implicit Types (h : store) (d : list (hkey * val)).

Lemma copy_of_refl h names d : copy_of h names d d.
Proof. split; [done | by left]. Qed.

Lemma copy_of_trans h names d1 d2 d3 :
  copy_of h names d1 d2 -> copy_of h names d2 d3 -> copy_of h names d1 d3.
Proof.
  intros [Hk1 Hv1] [Hk2 Hv2]. split; [by rewrite Hk2|]. intros k.
  destruct (Hv2 k) as [->|Hnew]; [apply Hv1 | by right].
Qed.

Lemma copy_of_mono h h' names names' d d' :
  (length h <= length h')%nat -> names ⊆ names' ->
  copy_of h' names d d' -> copy_of h names' d d'.
Proof.
  intros Hlen Hsub [Hk Hv]. split; [done|]. intros k.
  destruct (Hv k) as [->|[(name & Hin & Hname) (l & Hl & Hnew)]]; [by left|right].
  split; [exists name; split; [by apply Hsub | done]|]. exists l. split; [done | lia].
Qed.

(** A field that is there, set to a new object. *)
Lemma copy_of_set h names (name : string) d (l : nat) :
  mem_key (KStr name) d = true -> name ∈ names -> (length h <= l)%nat ->
  copy_of h names d (set_key (KStr name) (VRef l) d).
Proof.
  intros Hmem Hin Hl. split; [unfold set_key; by rewrite alter_key_keys, Hmem|].
  intros k. destruct (key_eqb (KStr name) k) eqn:Hk.
  - right. split; [exists name; by rewrite key_eqb_sym|]. exists l. split; [|done].
    rewrite <- (lookup_key_congr _ _ _ Hk). unfold set_key. by rewrite lookup_alter_same.
  - left. unfold set_key. by apply lookup_alter_other.
Qed.

Lemma lookup_default_mem (k : hkey) d (l : nat) :
  default VNone (lookup_key k d) = VRef l -> mem_key k d = true.
Proof. unfold mem_key. by destruct (lookup_key k d). Qed.

Lemma prefix_insert_new h h' (n : nat) (o : obj) :
  h `prefix_of` h' -> (length h <= n)%nat -> h `prefix_of` <[n := o]> h'.
Proof. intros [k ->] Hn. rewrite insert_app_r_alt by done. by eexists. Qed.

Lemma prefix_lookup h h' (l : nat) (o : obj) :
  h `prefix_of` h' -> h !! l = Some o -> h' !! l = Some o.
Proof. intros Hp Hl. by eapply prefix_lookup_Some. Qed.

(** Lines 75-81 on the copy at [L]: the copy keeps its fields, but for
    [source_mapping], which may become a new object; no other object of
    the store changes. *)
Lemma trim_source_mapping_copy h (L : nat) d h' :
  h !! L = Some (ODict d) ->
  trim_source_mapping (VRef L) h = (Done tt, h') ->
  exists d',
    h' !! L = Some (ODict d') /\
    copy_of h ["source_mapping"%string] d d' /\
    (length h <= length h')%nat /\
    (forall l, (l < length h)%nat -> l <> L -> h' !! l = h !! l).
Proof.
  intros HL H. unfold trim_source_mapping in H.
  apply bind_inv in H as (sm & h1 & [-> (l0 & d0 & [= <-] & Hd0 & Hsm)]%get_inv & H).
  rewrite HL in Hd0. injection Hd0 as <-.
  apply bind_inv in H as (b & h1 & [-> Hb]%is_dict_inv & H).
  destruct b.
  2:{ apply ret_inv in H as [_ ->]. exists d. split; [done|].
      split; [apply copy_of_refl|]. split; [lia | done]. }
  destruct (Hb eq_refl) as (ls & dsm & -> & Hls). clear Hb.
  apply bind_inv in H as (lines & h1 & [-> _]%get_inv & H).
  destruct (is_none lines).
  { apply ret_inv in H as [_ ->]. exists d. split; [done|].
    split; [apply copy_of_refl|]. split; [lia | done]. }
  rewrite (bind_eq _ _ _ _ _ (dict_copy_eq ls h dsm Hls)) in H.
  set (n := length h) in *. set (h1 := h ++ [ODict dsm]) in *.
  apply bind_inv in H as (summary & h2 & Hp%summarize_lines_inv & H).
  assert (h `prefix_of` h2) as Hp0.
  { etrans; [|exact Hp]. by apply prefix_app_r. }
  assert (h2 !! n = Some (ODict dsm)) as Hn.
  { eapply prefix_lookup; [exact Hp|]. by apply list_lookup_middle. }
  rewrite (bind_eq _ _ _ _ _ (set_item_at n h2 dsm "lines" summary Hn)) in H.
  set (h3 := <[n := _]> h2) in *.
  assert (h `prefix_of` h3) as Hp3 by (by apply prefix_insert_new).
  assert (h3 !! L = Some (ODict d)) as HL3 by (by eapply prefix_lookup).
  rewrite (set_item_at L h3 d "source_mapping" (VRef n) HL3) in H.
  injection H as <-.
  assert ((L < length h3)%nat) as HLlt by (by eapply lookup_lt_Some).
  exists (set_key (KStr "source_mapping") (VRef n) d).
  split; [by apply list_lookup_insert_eq|]. split; [|split].
  - apply copy_of_set; [by eapply lookup_default_mem | left | done].
  - rewrite length_insert. by apply prefix_length.
  - intros l Hl Hne. rewrite list_lookup_insert_ne by done.
    destruct (lookup_lt_is_Some_2 h l Hl) as [o Ho].
    rewrite Ho. by eapply prefix_lookup.
Qed.

(** A run that only added objects changed no field of the copy. *)
Lemma nothing_copied h h' (L : nat) d (names : list string) :
  h `prefix_of` h' -> h !! L = Some (ODict d) ->
  exists d',
    h' !! L = Some (ODict d') /\
    copy_of h names d d' /\
    (length h <= length h')%nat /\
    (forall l, (l < length h)%nat -> l <> L -> h' !! l = h !! l).
Proof.
  intros Hp HL. exists d. split; [by eapply prefix_lookup|].
  split; [apply copy_of_refl|]. split; [by apply prefix_length|].
  intros l Hl _. destruct (lookup_lt_is_Some_2 h l Hl) as [o Ho].
  rewrite Ho. by eapply prefix_lookup.
Qed.

(** Lines 83-95 on the copy at [L]: the copy keeps its fields, but for
    [type_specific_fields], which may become a new object; no other
    object of the store changes. *)
Lemma trim_parent_copy h (L : nat) d h' :
  h !! L = Some (ODict d) ->
  trim_parent (VRef L) h = (Done tt, h') ->
  exists d',
    h' !! L = Some (ODict d') /\
    copy_of h ["type_specific_fields"%string] d d' /\
    (length h <= length h')%nat /\
    (forall l, (l < length h)%nat -> l <> L -> h' !! l = h !! l).
Proof.
  intros HL H. unfold trim_parent in H.
  apply bind_inv in H as (tsf0 & h1 & [-> (l0 & d0 & [= <-] & Hd0 & Htsf0)]%get_inv & H).
  rewrite HL in Hd0. injection Hd0 as <-.
  apply bind_inv in H as (tsf & h2 & Hor & H).
  unfold or_else in Hor. apply bind_inv in Hor as (t & h1 & ->%truthy_inv & Hor).
  assert (h `prefix_of` h2 /\
          (tsf = tsf0 \/ exists n, tsf = VRef n /\ h2 !! n = Some (ODict []))) as [Hp2 Htsf].
  { destruct t.
    - apply ret_inv in Hor as [-> ->]. split; [done | by left].
    - injection Hor as <- <-. split; [by apply prefix_app_r|]. right.
      exists (length h). split; [done | by apply list_lookup_middle]. }
  clear Hor.
  apply bind_inv in H as (b & h3 & [-> Hb]%is_dict_inv & H).
  destruct b; [|apply ret_inv in H as [_ ->]; by apply nothing_copied].
  destruct (Hb eq_refl) as (lt & dt & -> & Hlt). clear Hb.
  apply bind_inv in H as (parent & h3 & [-> (l0 & d0 & [= <-] & Hd0 & Hparent)]%get_inv & H).
  rewrite Hlt in Hd0. injection Hd0 as <-.
  apply bind_inv in H as (b & h3 & [-> Hb]%is_dict_inv & H).
  destruct b; [|apply ret_inv in H as [_ ->]; by apply nothing_copied].
  destruct (Hb eq_refl) as (lp & dp & -> & Hlp). clear Hb.
  assert (mem_key (KStr "type_specific_fields") d = true) as Hmem.
  { destruct Htsf as [<-|(n & [= <-] & Hn)]; [by eapply lookup_default_mem|].
    rewrite Hlt in Hn. injection Hn as ->. done. }
  apply bind_inv in H as (psm & h3 & [-> _]%get_inv & H).
  apply bind_inv in H as (b & h3 & [-> Hb]%is_dict_inv & H).
  destruct b; [|apply ret_inv in H as [_ ->]; by apply nothing_copied].
  destruct (Hb eq_refl) as (lq & dq & -> & Hlq). clear Hb.
  apply bind_inv in H as (has_lines & h3 & ->%contains_inv & H).
  destruct has_lines; [|apply ret_inv in H as [_ ->]; by apply nothing_copied].
  rewrite (bind_eq _ _ _ _ _ (dict_copy_eq lq h2 dq Hlq)) in H.
  set (n3 := length h2) in *. set (h3 := h2 ++ [ODict dq]) in *.
  apply bind_inv in H as (lines & h4 & [-> _]%get_inv & H).
  apply bind_inv in H as (summary & h4 & Hp4%summarize_lines_inv & H).
  assert (h2 `prefix_of` h4) as Hp24.
  { etrans; [|exact Hp4]. by apply prefix_app_r. }
  assert (h4 !! n3 = Some (ODict dq)) as Hn3.
  { eapply prefix_lookup; [exact Hp4|]. by apply list_lookup_middle. }
  rewrite (bind_eq _ _ _ _ _ (set_item_at n3 h4 dq "lines" summary Hn3)) in H.
  set (h5 := <[n3 := _]> h4) in *.
  assert (h2 `prefix_of` h5) as Hp25 by (by apply prefix_insert_new).
  rewrite (bind_eq _ _ _ _ _ (dict_copy_eq lp h5 dp (prefix_lookup _ _ _ _ Hp25 Hlp))) in H.
  set (n5 := length h5) in *. set (h6 := h5 ++ [ODict dp]) in *.
  assert ((length h2 <= n5)%nat) as Hn5 by (by apply prefix_length).
  assert (h6 !! n5 = Some (ODict dp)) as Hn5' by (by apply list_lookup_middle).
  rewrite (bind_eq _ _ _ _ _ (set_item_at n5 h6 dp "source_mapping" (VRef n3) Hn5')) in H.
  set (h7 := <[n5 := _]> h6) in *.
  assert (h2 `prefix_of` h7) as Hp27.
  { apply prefix_insert_new; [|done]. etrans; [exact Hp25 | by apply prefix_app_r]. }
  rewrite (bind_eq _ _ _ _ _ (dict_copy_eq lt h7 dt (prefix_lookup _ _ _ _ Hp27 Hlt))) in H.
  set (n7 := length h7) in *. set (h8 := h7 ++ [ODict dt]) in *.
  assert ((length h2 <= n7)%nat) as Hn7 by (by apply prefix_length).
  assert (h8 !! n7 = Some (ODict dt)) as Hn7' by (by apply list_lookup_middle).
  rewrite (bind_eq _ _ _ _ _ (set_item_at n7 h8 dt "parent" (VRef n5) Hn7')) in H.
  set (h9 := <[n7 := _]> h8) in *.
  assert (h `prefix_of` h9) as Hp9.
  { etrans; [exact Hp2|]. apply prefix_insert_new; [|done].
    etrans; [exact Hp27 | by apply prefix_app_r]. }
  assert (h9 !! L = Some (ODict d)) as HL9 by (by eapply prefix_lookup).
  rewrite (set_item_at L h9 d "type_specific_fields" (VRef n7) HL9) in H.
  injection H as <-.
  assert ((L < length h9)%nat) as HLlt by (by eapply lookup_lt_Some).
  assert ((length h <= length h2)%nat) as Hlen2 by (by apply prefix_length).
  exists (set_key (KStr "type_specific_fields") (VRef n7) d).
  split; [by apply list_lookup_insert_eq|]. split; [|split].
  - apply copy_of_set; [done | left | lia].
  - rewrite length_insert. by apply prefix_length.
  - intros l Hl Hne. rewrite list_lookup_insert_ne by done.
    destruct (lookup_lt_is_Some_2 h l Hl) as [o Ho].
    rewrite Ho. by eapply prefix_lookup.
Qed.

End Copies.

(** X12. A shallow copy shares.  After a turn of the element loop on an
    element that is a dict object, the copy appended to [new_elems] is the
    object made first; it has the keys of the element in the same order, and
    under every key the very value of the element (for an object: the same
    reference), but for [source_mapping] and [type_specific_fields], which
    hold either that value or a reference to an object made during the turn.
    The element itself is as it was. *)
Theorem element_copy_shares_fields (h : store) (new_elems : val) (le : nat)
    (d : list (hkey * val)) (h' : store) :
  h !! le = Some (ODict d) ->
  trim_element new_elems (VRef le) h = (Done tt, h') ->
  exists d' ln items,
    new_elems = VRef ln /\
    h' !! ln = Some (OList (items ++ [VRef (length h)])) /\
    h' !! length h = Some (ODict d') /\
    copy_of h ["source_mapping"; "type_specific_fields"]%string d d' /\
    h' !! le = Some (ODict d).
Proof.
  intros Hle H. unfold trim_element in H.
  rewrite (bind_eq _ _ _ _ _ (dict_copy_eq le h d Hle)) in H.
  set (L := length h) in *. set (h1 := h ++ [ODict d]) in *.
  assert (h1 !! L = Some (ODict d)) as HL1 by (by apply list_lookup_middle).
  assert (length h1 = S L) as Hlen1 by (unfold h1; rewrite length_app; cbn; lia).
  assert ((le < L)%nat) as Hlt by (by eapply lookup_lt_Some).
  apply bind_inv in H as ([] & h2 & Hsm & H).
  destruct (trim_source_mapping_copy h1 L d h2 HL1 Hsm) as (d1 & HL2 & Hc1 & Hlen2 & Hold2).
  apply bind_inv in H as ([] & h3 & Hp & H).
  destruct (trim_parent_copy h2 L d1 h3 HL2 Hp) as (d2 & HL3 & Hc2 & Hlen3 & Hold3).
  apply append_inv in H as (ln & items & -> & Hln & ->).
  assert (ln <> L) as Hne by (intros ->; by rewrite HL3 in Hln).
  assert (h3 !! le = Some (ODict d)) as Hle3.
  { rewrite Hold3, Hold2 by lia. unfold h1. by rewrite lookup_app_l. }
  assert (ln <> le) as Hne' by (intros ->; by rewrite Hle3 in Hln).
  exists d2, ln, items. split; [done|]. split; [|split; [|split]].
  - apply list_lookup_insert_eq. by eapply lookup_lt_Some.
  - by rewrite list_lookup_insert_ne.
  - eapply copy_of_trans.
    + eapply (copy_of_mono h h1); [lia| |exact Hc1].
      intros ? ->%list_elem_of_singleton. left.
    + eapply (copy_of_mono h h2); [lia| |exact Hc2].
      intros ? ->%list_elem_of_singleton. right. left.
  - by rewrite list_lookup_insert_ne.
Qed.

Lemma element_copy_shares_fields_witness :
  exists d' ln items,
    VRef Cases.new_elems_ref = VRef ln /\
    snd (trim_element (VRef Cases.new_elems_ref) (VRef Cases.element_ref)
                            Cases.element_store) !! ln =
      Some (OList (items ++ [VRef (length Cases.element_store)])) /\
    snd (trim_element (VRef Cases.new_elems_ref) (VRef Cases.element_ref)
                            Cases.element_store) !! length Cases.element_store =
      Some (ODict d') /\
    copy_of Cases.element_store ["source_mapping"; "type_specific_fields"]%string
                    Cases.element_entries d' /\
    snd (trim_element (VRef Cases.new_elems_ref) (VRef Cases.element_ref)
                            Cases.element_store) !! Cases.element_ref =
      Some (ODict Cases.element_entries).
Proof.
  apply (element_copy_shares_fields Cases.element_store
           (VRef Cases.new_elems_ref) Cases.element_ref Cases.element_entries);
    vm_compute; reflexivity.
Defined.

End SharingFacts.
